(** * BookEasy: availability, conflict and cancellation policy

    A shallow embedding of the booking core of the BookEasy server:

    - [server/models/Provider.js]: [isAvailableAt], [getAvailableSlots];
    - [server/models/Booking.js]: the [appointmentDateTime] virtual,
      [canBeCancelled], [canBeRescheduled], [calculateRefund] and the
      [pre('save')] hook;
    - the payments router ([/api/payments]): the confirm-payment route
      and the Stripe webhook handlers;
    - the bookings router ([/api/bookings]): the create, status, cancel
      and reschedule routes.

    JavaScript values are modelled as follows.  A [Date] is its time value,
    an integer number of milliseconds since the epoch, or [None] for an
    Invalid Date (time value NaN).  What ECMA-262 leaves to the host, the
    offset of the server's time zone at each instant and the parsing of
    date strings outside the standard format, is a parameter [host] of the
    development.  Numbers that hold money or a number of
    hours are rationals: the only arithmetic the code performs on them is a
    division of an integer by 3600000 followed by a comparison with 2, 4 or
    24, and a multiplication by 0.5; both are exact on doubles at the
    magnitudes involved.  A thrown exception is a [Throw] completion. *)

From Stdlib Require Import ZArith QArith Lia List String Ascii Bool.
From Equations Require Import Equations.
Import ListNotations.

Local Open Scope string_scope.
Local Open Scope Z_scope.

(** ** Completions: a value or a thrown exception *)

Inductive JSError : Type :=
| RangeError (msg : string)
| TypeError (msg : string)
| Error (msg : string)
| ValidationError (msg : string)
| CastError (msg : string)
| StripeError (msg : string).

Inductive Completion (A : Type) : Type :=
| Normal (a : A)
| Throw (e : JSError).
Arguments Normal {A} a.
Arguments Throw {A} e.

Definition bindC {A B : Type} (c : Completion A) (k : A -> Completion B)
  : Completion B :=
  match c with
  | Normal a => k a
  | Throw e => Throw e
  end.

Declare Scope completion_scope.
Delimit Scope completion_scope with completion.
Notation "x <- c ;; k" := (bindC c (fun x => k))
  (at level 61, c at next level, right associativity) : completion_scope.

(** [Array.prototype.some] with a callback that may throw: the callback is
    run left to right, the first [true] stops the scan, an exception
    propagates. *)
Fixpoint someC {A : Type} (f : A -> Completion bool) (l : list A)
  : Completion bool :=
  match l with
  | [] => Normal false
  | x :: rest =>
      bindC (f x) (fun b => if b then Normal true else someC f rest)
  end.

(** ** Dates *)

Definition JSDate : Type := option Z.

Definition msPerMinute : Z := 60000.
Definition msPerHour : Z := 3600000.
Definition msPerDay : Z := 86400000.

(** ECMA-262 [TimeClip]: a time value beyond 8.64e15 ms is NaN. *)
Definition TimeClip (t : Z) : JSDate :=
  if Z.abs t <=? 8640000000000000 then Some t else None.

(** Relational operators on dates compare time values; every comparison
    with NaN is false. *)
Definition date_ltb (a b : JSDate) : bool :=
  match a, b with
  | Some x, Some y => x <? y
  | _, _ => false
  end.

Definition date_leb (a b : JSDate) : bool :=
  match a, b with
  | Some x, Some y => x <=? y
  | _, _ => false
  end.

Definition date_geb (a b : JSDate) : bool := date_leb b a.

Definition Day (t : Z) : Z := t / msPerDay.
Definition WeekDay (t : Z) : Z := (Day t + 4) mod 7.
Definition HourFromTime (t : Z) : Z := (t / msPerHour) mod 24.
Definition MinFromTime (t : Z) : Z := (t / msPerMinute) mod 60.

(** Decimal digits. *)
Definition digitVal (c : ascii) : option Z :=
  let n := nat_of_ascii c in
  if (48 <=? n)%nat && (n <=? 57)%nat then Some (Z.of_nat (n - 48)) else None.

Definition digitChar (d : Z) : ascii := ascii_of_nat (48 + Z.to_nat d).

Definition pad2 (n : Z) : string :=
  String (digitChar (n / 10)) (String (digitChar (n mod 10)) EmptyString).

(** *** The time of day in the ECMA-262 date-time string format

    After the [T] the format admits [HH:mm], [HH:mm:ss] and
    [HH:mm:ss.sss], each optionally followed by a UTC offset, [Z] or
    [+HH:mm] or [-HH:mm]. *)

Definition twoDigits (s : string) : option (Z * string) :=
  match s with
  | String a (String b rest) =>
      match digitVal a, digitVal b with
      | Some x, Some y => Some (10 * x + y, rest)
      | _, _ => None
      end
  | _ => None
  end.

Definition threeDigits (s : string) : option (Z * string) :=
  match s with
  | String a (String b (String c rest)) =>
      match digitVal a, digitVal b, digitVal c with
      | Some x, Some y, Some z => Some (100 * x + 10 * y + z, rest)
      | _, _, _ => None
      end
  | _ => None
  end.

(** The UTC offset at the end of the string: absent, [Z], or a sign with
    hours and minutes. *)
Inductive Designator : Type :=
| NoDesignator
| Zulu
| Offset (sign hh mm : Z).

Definition parseDesignator (s : string) : option Designator :=
  match s with
  | EmptyString => Some NoDesignator
  | String c rest =>
      if Ascii.eqb c "Z" then
        match rest with
        | EmptyString => Some Zulu
        | _ => None
        end
      else if Ascii.eqb c "+" || Ascii.eqb c "-" then
        match twoDigits rest with
        | Some (hh, String sep rest') =>
            if Ascii.eqb sep ":" then
              match twoDigits rest' with
              | Some (mm, EmptyString) =>
                  Some (Offset (if Ascii.eqb c "+" then 1 else -1) hh mm)
              | _ => None
              end
            else None
        | _ => None
        end
      else None
  end.

(** What may follow [HH:mm]: seconds, seconds and milliseconds, or
    neither, and then the offset. *)
Definition parseSeconds (s : string) : option (Z * Z * Designator) :=
  match s with
  | String c rest =>
      if Ascii.eqb c ":" then
        match twoDigits rest with
        | Some (ss, String dot rest') =>
            if Ascii.eqb dot "." then
              match threeDigits rest' with
              | Some (ms, rest'') =>
                  option_map (fun z => (ss, ms, z)) (parseDesignator rest'')
              | None => None
              end
            else
              option_map (fun z => (ss, 0, z))
                (parseDesignator (String dot rest'))
        | Some (ss, EmptyString) => Some (ss, 0, NoDesignator)
        | None => None
        end
      else option_map (fun z => (0, 0, z)) (parseDesignator s)
  | EmptyString => Some (0, 0, NoDesignator)
  end.

(** A time of day read off a string: milliseconds since local midnight
    when the string carries no offset, milliseconds since midnight UTC
    when it does.  A string of the right shape with a field out of bounds
    is rejected; a string of another shape is not in the format.  [24:00]
    is the end of the day. *)
Inductive TimeOfDay : Type :=
| LocalTimeOfDay (ms : Z)
| UtcTimeOfDay (ms : Z)
| OutOfBounds
| NotInFormat.

Definition timeInBounds (hh mm ss ms : Z) : bool :=
  ((hh <=? 23) && (mm <=? 59) && (ss <=? 59))
  || ((hh =? 24) && (mm =? 0) && (ss =? 0) && (ms =? 0)).

Definition parseTimeOfDay (s : string) : TimeOfDay :=
  match twoDigits s with
  | Some (hh, String sep rest) =>
      if Ascii.eqb sep ":" then
        match twoDigits rest with
        | Some (mm, rest') =>
            match parseSeconds rest' with
            | Some (ss, ms, z) =>
                let tod := hh * msPerHour + mm * msPerMinute + ss * 1000 + ms in
                match z with
                | NoDesignator =>
                    if timeInBounds hh mm ss ms then LocalTimeOfDay tod
                    else OutOfBounds
                | Zulu =>
                    if timeInBounds hh mm ss ms then UtcTimeOfDay tod
                    else OutOfBounds
                | Offset sign oh om =>
                    if timeInBounds hh mm ss ms && (oh <=? 23) && (om <=? 59)
                    then UtcTimeOfDay
                           (tod - sign * (oh * msPerHour + om * msPerMinute))
                    else OutOfBounds
                end
            | None => NotInFormat
            end
        | None => NotInFormat
        end
      else NotInFormat
  | _ => NotInFormat
  end.

(** Day number of 2000-01-01. *)
Definition day2000 : Z := 10957.

(** [String.prototype.split(':')]. *)
Fixpoint splitColon (acc : string) (s : string) : list string :=
  match s with
  | EmptyString => [acc]
  | String c rest =>
      if Ascii.eqb c ":" then acc :: splitColon EmptyString rest
      else splitColon (acc ++ String c EmptyString) rest
  end.

Definition split (s : string) : list string := splitColon EmptyString s.

(** [parseInt(s)] with no radix: leading white space and a sign are
    skipped, a [0x] prefix selects base 16, and the longest prefix of
    digits is read; [None] is NaN. *)
Definition isWhiteSpace (c : ascii) : bool :=
  let n := nat_of_ascii c in
  ((9 <=? n)%nat && (n <=? 13)%nat) || (n =? 32)%nat.

Fixpoint skipWhiteSpace (s : string) : string :=
  match s with
  | String c rest => if isWhiteSpace c then skipWhiteSpace rest else s
  | EmptyString => s
  end.

Definition hexVal (c : ascii) : option Z :=
  let n := nat_of_ascii c in
  if (48 <=? n)%nat && (n <=? 57)%nat then Some (Z.of_nat (n - 48))
  else if (97 <=? n)%nat && (n <=? 102)%nat then Some (Z.of_nat (n - 87))
  else if (65 <=? n)%nat && (n <=? 70)%nat then Some (Z.of_nat (n - 55))
  else None.

Fixpoint readDigits (radix : Z) (val : ascii -> option Z) (acc : option Z)
  (s : string) : option Z :=
  match s with
  | EmptyString => acc
  | String c rest =>
      match val c with
      | Some d =>
          readDigits radix val
            (Some (match acc with Some a => a * radix + d | None => d end))
            rest
      | None => acc
      end
  end.

Definition parseUnsigned (s : string) : option Z :=
  match s with
  | String "0" (String x rest) =>
      if Ascii.eqb x "x" || Ascii.eqb x "X"
      then readDigits 16 hexVal None rest
      else readDigits 10 digitVal None s
  | _ => readDigits 10 digitVal None s
  end.

Definition parseInt (s : option string) : option Z :=
  match s with
  | None => None
  | Some str =>
      match skipWhiteSpace str with
      | String "-" rest => option_map Z.opp (parseUnsigned rest)
      | String "+" rest => parseUnsigned rest
      | rest => parseUnsigned rest
      end
  end.

(** ** Intl: the [weekday] option of [toLocaleDateString]

    ECMA-402 reads the option with [GetOption(options, "weekday", string,
    << "narrow", "short", "long" >>, undefined)], which throws a RangeError
    when the supplied value is not one of the listed ones. *)

Definition weekdayStyles : list string := ["narrow"; "short"; "long"].

Definition GetOption (property value : string) (values : list string)
  : Completion string :=
  if existsb (String.eqb value) values then Normal value
  else Throw (RangeError ("Value " ++ value ++
         " out of range for Intl.DateTimeFormat options property " ++ property)).

Definition weekdayLong (d : Z) : string :=
  nth (Z.to_nat d)
    ["Sunday"; "Monday"; "Tuesday"; "Wednesday"; "Thursday"; "Friday"; "Saturday"]
    "".

Definition formatWeekday (style : string) (d : Z) : string :=
  if String.eqb style "long" then weekdayLong d
  else if String.eqb style "short" then substring 0 3 (weekdayLong d)
  else substring 0 1 (weekdayLong d).

(** ** Data model *)

Definition ObjectId : Type := nat.
Bind Scope nat_scope with ObjectId.

(** A working day.  [day] is a string, absent on an entry stored without
    it.  The schema lists the seven lower-case day names for it, a
    restriction Mongoose enforces when a document is validated; PUT
    /api/providers/availability stores the array it is sent through
    [findByIdAndUpdate], which casts the fields to their types and runs no
    validator, so that a stored [day] may be any string. *)
Record WorkingDay : Type := mkWorkingDay {
  wd_day : option string;
  wd_startTime : string;
  wd_endTime : string;
  wd_isAvailable : bool
}.

(** A blocked date; [bd_date = None] is an entry whose [date] is absent. *)
Record BlockedDate : Type := mkBlockedDate {
  bd_date : option Z;
  bd_reason : option string
}.

Record Service : Type := mkService {
  sv_name : string;
  sv_description : option string;
  sv_duration : Z;
  sv_price : Q;
  sv_isActive : bool
}.

Record Provider : Type := mkProvider {
  p_id : ObjectId;
  p_services : list Service;
  p_workingDays : list WorkingDay;
  p_blockedDates : list BlockedDate
}.

Record Slot : Type := mkSlot {
  sl_startTime : string;
  sl_endTime : string;
  sl_isAvailable : bool
}.

Inductive BookingStatus : Type :=
| st_pending | st_confirmed | st_in_progress | st_completed | st_cancelled
| st_no_show.

Inductive PaymentStatus : Type :=
| pay_pending | pay_succeeded | pay_failed | pay_cancelled.

Inductive Actor : Type := by_customer | by_provider | by_system.

Inductive RefundStatus : Type := rf_pending | rf_processed | rf_failed.

Record ServiceSnapshot : Type := mkSnapshot {
  sn_name : string;
  sn_description : option string;
  sn_duration : Z;
  sn_price : Q
}.

Record Payment : Type := mkPayment {
  stripePaymentIntentId : option string;
  amount : Q;
  currency : string;
  pay_status : PaymentStatus;
  paidAt : option Z
}.

Record Cancellation : Type := mkCancellation {
  cancelledBy : Actor;
  cancelledAt : Z;
  cn_reason : option string;
  refundAmount : Q;
  refundStatus : RefundStatus
}.

Record Reschedule : Type := mkReschedule {
  originalDate : JSDate;
  originalStartTime : string;
  originalEndTime : string;
  newDate : JSDate;
  newStartTime : string;
  newEndTime : string;
  rs_reason : option string;
  rescheduledAt : Z;
  rescheduledBy : Actor
}.

(** The fields of a booking document that the modelled code reads or
    writes ([location], [reminders], [review] and [customerNotes] are not
    touched by it). *)
Record Booking : Type := mkBooking {
  b_id : ObjectId;
  customer : ObjectId;
  provider : ObjectId;
  service : ServiceSnapshot;
  appointmentDate : JSDate;
  startTime : string;
  endTime : string;
  status : BookingStatus;
  notes : option string;
  providerNotes : option string;
  payment : Payment;
  cancellation : option Cancellation;
  rescheduleHistory : list Reschedule
}.

Definition BookingStatus_eqb (a b : BookingStatus) : bool :=
  match a, b with
  | st_pending, st_pending | st_confirmed, st_confirmed
  | st_in_progress, st_in_progress | st_completed, st_completed
  | st_cancelled, st_cancelled | st_no_show, st_no_show => true
  | _, _ => false
  end.

Definition PaymentStatus_eqb (a b : PaymentStatus) : bool :=
  match a, b with
  | pay_pending, pay_pending | pay_succeeded, pay_succeeded
  | pay_failed, pay_failed | pay_cancelled, pay_cancelled => true
  | _, _ => false
  end.

(** Field updates ([booking.status = ...] and the like). *)
Definition set_status (s : BookingStatus) (b : Booking) : Booking :=
  mkBooking (b_id b) (customer b) (provider b) (service b) (appointmentDate b)
    (startTime b) (endTime b) s (notes b) (providerNotes b) (payment b)
    (cancellation b) (rescheduleHistory b).

Definition set_providerNotes (n : option string) (b : Booking) : Booking :=
  mkBooking (b_id b) (customer b) (provider b) (service b) (appointmentDate b)
    (startTime b) (endTime b) (status b) (notes b) n (payment b)
    (cancellation b) (rescheduleHistory b).

Definition set_payment (p : Payment) (b : Booking) : Booking :=
  mkBooking (b_id b) (customer b) (provider b) (service b) (appointmentDate b)
    (startTime b) (endTime b) (status b) (notes b) (providerNotes b) p
    (cancellation b) (rescheduleHistory b).

Definition set_cancellation (c : option Cancellation) (b : Booking) : Booking :=
  mkBooking (b_id b) (customer b) (provider b) (service b) (appointmentDate b)
    (startTime b) (endTime b) (status b) (notes b) (providerNotes b) (payment b)
    c (rescheduleHistory b).

Definition set_rescheduleHistory (h : list Reschedule) (b : Booking) : Booking :=
  mkBooking (b_id b) (customer b) (provider b) (service b) (appointmentDate b)
    (startTime b) (endTime b) (status b) (notes b) (providerNotes b) (payment b)
    (cancellation b) h.

Definition set_appointmentDate (d : JSDate) (b : Booking) : Booking :=
  mkBooking (b_id b) (customer b) (provider b) (service b) d
    (startTime b) (endTime b) (status b) (notes b) (providerNotes b) (payment b)
    (cancellation b) (rescheduleHistory b).

Definition set_startTime (t : string) (b : Booking) : Booking :=
  mkBooking (b_id b) (customer b) (provider b) (service b) (appointmentDate b)
    t (endTime b) (status b) (notes b) (providerNotes b) (payment b)
    (cancellation b) (rescheduleHistory b).

Definition set_pay_status (s : PaymentStatus) (p : Payment) : Payment :=
  mkPayment (stripePaymentIntentId p) (amount p) (currency p) s (paidAt p).

Definition set_paidAt (t : option Z) (p : Payment) : Payment :=
  mkPayment (stripePaymentIntentId p) (amount p) (currency p) (pay_status p) t.

(** ** The database and the request handlers *)

Record Store : Type := mkStore {
  bookings : list Booking;
  providers : list Provider
}.

(** What a request sees of the outside world: the clock as the request
    first reads it, the [_id] generated for a new document, the status
    Stripe reports for a payment intent (or the exception the call
    throws), whether the mail transport delivers, and by how many
    milliseconds the clock has moved on at each further reading. *)
Record Env : Type := mkEnv {
  now : Z;
  freshId : ObjectId;
  paymentIntentStatus : string -> Completion string;
  emailDelivers : bool;
  elapsed : nat -> nat
}.

(** [new Date()] at the [k]-th reading of the clock after the first. *)
Definition clockAt (env : Env) (k : nat) : Z :=
  now env + Z.of_nat (elapsed env k).

(** The request as it stands at that reading. *)
Definition atReading (k : nat) (env : Env) : Env :=
  mkEnv (clockAt env k) (freshId env) (paymentIntentStatus env)
    (emailDelivers env) (elapsed env).

Record Response : Type := mkResponse {
  statusCode : Z;
  message : string
}.

(** A step of a handler body completes normally, ends the request with
    [return res.status(..).json(..)], or throws. *)
Inductive Step (A : Type) : Type :=
| Ret (a : A)
| Reply (r : Response)
| Raise (e : JSError).
Arguments Ret {A} a.
Arguments Reply {A} r.
Arguments Raise {A} e.

Definition Handler (A : Type) : Type := Store -> Store * Step A.

Definition retH {A : Type} (a : A) : Handler A := fun s => (s, Ret a).

Definition bindH {A B : Type} (c : Handler A) (k : A -> Handler B)
  : Handler B :=
  fun s =>
    match c s with
    | (s', Ret a) => k a s'
    | (s', Reply r) => (s', Reply r)
    | (s', Raise e) => (s', Raise e)
    end.

Declare Scope handler_scope.
Delimit Scope handler_scope with handler.
Notation "x <- c ;; k" := (bindH c (fun x => k))
  (at level 61, c at next level, right associativity) : handler_scope.
Notation "c ;; k" := (bindH c (fun _ => k))
  (at level 61, right associativity) : handler_scope.

Definition liftC {A : Type} (c : Completion A) : Handler A :=
  fun s =>
    match c with
    | Normal a => (s, Ret a)
    | Throw e => (s, Raise e)
    end.

Definition reply {A : Type} (code : Z) (msg : string) : Handler A :=
  fun s => (s, Reply (mkResponse code msg)).

(** [if (cond) { return res.status(code).json({ message }) }] *)
Definition rejectIf (cond : bool) (code : Z) (msg : string) : Handler unit :=
  if cond then reply code msg else retH tt.

(** The body of the 400 response that carries [errors.array()]. *)
Definition validationErrors : string := "errors".

(** What the client and the server log get from a request: the response,
    and the exception the route's [catch] block logged, if any. *)
Record HttpResult : Type := mkHttpResult {
  response : Response;
  caught : option JSError
}.

(** [try { body } catch (error) { console.error(..);
    res.status(500).json({ message: failure }) }] *)
Definition route (body : Handler Response) (failure : string)
  : Store -> Store * HttpResult :=
  fun s =>
    match body s with
    | (s', Ret r) => (s', mkHttpResult r None)
    | (s', Reply r) => (s', mkHttpResult r None)
    | (s', Raise e) => (s', mkHttpResult (mkResponse 500 failure) (Some e))
    end.

(** ** The host: the server's time zone and the engine's date parser

    ECMA-262 leaves two things to the host.  [LocalTZA t isUTC] is the
    offset of local time from UTC, in milliseconds: the offset in force at
    the instant [t] when [isUTC] is [true], and the one that applies to
    the local time [t] when it is [false].  With daylight saving it varies
    with [t].  An offset is less than a day, and the clock moves on: the
    same local time of day on the next local day is a later instant.
    [parseFallback s] is what [Date.parse] makes of a string [s] that is
    outside the date-time string format, which is left to the engine. *)
Record Host : Type := mkHost {
  LocalTZA : Z -> bool -> Z;
  parseFallback : string -> JSDate;
  offsetBelowDay : forall (t : Z) (isUTC : bool),
    Z.abs (LocalTZA t isUTC) < msPerDay;
  nextDayIsLater : forall t : Z,
    t < t + LocalTZA t true + msPerDay
        - LocalTZA (t + LocalTZA t true + msPerDay) false
}.

(** A server in a zone of fixed offset, whose engine rejects every string
    outside the format; and one that runs in UTC. *)
Definition fixedOffsetHost (off : Z) (H : Z.abs off < msPerDay) : Host :=
  mkHost (fun _ _ => off) (fun _ => None) (fun _ _ => H)
    (fun t => ltac:(cbv beta; unfold msPerDay; lia)).

Definition utcHost : Host := fixedOffsetHost 0 eq_refl.

(** Servers one hour east and five hours west of Greenwich. *)
Definition hostEast : Host := fixedOffsetHost 3600000 eq_refl.
Definition hostWest : Host := fixedOffsetHost (-18000000) eq_refl.

(** New York in 2024: five hours west of Greenwich, and four while
    daylight saving is in force, from 2024-03-10 07:00 UTC to 2024-11-03
    06:00 UTC.  A local time that the change in spring skips, or that the
    change in autumn repeats, is read with the offset in force before the
    change. *)
Definition newYorkOffset (t : Z) (isUTC : bool) : Z :=
  let shift := if isUTC then 0 else 4 * msPerHour in
  if (1710054000000 - shift <=? t) && (t <? 1730613600000 - shift)
  then -4 * msPerHour
  else -5 * msPerHour.

Definition hostNewYork : Host :=
  mkHost newYorkOffset (fun _ => None)
    (fun t isUTC =>
       ltac:(unfold newYorkOffset; cbv zeta;
             destruct (_ && _); vm_compute; reflexivity))
    (fun t =>
       ltac:(unfold newYorkOffset; cbv zeta;
             repeat match goal with
                    | |- context [ if ?c then _ else _ ] => destruct c
                    end;
             unfold msPerDay, msPerHour; lia)).

Section Server.

Variable host : Host.

Definition LocalTime (t : Z) : Z := t + LocalTZA host t true.
Definition UTC (t : Z) : Z := t - LocalTZA host t false.

(** [new Date(`2000-01-01T${time}`)]: a date-time without an offset is
    local time, one with an offset is not.  The result lies within two
    days of 2000-01-01, far from the range limit of [TimeClip]. *)
Definition newDate2000 (time : string) : JSDate :=
  match parseTimeOfDay time with
  | LocalTimeOfDay tod => Some (UTC (day2000 * msPerDay + tod))
  | UtcTimeOfDay tod => Some (day2000 * msPerDay + tod)
  | OutOfBounds => None
  | NotInFormat => parseFallback host ("2000-01-01T" ++ time)
  end.

(** [d.toTimeString().slice(0, 5)]: the local [HH:MM], or the first five
    characters of ["Invalid Date"]. *)
Definition toTimeString_slice5 (d : JSDate) : string :=
  match d with
  | Some t =>
      pad2 (HourFromTime (LocalTime t)) ++ ":" ++ pad2 (MinFromTime (LocalTime t))
  | None => "Inval"
  end.

(** [d.toDateString()] prints the local calendar day, as in
    ["Mon Jun 10 2024"], or ["Invalid Date"].  The text is determined by,
    and determines, the local day number, which stands for it here;
    [None] is ["Invalid Date"]. *)
Definition toDateString (d : JSDate) : option Z :=
  match d with
  | Some t => Some (Day (LocalTime t))
  | None => None
  end.

Definition dateString_eqb (a b : option Z) : bool :=
  match a, b with
  | Some x, Some y => x =? y
  | None, None => true
  | _, _ => false
  end.

(** [date.toLocaleDateString('en-US', { weekday: w })].  An Invalid Date
    prints as ["Invalid Date"] before the options are read. *)
Definition toLocaleDateString (date : JSDate) (weekday : string)
  : Completion string :=
  match date with
  | None => Normal "Invalid Date"
  | Some t =>
      bindC (GetOption "weekday" weekday weekdayStyles)
        (fun style => Normal (formatWeekday style (WeekDay (LocalTime t))))
  end.

(** ** Provider.js *)

Local Open Scope completion_scope.

Definition dayMatches (dayName : string) (day : WorkingDay) : bool :=
  match wd_day day with
  | Some d => String.eqb d dayName
  | None => false
  end.

(** [blocked.date.toDateString() === date.toDateString()] *)
Definition blockedOn (date : JSDate) (blocked : BlockedDate) : Completion bool :=
  match bd_date blocked with
  | None =>
      Throw (TypeError "Cannot read properties of undefined (reading 'toDateString')")
  | Some d => Normal (dateString_eqb (toDateString (Some d)) (toDateString date))
  end.

(** The statements of [isAvailableAt] that follow the computation of
    [dayName]. *)
Definition isAvailableAt_from (p : Provider) (dayName : string) (date : JSDate)
  (time : string) : Completion bool :=
  match find (dayMatches dayName) (p_workingDays p) with
  | None => Normal false
  | Some workingDay =>
      if negb (wd_isAvailable workingDay) then Normal false
      else
        isBlocked <- someC (blockedOn date) (p_blockedDates p) ;;
        if isBlocked then Normal false
        else
          let requestedTime := newDate2000 time in
          let startTime := newDate2000 (wd_startTime workingDay) in
          let endTime := newDate2000 (wd_endTime workingDay) in
          Normal (date_geb requestedTime startTime
                  && date_ltb requestedTime endTime)
  end.

Definition isAvailableAt (p : Provider) (date : JSDate) (time : string)
  : Completion bool :=
  dayName <- toLocaleDateString date "lowercase" ;;
  isAvailableAt_from p dayName date time.

Definition slotDuration : Z := 30.

(** The [while (currentTime < endTime)] loop of [getAvailableSlots]; it
    advances by [slotDuration] minutes per turn.  The loop runs on valid
    dates only, between its two bounds. *)
Equations? slotsLoop (currentTime endTime : Z) (slots : list Slot)
  : list Slot by wf (Z.to_nat (endTime - currentTime)) lt :=
  slotsLoop currentTime endTime slots with Z_lt_dec currentTime endTime => {
    | left _ =>
        let slotEnd := currentTime + slotDuration * 60000 in
        slotsLoop slotEnd endTime
          (if slotEnd <=? endTime
           then slots ++ [ mkSlot (toTimeString_slice5 (Some currentTime))
                                  (toTimeString_slice5 (Some slotEnd)) true ]
           else slots) ;
    | right _ => slots }.
Proof. unfold slotDuration. lia. Qed.

(** The statements of [getAvailableSlots] that follow the computation of
    [dayName].  The loop is entered only when both bounds are valid dates
    ([currentTime < endTime] is false otherwise). *)
Definition getAvailableSlots_from (p : Provider) (dayName : string)
  (date : JSDate) : Completion (list Slot) :=
  match find (dayMatches dayName) (p_workingDays p) with
  | None => Normal []
  | Some workingDay =>
      if negb (wd_isAvailable workingDay) then Normal []
      else
        isBlocked <- someC (blockedOn date) (p_blockedDates p) ;;
        if isBlocked then Normal []
        else
          let startTime := newDate2000 (wd_startTime workingDay) in
          let endTime := newDate2000 (wd_endTime workingDay) in
          match startTime, endTime with
          | Some s, Some e => Normal (slotsLoop s e [])
          | _, _ => Normal []
          end
  end.

Definition getAvailableSlots (p : Provider) (date : JSDate)
  : Completion (list Slot) :=
  dayName <- toLocaleDateString date "lowercase" ;;
  getAvailableSlots_from p dayName date.

Local Close Scope completion_scope.

(** ** Booking.js *)

(** [date.setHours(h, m, 0, 0)]: the local day of [date] with the given
    local time of day; NaN if the date or an argument is NaN. *)
Definition setHours (date : JSDate) (h m : option Z) : JSDate :=
  match date, h, m with
  | Some t, Some hh, Some mm =>
      TimeClip (UTC (Day (LocalTime t) * msPerDay
                     + (hh * msPerHour + mm * msPerMinute)))
  | _, _, _ => None
  end.

(** The [appointmentDateTime] virtual. *)
Definition appointmentDateTime (b : Booking) : JSDate :=
  let date := appointmentDate b in
  let parts := split (startTime b) in
  let hours := nth_error parts 0 in
  let minutes := nth_error parts 1 in
  setHours date (parseInt hours) (parseInt minutes).

(** [(appointmentTime - now) / (1000 * 60 * 60)]; [None] is NaN.  The
    difference is an integer number of milliseconds.  On doubles the
    quotient is rounded, but rounding is monotone, 2, 4 and 24 are exact,
    and a difference other than [k * 3600000] gives a quotient at least
    1/3600000 away from [k]: the comparisons with 2, 4 and 24 come out as
    on the exact quotient. *)
Definition hoursUntilAppointment (appointmentTime : JSDate) (now : Z)
  : option Q :=
  match appointmentTime with
  | Some t => Some (inject_Z (t - now) / inject_Z (1000 * 60 * 60))%Q
  | None => None
  end.

(** [x > y] on numbers; false when [x] is NaN. *)
Definition num_gtb (x : option Q) (y : Q) : bool :=
  match x with
  | Some q => negb (Qle_bool q y)
  | None => false
  end.

Definition canBeCancelled (b : Booking) (now : Z) : bool :=
  let appointmentTime := appointmentDateTime b in
  let hours := hoursUntilAppointment appointmentTime now in
  num_gtb hours 2 && BookingStatus_eqb (status b) st_confirmed.

Definition canBeRescheduled (b : Booking) (now : Z) : bool :=
  let appointmentTime := appointmentDateTime b in
  let hours := hoursUntilAppointment appointmentTime now in
  num_gtb hours 4 && BookingStatus_eqb (status b) st_confirmed.

Definition calculateRefund (b : Booking) (now : Z) : Q :=
  let appointmentTime := appointmentDateTime b in
  let hours := hoursUntilAppointment appointmentTime now in
  if num_gtb hours 24 then amount (payment b)
  else if num_gtb hours 2 then (amount (payment b) * (1 # 2))%Q
  else 0%Q.

(** The [pre('save')] hook. *)
Definition preSave (b : Booking) (now : Z) : Completion unit :=
  if date_ltb (appointmentDate b) (Some now)
  then Throw (Error "Appointment date cannot be in the past")
  else Normal tt.

(** [required: true] on a String path rejects the empty string. *)
Definition requiredString (path value : string) : Completion unit :=
  if String.eqb value ""
  then Throw (ValidationError ("Booking validation failed: " ++ path))
  else Normal tt.

(** Schema validation, which Mongoose runs on [save] ahead of the hooks
    the schema registers.  The record type already provides every required
    field; what can still fail is a required string being empty
    ([service.name], [startTime], [endTime]), [appointmentDate] holding no
    valid date, and [notes] exceeding [maxlength: 500]. *)
Definition validateBooking (b : Booking) : Completion unit :=
  bindC (requiredString "service.name" (sn_name (service b))) (fun _ =>
  bindC (requiredString "startTime" (startTime b)) (fun _ =>
  bindC (requiredString "endTime" (endTime b)) (fun _ =>
  match appointmentDate b with
  | None =>
      Throw (ValidationError "Booking validation failed: appointmentDate")
  | Some _ =>
      match notes b with
      | Some n =>
          if (String.length n <=? 500)%nat then Normal tt
          else Throw (ValidationError "Booking validation failed: notes")
      | None => Normal tt
      end
  end))).

(** ** Queries and [save] *)

Definition Booking_findById (id : ObjectId) : Handler (option Booking) :=
  fun s => (s, Ret (find (fun b => Nat.eqb (b_id b) id) (bookings s))).

Definition Provider_findById (id : ObjectId) : Handler (option Provider) :=
  fun s => (s, Ret (find (fun p => Nat.eqb (p_id p) id) (providers s))).

(** [Booking.findOne({ 'payment.stripePaymentIntentId': id })] *)
Definition hasPaymentIntent (id : string) (b : Booking) : bool :=
  match stripePaymentIntentId (payment b) with
  | Some i => String.eqb i id
  | None => false
  end.

Definition Booking_findOne_byPaymentIntent (id : string)
  : Handler (option Booking) :=
  fun s => (s, Ret (find (hasPaymentIntent id) (bookings s))).

(** The filter [{ provider, appointmentDate, startTime,
    status: { $in: ['confirmed', 'pending'] } }], with [_id: { $ne: .. }]
    added when a booking is excluded. *)
Definition conflictsWith (providerId : ObjectId) (date : Z) (time : string)
  (exclude : option ObjectId) (b : Booking) : bool :=
  Nat.eqb (provider b) providerId
  && match appointmentDate b with Some d => d =? date | None => false end
  && String.eqb (startTime b) time
  && (BookingStatus_eqb (status b) st_confirmed
      || BookingStatus_eqb (status b) st_pending)
  && match exclude with
     | Some id => negb (Nat.eqb (b_id b) id)
     | None => true
     end.

(** The conflict query.  An Invalid Date cannot be cast for the
    [appointmentDate] path and the query throws. *)
Definition Booking_findOne_conflict (providerId : ObjectId) (date : JSDate)
  (time : string) (exclude : option ObjectId) : Handler (option Booking) :=
  fun s =>
    match date with
    | Some d =>
        (s, Ret (find (conflictsWith providerId d time exclude) (bookings s)))
    | None =>
        (s, Raise (CastError "Cast to date failed for path appointmentDate"))
    end.

(** *** [save] *)

Fixpoint replaceBooking (b : Booking) (l : list Booking) : list Booking :=
  match l with
  | [] => []
  | x :: rest =>
      if Nat.eqb (b_id x) (b_id b) then b :: rest
      else x :: replaceBooking b rest
  end.

(** A document whose [_id] is in the collection is updated in place, a
    new one is inserted. *)
Definition writeBooking (b : Booking) (s : Store) : Store :=
  if existsb (fun x => Nat.eqb (b_id x) (b_id b)) (bookings s)
  then mkStore (replaceBooking b (bookings s)) (providers s)
  else mkStore (bookings s ++ [b]) (providers s).

(** [await booking.save()]: validation, then the [pre('save')] hook, then
    the write. *)
Definition save (env : Env) (b : Booking) : Handler unit :=
  fun s =>
    match validateBooking b with
    | Throw e => (s, Raise e)
    | Normal _ =>
        match preSave b (now env) with
        | Throw e => (s, Raise e)
        | Normal _ => (writeBooking b s, Ret tt)
        end
    end.

(** [await sendBookingConfirmation(customer, booking)]: [sendEmail]
    rethrows a transport failure as a fresh error. *)
Definition sendBookingConfirmation (env : Env) : Handler unit :=
  fun s =>
    if emailDelivers env then (s, Ret tt)
    else (s, Raise (Error "Failed to send email")).

(** *** Requests

    A request is what the handler reads of it once the middleware has run:
    the authenticated user ([req.user], and [req.provider] where a
    middleware sets it), the parsed body, and whether express-validator's
    [validationResult] is empty.  A body field that the handler passes to
    [new Date(..)] is given as that date. *)

Inductive Role : Type := role_customer | role_provider | role_admin.

Definition isProviderRole (r : Role) : bool :=
  match r with role_provider => true | _ => false end.

Record ConfirmPaymentReq : Type := mkConfirmPaymentReq {
  cp_valid : bool;
  cp_user : ObjectId;
  cp_paymentIntentId : string
}.

Record CreateReq : Type := mkCreateReq {
  cr_valid : bool;
  cr_user : ObjectId;
  cr_providerId : ObjectId;
  cr_serviceName : string;
  cr_appointmentDate : JSDate;
  cr_startTime : string;
  cr_notes : option string
}.

Record StatusReq : Type := mkStatusReq {
  sr_valid : bool;
  sr_provider : ObjectId;
  sr_id : ObjectId;
  sr_status : BookingStatus;
  sr_notes : option string
}.

Record CancelReq : Type := mkCancelReq {
  cn_user : ObjectId;
  cn_role : Role;
  cn_provider : option ObjectId;
  cn_id : ObjectId;
  cn_reasonGiven : option string
}.

Record RescheduleReq : Type := mkRescheduleReq {
  rr_valid : bool;
  rr_user : ObjectId;
  rr_role : Role;
  rr_provider : option ObjectId;
  rr_id : ObjectId;
  rr_newDate : JSDate;
  rr_newStartTime : string;
  rr_reason : option string
}.

(** [req.user.role === 'provider' &&
     booking.provider.toString() === req.provider?._id.toString()] *)
Definition isProviderOf (role : Role) (reqProvider : option ObjectId)
  (b : Booking) : bool :=
  isProviderRole role
  && match reqProvider with
     | Some p => Nat.eqb (provider b) p
     | None => false
     end.

(** Truthiness of an optional string. *)
Definition truthy (s : option string) : bool :=
  match s with
  | Some EmptyString => false
  | Some _ => true
  | None => false
  end.

(** *** payments.js *)

Local Open Scope handler_scope.

(** POST /api/payments/confirm-payment.  The customer the booking refers
    to is taken to exist, so that [populate('customer', ..)] yields a
    document.  The clock is read for [paidAt] and again by the
    [pre('save')] hook; the two readings are taken to fall in the same
    millisecond, here and in the webhook handler. *)
Definition confirmPaymentHandler (env : Env) (req : ConfirmPaymentReq)
  : Handler Response :=
  rejectIf (negb (cp_valid req)) 400 validationErrors ;;
  intentStatus <- liftC (paymentIntentStatus env (cp_paymentIntentId req)) ;;
  rejectIf (negb (String.eqb intentStatus "succeeded")) 400
    "Payment not completed" ;;
  found <- Booking_findOne_byPaymentIntent (cp_paymentIntentId req) ;;
  match found with
  | None => reply 404 "Booking not found"
  | Some booking =>
      rejectIf (negb (Nat.eqb (customer booking) (cp_user req))) 403
        "Access denied" ;;
      let booking :=
        set_payment (set_pay_status pay_succeeded (payment booking)) booking in
      let booking :=
        set_payment (set_paidAt (Some (now env)) (payment booking)) booking in
      let booking := set_status st_confirmed booking in
      save env booking ;;
      sendBookingConfirmation env ;;
      retH (mkResponse 200 "Payment confirmed successfully")
  end.

Definition confirmPayment (env : Env) (req : ConfirmPaymentReq)
  : Store -> Store * HttpResult :=
  route (confirmPaymentHandler env req)
    "Server error during payment confirmation".

(** A webhook handler catches and logs whatever its body throws; the
    result is the store and the logged exception, if any. *)
Definition logged (body : Handler unit) : Store -> Store * option JSError :=
  fun s =>
    match body s with
    | (s', Raise e) => (s', Some e)
    | (s', _) => (s', None)
    end.

Definition handlePaymentSucceeded (env : Env) (paymentIntentId : string)
  : Store -> Store * option JSError :=
  logged (
    found <- Booking_findOne_byPaymentIntent paymentIntentId ;;
    match found with
    | Some booking =>
        if PaymentStatus_eqb (pay_status (payment booking)) pay_pending then
          let booking :=
            set_payment (set_pay_status pay_succeeded (payment booking)) booking in
          let booking :=
            set_payment (set_paidAt (Some (now env)) (payment booking)) booking in
          let booking := set_status st_confirmed booking in
          save env booking
        else retH tt
    | None => retH tt
    end).

Definition handlePaymentFailed (env : Env) (paymentIntentId : string)
  : Store -> Store * option JSError :=
  logged (
    found <- Booking_findOne_byPaymentIntent paymentIntentId ;;
    match found with
    | Some booking =>
        if PaymentStatus_eqb (pay_status (payment booking)) pay_pending then
          let booking :=
            set_payment (set_pay_status pay_failed (payment booking)) booking in
          let booking := set_status st_cancelled booking in
          save env booking
        else retH tt
    | None => retH tt
    end).

(** *** bookings.js *)

(** POST /api/bookings *)
Definition createBookingHandler (env : Env) (req : CreateReq)
  : Handler Response :=
  rejectIf (negb (cr_valid req)) 400 validationErrors ;;
  foundProvider <- Provider_findById (cr_providerId req) ;;
  match foundProvider with
  | None => reply 404 "Provider not found"
  | Some provider =>
      match find (fun s => String.eqb (sv_name s) (cr_serviceName req)
                           && sv_isActive s) (p_services provider) with
      | None => reply 400 "Service not found or inactive"
      | Some service =>
          let startTimeDate := newDate2000 (cr_startTime req) in
          let endTimeDate :=
            match startTimeDate with
            | Some t => TimeClip (t + sv_duration service * 60000)
            | None => None
            end in
          let endTime := toTimeString_slice5 endTimeDate in
          let appointmentDateTime := cr_appointmentDate req in
          available <- liftC (isAvailableAt provider appointmentDateTime
                                (cr_startTime req)) ;;
          rejectIf (negb available) 400
            "Provider is not available at the requested time" ;;
          existingBooking <- Booking_findOne_conflict (cr_providerId req)
                               appointmentDateTime (cr_startTime req) None ;;
          match existingBooking with
          | Some _ => reply 400 "Time slot is already booked"
          | None =>
              let booking :=
                mkBooking (freshId env) (cr_user req) (cr_providerId req)
                  (mkSnapshot (sv_name service) (sv_description service)
                     (sv_duration service) (sv_price service))
                  appointmentDateTime (cr_startTime req) endTime st_pending
                  (cr_notes req) None
                  (mkPayment None (sv_price service) "usd" pay_pending None)
                  None [] in
              save env booking ;;
              retH (mkResponse 201
                "Booking created successfully. Please complete payment to confirm.")
          end
      end
  end.

Definition createBooking (env : Env) (req : CreateReq)
  : Store -> Store * HttpResult :=
  route (createBookingHandler env req) "Server error during booking creation".

(** PUT /api/bookings/:id/status *)
Definition updateStatusHandler (env : Env) (req : StatusReq)
  : Handler Response :=
  rejectIf (negb (sr_valid req)) 400 validationErrors ;;
  found <- Booking_findById (sr_id req) ;;
  match found with
  | None => reply 404 "Booking not found"
  | Some booking =>
      rejectIf (negb (Nat.eqb (provider booking) (sr_provider req))) 403
        "Access denied" ;;
      let oldStatus := status booking in
      let booking := set_status (sr_status req) booking in
      let booking :=
        if truthy (sr_notes req) then set_providerNotes (sr_notes req) booking
        else booking in
      save env booking ;;
      (if BookingStatus_eqb (sr_status req) st_confirmed
          && BookingStatus_eqb oldStatus st_pending
       then sendBookingConfirmation env
       else retH tt) ;;
      retH (mkResponse 200 "Booking status updated successfully")
  end.

Definition updateStatus (env : Env) (req : StatusReq)
  : Store -> Store * HttpResult :=
  route (updateStatusHandler env req) "Server error".

(** PUT /api/bookings/:id/cancel.  The clock is read four times: by
    [canBeCancelled], for [cancelledAt], by [calculateRefund], and by the
    [pre('save')] hook. *)
Definition cancelBookingHandler (env : Env) (req : CancelReq)
  : Handler Response :=
  found <- Booking_findById (cn_id req) ;;
  match found with
  | None => reply 404 "Booking not found"
  | Some booking =>
      let isCustomer := Nat.eqb (customer booking) (cn_user req) in
      let isProvider := isProviderOf (cn_role req) (cn_provider req) booking in
      rejectIf (negb isCustomer && negb isProvider) 403 "Access denied" ;;
      rejectIf (negb (canBeCancelled booking (now env))) 400
        "Booking cannot be cancelled at this time" ;;
      let booking := set_status st_cancelled booking in
      let booking :=
        set_cancellation
          (Some (mkCancellation
                   (if isCustomer then by_customer else by_provider)
                   (clockAt env 1) (cn_reasonGiven req)
                   (calculateRefund booking (clockAt env 2)) rf_pending))
          booking in
      save (atReading 3 env) booking ;;
      retH (mkResponse 200 "Booking cancelled successfully")
  end.

Definition cancelBooking (env : Env) (req : CancelReq)
  : Store -> Store * HttpResult :=
  route (cancelBookingHandler env req) "Server error".

(** PUT /api/bookings/:id/reschedule.  The clock is read three times: by
    [canBeRescheduled], for [rescheduledAt], and by the [pre('save')]
    hook. *)
Definition rescheduleBookingHandler (env : Env) (req : RescheduleReq)
  : Handler Response :=
  rejectIf (negb (rr_valid req)) 400 validationErrors ;;
  found <- Booking_findById (rr_id req) ;;
  match found with
  | None => reply 404 "Booking not found"
  | Some booking =>
      let isCustomer := Nat.eqb (customer booking) (rr_user req) in
      let isProvider := isProviderOf (rr_role req) (rr_provider req) booking in
      rejectIf (negb isCustomer && negb isProvider) 403 "Access denied" ;;
      rejectIf (negb (canBeRescheduled booking (now env))) 400
        "Booking cannot be rescheduled at this time" ;;
      foundProvider <- Provider_findById (provider booking) ;;
      let newAppointmentDate := rr_newDate req in
      available <-
        match foundProvider with
        | Some provider =>
            liftC (isAvailableAt provider newAppointmentDate
                     (rr_newStartTime req))
        | None =>
            liftC (Throw (TypeError
              "Cannot read properties of null (reading 'isAvailableAt')"))
        end ;;
      rejectIf (negb available) 400
        "Provider is not available at the requested time" ;;
      existingBooking <- Booking_findOne_conflict (provider booking)
                           newAppointmentDate (rr_newStartTime req)
                           (Some (b_id booking)) ;;
      match existingBooking with
      | Some _ => reply 400 "Time slot is already booked"
      | None =>
          let entry :=
            mkReschedule (appointmentDate booking) (startTime booking)
              (endTime booking) newAppointmentDate (rr_newStartTime req)
              (endTime booking) (rr_reason req) (clockAt env 1)
              (if isCustomer then by_customer else by_provider) in
          let booking :=
            set_rescheduleHistory (rescheduleHistory booking ++ [entry])
              booking in
          let booking := set_appointmentDate newAppointmentDate booking in
          let booking := set_startTime (rr_newStartTime req) booking in
          save (atReading 2 env) booking ;;
          retH (mkResponse 200 "Booking rescheduled successfully")
      end
  end.

Definition rescheduleBooking (env : Env) (req : RescheduleReq)
  : Store -> Store * HttpResult :=
  route (rescheduleBookingHandler env req) "Server error".

Local Close Scope handler_scope.

(** The exception raised for [{ weekday: 'lowercase' }]. *)
Definition weekdayRangeError : JSError :=
  RangeError
    "Value lowercase out of range for Intl.DateTimeFormat options property weekday".

(** The exception the [pre('save')] hook passes to [next]. *)
Definition pastDateError : JSError :=
  Error "Appointment date cannot be in the past".

(** The slot that starts [i] slot lengths after [start]. *)
Definition slotAt (start : Z) (i : nat) : Slot :=
  mkSlot (toTimeString_slice5 (Some (start + Z.of_nat i * 1800000)))
         (toTimeString_slice5 (Some (start + (Z.of_nat i + 1) * 1800000)))
         true.

(** ** The providers router: GET /api/providers/:id/availability

    The one caller of [getAvailableSlots].  A query parameter is [None]
    when it is absent or empty, and otherwise the date [new Date(..)]
    makes of it. *)

Record AvailabilityReq : Type := mkAvailabilityReq {
  av_id : ObjectId;
  av_startDate : option JSDate;
  av_endDate : option JSDate
}.

(** [date.toISOString().split('T')[0]] prints the UTC calendar day of a
    valid date, as in ["2024-06-10"]; the day number stands for the text. *)
Definition isoDay (t : Z) : Z := Day t.

(** [availability[dateStr] = slots] on an object used as a map. *)
Fixpoint setKey (k : Z) (v : list Slot) (o : list (Z * list Slot))
  : list (Z * list Slot) :=
  match o with
  | [] => [(k, v)]
  | (k', v') :: rest =>
      if k' =? k then (k, v) :: rest else (k', v') :: setKey k v rest
  end.

(** [for (let date = new Date(start); date <= end;
         date.setDate(date.getDate() + 1)) { .. }] on valid dates.
    [setDate] moves to the same local time of day on the next local day;
    past the range of time values the date becomes invalid and the loop
    condition is false. *)
Equations? availabilityLoop (p : Provider) (date endDate : Z)
  (availability : list (Z * list Slot))
  : Completion (list (Z * list Slot))
  by wf (Z.to_nat (endDate - date + 1)) lt :=
  availabilityLoop p date endDate availability with Z_le_dec date endDate => {
    | left _ =>
        let dateStr := isoDay date in
        match getAvailableSlots p (Some date) with
        | Throw e => Throw e
        | Normal slots =>
            if Z.abs (UTC (LocalTime date + msPerDay)) <=? 8640000000000000
            then availabilityLoop p (UTC (LocalTime date + msPerDay)) endDate
                   (setKey dateStr slots availability)
            else Normal (setKey dateStr slots availability)
        end ;
    | right _ => Normal availability }.
Proof.
  pose proof (nextDayIsLater host date) as Hnext.
  unfold UTC, LocalTime. lia.
Qed.

Local Open Scope handler_scope.

Definition getAvailabilityHandler (req : AvailabilityReq)
  : Handler (list (Z * list Slot)) :=
  match av_startDate req, av_endDate req with
  | Some start, Some endDate =>
      foundProvider <- Provider_findById (av_id req) ;;
      match foundProvider with
      | None => reply 404 "Provider not found"
      | Some provider =>
          match start, endDate with
          | Some s, Some e => liftC (availabilityLoop provider s e [])
          | _, _ => retH []
          end
      end
  | _, _ => reply 400 "Start date and end date are required"
  end.

(** The route answers [{ availability }], or an error response. *)
Inductive AvailabilityResult : Type :=
| AvailabilityOf (availability : list (Z * list Slot))
| AvailabilityFailed (r : HttpResult).

Definition getAvailability (req : AvailabilityReq)
  : Store -> Store * AvailabilityResult :=
  fun s =>
    match getAvailabilityHandler req s with
    | (s', Ret a) => (s', AvailabilityOf a)
    | (s', Reply r) => (s', AvailabilityFailed (mkHttpResult r None))
    | (s', Raise e) =>
        (s', AvailabilityFailed
               (mkHttpResult (mkResponse 500 "Server error") (Some e)))
    end.

(** ** The payments router: POST /api/payments/create-payment-intent

    [created] is what [stripe.paymentIntents.create(..)] yields: the id of
    the new payment intent, or the exception the call throws.  The
    arguments of the call read [booking.provider._id] off the populated
    provider, which is [null] when the provider document is gone.  The
    customer the booking refers to is taken to exist. *)

Record PaymentIntentReq : Type := mkPaymentIntentReq {
  pi_valid : bool;
  pi_user : ObjectId;
  pi_bookingId : ObjectId
}.

Definition set_stripePaymentIntentId (i : option string) (p : Payment)
  : Payment :=
  mkPayment i (amount p) (currency p) (pay_status p) (paidAt p).

Definition createPaymentIntentHandler (env : Env) (created : Completion string)
  (req : PaymentIntentReq) : Handler string :=
  rejectIf (negb (pi_valid req)) 400 validationErrors ;;
  found <- Booking_findById (pi_bookingId req) ;;
  match found with
  | None => reply 404 "Booking not found"
  | Some booking =>
      rejectIf (negb (Nat.eqb (customer booking) (pi_user req))) 403
        "Access denied" ;;
      rejectIf (negb (PaymentStatus_eqb (pay_status (payment booking))
                        pay_pending)) 400
        "Payment already processed" ;;
      populated <- Provider_findById (provider booking) ;;
      match populated with
      | None =>
          liftC (Throw (TypeError
            "Cannot read properties of null (reading '_id')"))
      | Some _ =>
          paymentIntentId <- liftC created ;;
          let booking :=
            set_payment
              (set_stripePaymentIntentId (Some paymentIntentId)
                 (payment booking))
              booking in
          save env booking ;;
          retH paymentIntentId
      end
  end.

Local Close Scope handler_scope.

(** The route answers [{ clientSecret, paymentIntentId }], or an error
    response. *)
Inductive PaymentIntentResult : Type :=
| IntentCreated (paymentIntentId : string)
| IntentFailed (r : HttpResult).

Definition createPaymentIntent (env : Env) (created : Completion string)
  (req : PaymentIntentReq) : Store -> Store * PaymentIntentResult :=
  fun s =>
    match createPaymentIntentHandler env created req s with
    | (s', Ret i) => (s', IntentCreated i)
    | (s', Reply r) => (s', IntentFailed (mkHttpResult r None))
    | (s', Raise e) =>
        (s', IntentFailed
               (mkHttpResult
                  (mkResponse 500 "Server error during payment creation")
                  (Some e)))
    end.

(** ** Vocabulary for the properties *)

(** The text [HH:MM] of an hour and a minute, and the text [H:MM] that
    the routes' pattern for [startTime] also admits. *)
Definition timeLabel (hh mm : Z) : string := pad2 hh ++ ":" ++ pad2 mm.

Definition shortTimeLabel (h mm : Z) : string :=
  String (digitChar h) (":" ++ pad2 mm).

(** A working-day bound written [HH:MM], [24:00] included, as a number
    of minutes into 2000-01-01. *)
Definition isTimeLabel (str : string) (q : Z) : Prop :=
  exists hh mm : Z,
    ((0 <= hh <= 23 /\ 0 <= mm <= 59) \/ (hh = 24 /\ mm = 0))
    /\ str = timeLabel hh mm
    /\ q = hh * 60 + mm.

(** The zone keeps one offset, [off], throughout the local day
    2000-01-01: no clock change falls on that day. *)
Definition offsetOn2000 (off : Z) : Prop :=
  forall x : Z,
    day2000 * msPerDay <= x <= (day2000 + 1) * msPerDay ->
    LocalTZA host x false = off /\ LocalTZA host (x - off) true = off.

(** The integers from 0 up to [n - 1]. *)
Definition zrange (n : nat) : list Z := map Z.of_nat (seq 0 n).

(** [s'] differs from [s] at most in the booking whose [_id] is
    [target]: same providers, same [_id]s in the same order, and the same
    document under every other [_id]. *)
Definition onlyBookingTouched (target : ObjectId) (s s' : Store) : Prop :=
  providers s' = providers s
  /\ map b_id (bookings s') = map b_id (bookings s)
  /\ forall x : ObjectId,
       x <> target ->
       find (fun b => Nat.eqb (b_id b) x) (bookings s')
       = find (fun b => Nat.eqb (b_id b) x) (bookings s).

(** Every [_id] occurs once in the collection. *)
Definition uniqueIds (s : Store) : Prop := NoDup (map b_id (bookings s)).

(** A store that came out of a route: the one it went in as, or that one
    with a new version [b'] of the stored booking [b] written over it. *)
Definition storeAfter (s s' : Store) (b : Booking) : Prop :=
  s' = s \/ exists b', b_id b' = b_id b /\ s' = writeBooking b' s.

(** The booking as a payment confirmation at time [t] leaves it, and as
    a payment failure leaves it. *)
Definition paidVersion (t : Z) (b : Booking) : Booking :=
  let b := set_payment (set_pay_status pay_succeeded (payment b)) b in
  let b := set_payment (set_paidAt (Some t) (payment b)) b in
  set_status st_confirmed b.

Definition failedVersion (b : Booking) : Booking :=
  let b := set_payment (set_pay_status pay_failed (payment b)) b in
  set_status st_cancelled b.

(** The booking as the cancel route writes it. *)
Definition cancelledVersion (env : Env) (req : CancelReq) (b : Booking)
  : Booking :=
  set_cancellation
    (Some (mkCancellation
             (if Nat.eqb (customer b) (cn_user req)
              then by_customer else by_provider)
             (clockAt env 1) (cn_reasonGiven req)
             (calculateRefund (set_status st_cancelled b) (clockAt env 2))
             rf_pending))
    (set_status st_cancelled b).

(** The booking as create-payment-intent writes it for the intent [i]. *)
Definition intentVersion (i : string) (b : Booking) : Booking :=
  set_payment (set_stripePaymentIntentId (Some i) (payment b)) b.

(** The booking as the status route writes it. *)
Definition statusVersion (req : StatusReq) (b : Booking) : Booking :=
  if truthy (sr_notes req)
  then set_providerNotes (sr_notes req) (set_status (sr_status req) b)
  else set_status (sr_status req) b.

(** ** A scenario

    Provider 1 offers a 30-minute haircut and works Mondays from 09:00 to
    17:00.  Monday 2024-06-10 (00:00 UTC) is day 19884 of the epoch. *)

Definition monday_2024_06_10 : Z := 1717977600000.

Definition haircut : Service := mkService "Haircut" None 30 40 true.

Definition providerP : Provider :=
  mkProvider 1 [haircut] [mkWorkingDay (Some "monday") "09:00" "17:00" true] [].

(** Provider 2 has Monday switched off and the same Monday blocked;
    provider 3 has no working days at all. *)
Definition providerClosed : Provider :=
  mkProvider 2 [haircut]
    [mkWorkingDay (Some "monday") "09:00" "17:00" false]
    [mkBlockedDate (Some monday_2024_06_10) (Some "holiday")].

Definition providerNoDays : Provider := mkProvider 3 [haircut] [] [].

(** Booking 100: customer 10 with provider 1, that Monday at 10:00,
    confirmed and paid through payment intent [pi_A]. *)
Definition bookingA : Booking :=
  mkBooking 100 10 1 (mkSnapshot "Haircut" None 30 40)
    (Some monday_2024_06_10) "10:00" "10:30" st_confirmed None None
    (mkPayment (Some "pi_A") 40 "usd" pay_succeeded (Some 1717236000000))
    None [].

Definition store0 : Store := mkStore [bookingA] [providerP].

(** Monday 2024-06-03, 12:00 UTC, a week ahead of the appointment. *)
Definition env0 : Env :=
  mkEnv 1717416000000 101 (fun _ => Normal "succeeded") true (fun _ => 0%nat).

(** One hour later. *)
Definition env1 : Env :=
  mkEnv 1717419600000 102 (fun _ => Normal "succeeded") true (fun _ => 0%nat).

(** Customer 11 asks for the slot booking 100 holds. *)
Definition createReqSameSlot : CreateReq :=
  mkCreateReq true 11 1 "Haircut" (Some monday_2024_06_10) "10:00" None.

(** Customer 10 cancels booking 100. *)
Definition cancelReqA : CancelReq :=
  mkCancelReq 10 role_customer None 100 (Some "change of plans").

(** Booking 100 once cancelled at the time of [env0]. *)
Definition bookingA_cancelled : Booking :=
  set_cancellation
    (Some (mkCancellation by_customer 1717416000000 (Some "change of plans")
             40 rf_pending))
    (set_status st_cancelled bookingA).

Definition store1 : Store := mkStore [bookingA_cancelled] [providerP].

(** Customer 10 replays the confirmation of [pi_A]. *)
Definition confirmReqA : ConfirmPaymentReq := mkConfirmPaymentReq true 10 "pi_A".

(** Booking 200: the same Monday at 15:00, confirmed by the provider,
    payment still pending; and the clock at 10:00 UTC of that Monday. *)
Definition bookingPast : Booking :=
  mkBooking 200 10 1 (mkSnapshot "Haircut" None 30 40)
    (Some monday_2024_06_10) "15:00" "15:30" st_confirmed None None
    (mkPayment (Some "pi_P") 40 "usd" pay_pending None)
    None [].

Definition storePast : Store := mkStore [bookingPast] [providerP].

Definition envLate : Env :=
  mkEnv 1718013600000 201 (fun _ => Normal "succeeded") true (fun _ => 0%nat).

(** A new booking dated at the very instant of [env0]. *)
Definition bookingNow : Booking :=
  mkBooking 300 10 1 (mkSnapshot "Haircut" None 30 40)
    (Some 1717416000000) "12:00" "12:30" st_pending None None
    (mkPayment None 40 "usd" pay_pending None)
    None [].

(** Booking 100 after the replayed confirmation at the time of [env1]. *)
Definition bookingA_reconfirmed : Booking :=
  set_status st_confirmed
    (set_payment (set_paidAt (Some 1717419600000) (payment bookingA_cancelled))
       bookingA_cancelled).

(** Requests aimed at booking 200. *)
Definition statusReqPast : StatusReq := mkStatusReq true 1 200 st_completed None.
Definition cancelReqPast : CancelReq := mkCancelReq 10 role_customer None 200 None.
Definition confirmReqPast : ConfirmPaymentReq := mkConfirmPaymentReq true 10 "pi_P".

(** Provider 4 works Mondays from 09:00 to 10:45. *)
Definition providerOdd : Provider :=
  mkProvider 4 [haircut] [mkWorkingDay (Some "monday") "09:00" "10:45" true] [].

(** As [env0], with the mail transport down. *)
Definition envNoMail : Env :=
  mkEnv 1717416000000 103 (fun _ => Normal "succeeded") false (fun _ => 0%nat).

(** As [env0], on a server where each further reading of the clock falls
    a millisecond after the one before. *)
Definition envTicking : Env :=
  mkEnv 1717416000000 104 (fun _ => Normal "succeeded") true (fun k => k).

(** Provider 6 works Mondays from thirty seconds past 09:00 to 17:00. *)
Definition providerSeconds : Provider :=
  mkProvider 6 [haircut]
    [mkWorkingDay (Some "monday") "09:00:30" "17:00" true] [].

(** Booking 400: 02:30 on the local day that begins at 2024-03-10 05:00
    UTC, midnight in New York on the day the clocks go forward. *)
Definition bookingSpring : Booking :=
  mkBooking 400 10 1 (mkSnapshot "Haircut" None 30 40)
    (Some 1710046800000) "02:30" "03:00" st_confirmed None None
    (mkPayment (Some "pi_S") 40 "usd" pay_succeeded (Some 1709000000000))
    None [].

(** Booking 500: that Monday at 02:00, confirmed and paid; booking 600:
    the same for a service that costs nothing. *)
Definition bookingEarly : Booking :=
  mkBooking 500 10 1 (mkSnapshot "Haircut" None 30 40)
    (Some monday_2024_06_10) "02:00" "02:30" st_confirmed None None
    (mkPayment (Some "pi_E") 40 "usd" pay_succeeded (Some 1717236000000))
    None [].

Definition bookingFree : Booking :=
  mkBooking 600 10 1 (mkSnapshot "Consultation" None 30 0)
    (Some monday_2024_06_10) "10:00" "10:30" st_confirmed None None
    (mkPayment None 0 "usd" pay_pending None)
    None [].

Definition storeEarly : Store :=
  mkStore [bookingEarly; bookingFree] [providerP].

Definition cancelReqEarly : CancelReq :=
  mkCancelReq 10 role_customer None 500 None.
Definition cancelReqFree : CancelReq :=
  mkCancelReq 10 role_customer None 600 None.

(** A request that starts ten milliseconds before that Monday begins, and
    reads the clock again after five milliseconds and, twice, after ten. *)
Definition envMidnight : Env :=
  mkEnv (monday_2024_06_10 - 10) 105 (fun _ => Normal "succeeded") true
    (fun k => match k with 0 => 0 | 1 => 5 | _ => 10 end)%nat.

(** Booking 300 stored, and the provider confirming it. *)
Definition storeNow : Store := mkStore [bookingNow] [providerP].
Definition statusReqNow : StatusReq := mkStatusReq true 1 300 st_confirmed None.

(** The provider sets the cancelled booking 100 back to confirmed. *)
Definition statusReqA : StatusReq := mkStatusReq true 1 100 st_confirmed None.

(** The booking's provider, no [req.provider] on the request, asks to
    cancel and to reschedule booking 100. *)
Definition cancelReqByProvider : CancelReq :=
  mkCancelReq 50 role_provider None 100 None.
Definition rescheduleReqByProvider : RescheduleReq :=
  mkRescheduleReq true 50 role_provider None 100
    (Some (monday_2024_06_10 + 604800000)) "10:00" None.

(** Provider 5 has been stored, through PUT /api/providers/availability,
    with a working day named ["Invalid Date"]; customer 11 asks it for a
    booking on a date that passes the ISO 8601 check of the route and of
    which [new Date] makes an Invalid Date. *)
Definition providerInvalidDay : Provider :=
  mkProvider 5 [haircut]
    [mkWorkingDay (Some "Invalid Date") "09:00" "17:00" true] [].

Definition storeInvalidDay : Store := mkStore [] [providerInvalidDay].

Definition createReqInvalidDate : CreateReq :=
  mkCreateReq true 11 5 "Haircut" None "10:00" None.

(** Customer 10 asks for a payment intent for booking 200. *)
Definition intentReqPast : PaymentIntentReq := mkPaymentIntentReq true 10 200.

(** The availability of provider 1 from that Monday to the Wednesday. *)
Definition availabilityReqP : AvailabilityReq :=
  mkAvailabilityReq 1 (Some (Some monday_2024_06_10))
    (Some (Some (monday_2024_06_10 + 172800000))).

(** * Properties *)

(** ** The day-name lookup *)

Lemma toLocaleDateString_lowercase (t : Z) :
  toLocaleDateString (Some t) "lowercase" = Throw weekdayRangeError.
Proof. reflexivity. Qed.

Lemma toLocaleDateString_invalid (w : string) :
  toLocaleDateString None w = Normal "Invalid Date".
Proof. reflexivity. Qed.

Lemma isAvailableAt_valid_date (p : Provider) (t : Z) (time : string) :
  isAvailableAt p (Some t) time = Throw weekdayRangeError.
Proof. reflexivity. Qed.

Lemma getAvailableSlots_valid_date (p : Provider) (t : Z) :
  getAvailableSlots p (Some t) = Throw weekdayRangeError.
Proof. reflexivity. Qed.

(** [isAvailableAt] returns a value on an Invalid Date only, where the
    day name it looks for is ["Invalid Date"]. *)
Lemma isAvailableAt_returns (p : Provider) (date : JSDate) (time : string)
  (b : bool) :
  isAvailableAt p date time = Normal b -> date = None.
Proof.
  destruct date as [t |]; [| reflexivity].
  rewrite isAvailableAt_valid_date. discriminate.
Qed.

Lemma isAvailableAt_true_day (p : Provider) (time : string) :
  isAvailableAt p None time = Normal true ->
  exists wd, In wd (p_workingDays p) /\ wd_day wd = Some "Invalid Date".
Proof.
  unfold isAvailableAt.
  change (toLocaleDateString None "lowercase") with (Normal "Invalid Date").
  cbn [bindC]. unfold isAvailableAt_from.
  destruct (find (dayMatches "Invalid Date") (p_workingDays p)) as [wd |] eqn:E;
    [| discriminate].
  intros _. apply find_some in E. destruct E as [Hin Hm].
  exists wd. split; [exact Hin |].
  unfold dayMatches in Hm. destruct (wd_day wd) as [d |]; [| discriminate].
  apply String.eqb_eq in Hm. rewrite Hm. reflexivity.
Qed.

Lemma isAvailableAt_named_days (p : Provider) (time : string) :
  (forall wd, In wd (p_workingDays p) -> wd_day wd <> Some "Invalid Date") ->
  isAvailableAt p None time = Normal false.
Proof.
  intro Hdays. unfold isAvailableAt.
  change (toLocaleDateString None "lowercase") with (Normal "Invalid Date").
  cbn [bindC]. unfold isAvailableAt_from.
  destruct (find (dayMatches "Invalid Date") (p_workingDays p)) as [wd |] eqn:E;
    [exfalso | reflexivity].
  apply find_some in E. destruct E as [Hin Hm].
  apply (Hdays wd Hin).
  unfold dayMatches in Hm. destruct (wd_day wd) as [d |]; [| discriminate].
  apply String.eqb_eq in Hm. rewrite Hm. reflexivity.
Qed.

(** ** Create and reschedule store nothing *)

Ltac unfold_handler :=
  unfold route, bindH, rejectIf, reply, retH, liftC, Booking_findById,
    Provider_findById, Booking_findOne_byPaymentIntent; simpl.

Lemma createBooking_outcome (env : Env) (req : CreateReq) (s : Store) :
  fst (createBooking env req s) = s
  /\ (statusCode (response (snd (createBooking env req s))) =? 201) = false
  /\ String.eqb (message (response (snd (createBooking env req s))))
                 "Time slot is already booked" = false.
Proof.
  unfold createBooking, createBookingHandler. unfold_handler.
  destruct (cr_valid req); simpl; [| repeat split; reflexivity].
  destruct (find _ (providers s)) as [p |]; simpl;
    [| repeat split; reflexivity].
  destruct (find _ (p_services p)) as [sv |]; simpl;
    [| repeat split; reflexivity].
  destruct (isAvailableAt p (cr_appointmentDate req) (cr_startTime req))
    as [[|] | e] eqn:H; simpl; try (repeat split; reflexivity).
  apply isAvailableAt_returns in H. rewrite H.
  unfold Booking_findOne_conflict. repeat split; reflexivity.
Qed.

Lemma createBooking_valid_date (env : Env) (req : CreateReq) (s : Store)
  (p : Provider) (sv : Service) (t : Z) :
  cr_valid req = true ->
  find (fun x => Nat.eqb (p_id x) (cr_providerId req)) (providers s) = Some p ->
  find (fun x => String.eqb (sv_name x) (cr_serviceName req) && sv_isActive x)
    (p_services p) = Some sv ->
  cr_appointmentDate req = Some t ->
  snd (createBooking env req s)
  = mkHttpResult (mkResponse 500 "Server error during booking creation")
      (Some weekdayRangeError).
Proof.
  intros Hv Hp Hsv Hd.
  unfold createBooking, createBookingHandler. unfold_handler.
  rewrite Hv. simpl. rewrite Hp. simpl. rewrite Hsv, Hd. reflexivity.
Qed.

Lemma rescheduleBooking_outcome (env : Env) (req : RescheduleReq) (s : Store) :
  fst (rescheduleBooking env req s) = s
  /\ String.eqb (message (response (snd (rescheduleBooking env req s))))
                 "Booking rescheduled successfully" = false
  /\ String.eqb (message (response (snd (rescheduleBooking env req s))))
                 "Time slot is already booked" = false.
Proof.
  unfold rescheduleBooking, rescheduleBookingHandler. unfold_handler.
  destruct (rr_valid req); simpl; [| repeat split; reflexivity].
  destruct (find _ (bookings s)) as [b |]; simpl;
    [| repeat split; reflexivity].
  destruct (negb (customer b =? rr_user req)%nat && _); simpl;
    [repeat split; reflexivity |].
  destruct (canBeRescheduled b (now env)); simpl;
    [| repeat split; reflexivity].
  destruct (find _ (providers s)) as [p |]; simpl;
    [| repeat split; reflexivity].
  destruct (isAvailableAt p (rr_newDate req) (rr_newStartTime req))
    as [[|] | e] eqn:H; simpl; try (repeat split; reflexivity).
  apply isAvailableAt_returns in H. rewrite H.
  unfold Booking_findOne_conflict. repeat split; reflexivity.
Qed.

(** C1, as the code has it.  On every valid calendar date, [isAvailableAt]
    and [getAvailableSlots] throw the RangeError of the illegal weekday
    option ['lowercase'] and return nothing.  [isAvailableAt] returns a
    value on an Invalid Date only: there the day name is ["Invalid Date"],
    the answer is [false] for a provider whose working days carry other
    names, and [true] requires a stored working day of that very name.  No
    create and no reschedule request stores or changes anything: create
    never answers 201, reschedule never reports success, neither ever
    answers that the slot is taken, and a create request with a valid date
    that reaches the availability check ends in the RangeError and a 500
    response. *)
Theorem availability_throws_on_valid_dates :
  forall (p : Provider) (t : Z) (time : string),
    isAvailableAt p (Some t) time = Throw weekdayRangeError
    /\ getAvailableSlots p (Some t) = Throw weekdayRangeError
    /\ (forall (date : JSDate) (b : bool),
          isAvailableAt p date time = Normal b ->
          date = None
          /\ (b = true ->
              exists wd, In wd (p_workingDays p)
                         /\ wd_day wd = Some "Invalid Date"))
    /\ ((forall wd, In wd (p_workingDays p) ->
                    wd_day wd <> Some "Invalid Date") ->
        forall date : JSDate,
          isAvailableAt p date time = Throw weekdayRangeError
          \/ isAvailableAt p date time = Normal false)
    /\ (forall (env : Env) (req : CreateReq) (s : Store),
          fst (createBooking env req s) = s
          /\ (statusCode (response (snd (createBooking env req s))) =? 201)
             = false
          /\ String.eqb (message (response (snd (createBooking env req s))))
                         "Time slot is already booked" = false
          /\ (forall (sv : Service) (d : Z),
                cr_valid req = true ->
                find (fun x => Nat.eqb (p_id x) (cr_providerId req))
                  (providers s) = Some p ->
                find (fun x => String.eqb (sv_name x) (cr_serviceName req)
                               && sv_isActive x) (p_services p) = Some sv ->
                cr_appointmentDate req = Some d ->
                snd (createBooking env req s)
                = mkHttpResult
                    (mkResponse 500 "Server error during booking creation")
                    (Some weekdayRangeError)))
    /\ (forall (env : Env) (req : RescheduleReq) (s : Store),
          fst (rescheduleBooking env req s) = s
          /\ String.eqb (message (response (snd (rescheduleBooking env req s))))
                         "Booking rescheduled successfully" = false
          /\ String.eqb (message (response (snd (rescheduleBooking env req s))))
                         "Time slot is already booked" = false).
Proof.
  intros p t time.
  split; [apply isAvailableAt_valid_date |].
  split; [apply getAvailableSlots_valid_date |].
  split.
  { intros date b H.
    pose proof (isAvailableAt_returns p date time b H) as Hd.
    split; [exact Hd |].
    intro Hb. subst. apply (isAvailableAt_true_day p time H). }
  split.
  { intros Hdays [d |].
    - left. apply isAvailableAt_valid_date.
    - right. apply isAvailableAt_named_days. exact Hdays. }
  split.
  - intros env req s.
    destruct (createBooking_outcome env req s) as [H1 [H2 H3]].
    repeat split; try assumption.
    intros sv d Hv Hp Hsv Hd.
    apply (createBooking_valid_date env req s p sv d Hv Hp Hsv Hd).
  - apply rescheduleBooking_outcome.
Qed.

(** ** Cancellation policy *)

(** The comparison of [hoursUntilAppointment] with a whole number of
    hours, in milliseconds. *)
Lemma hours_gtb (t now k : Z) :
  num_gtb (hoursUntilAppointment (Some t) now) (k # 1)
  = (k * msPerHour <? t - now).
Proof.
  unfold num_gtb, hoursUntilAppointment, msPerHour.
  destruct (Qle_bool _ _) eqn:E.
  - apply Qle_bool_iff in E. unfold Qle in E. simpl in E.
    symmetry. apply Z.ltb_ge. lia.
  - symmetry. apply Z.ltb_lt.
    destruct (Z_lt_ge_dec (k * 3600000) (t - now)) as [Hlt | Hge];
      [exact Hlt | exfalso].
    assert (Hle : Qle_bool (inject_Z (t - now) / inject_Z (1000 * 60 * 60))
                    (k # 1) = true).
    { apply Qle_bool_iff. unfold Qle. simpl. lia. }
    rewrite Hle in E. discriminate.
Qed.

Lemma hours_gtb_NaN (now : Z) (y : Q) :
  num_gtb (hoursUntilAppointment None now) y = false.
Proof. reflexivity. Qed.

Lemma BookingStatus_eqb_eq (a b : BookingStatus) :
  BookingStatus_eqb a b = true <-> a = b.
Proof. destruct a, b; simpl; split; intro H; congruence. Qed.

Lemma calculateRefund_tiers (b : Booking) (now t : Z) :
  appointmentDateTime b = Some t ->
  calculateRefund b now =
    if 24 * msPerHour <? t - now then amount (payment b)
    else if 2 * msPerHour <? t - now then (amount (payment b) * (1 # 2))%Q
    else 0%Q.
Proof.
  intro H. unfold calculateRefund. rewrite H.
  rewrite (hours_gtb t now 24), (hours_gtb t now 2). reflexivity.
Qed.

(** C3.  With the appointment [t - now] milliseconds away,
    [calculateRefund] is the full amount beyond 24 hours, half the amount
    beyond 2 hours and up to 24 hours, and 0 up to 2 hours; so it is the
    full amount at 25 hours, half at 10 hours, 0 at 1 hour, and it jumps at
    the boundaries: half at exactly 24 hours and full one millisecond
    later, 0 at exactly 2 hours and half one millisecond later. *)
Theorem refund_tiers :
  forall (b : Booking) (now t : Z),
    appointmentDateTime b = Some t ->
    (24 * msPerHour < t - now -> calculateRefund b now = amount (payment b))
    /\ (2 * msPerHour < t - now <= 24 * msPerHour ->
        calculateRefund b now = (amount (payment b) * (1 # 2))%Q)
    /\ (t - now <= 2 * msPerHour -> calculateRefund b now = 0%Q)
    /\ (t - now = 25 * msPerHour -> calculateRefund b now = amount (payment b))
    /\ (t - now = 10 * msPerHour ->
        calculateRefund b now = (amount (payment b) * (1 # 2))%Q)
    /\ (t - now = 1 * msPerHour -> calculateRefund b now = 0%Q)
    /\ (t - now = 24 * msPerHour ->
        calculateRefund b now = (amount (payment b) * (1 # 2))%Q)
    /\ (t - now = 24 * msPerHour + 1 ->
        calculateRefund b now = amount (payment b))
    /\ (t - now = 2 * msPerHour -> calculateRefund b now = 0%Q)
    /\ (t - now = 2 * msPerHour + 1 ->
        calculateRefund b now = (amount (payment b) * (1 # 2))%Q).
Proof.
  intros b now t H.
  rewrite (calculateRefund_tiers b now t H).
  unfold msPerHour.
  repeat split; intro Hd;
    repeat match goal with
    | |- context [ ?x <? ?y ] =>
        let E := fresh "E" in
        destruct (Z.ltb_spec x y) as [E | E]
    end; try reflexivity; lia.
Qed.

Lemma canBeCancelled_iff (b : Booking) (now : Z) :
  canBeCancelled b now = true <->
  status b = st_confirmed
  /\ exists t, appointmentDateTime b = Some t /\ 2 * msPerHour < t - now.
Proof.
  unfold canBeCancelled. rewrite andb_true_iff, BookingStatus_eqb_eq.
  destruct (appointmentDateTime b) as [t |].
  - rewrite (hours_gtb t now 2), Z.ltb_lt. split.
    + intros [Hh Hs]. split; [exact Hs | exists t; split; [reflexivity | exact Hh]].
    + intros [Hs [t' [Ht Hh]]]. injection Ht as <-. split; assumption.
  - rewrite hours_gtb_NaN. split.
    + intros [Hh _]. discriminate.
    + intros [_ [t' [Ht _]]]. discriminate.
Qed.

Lemma canBeRescheduled_iff (b : Booking) (now : Z) :
  canBeRescheduled b now = true <->
  status b = st_confirmed
  /\ exists t, appointmentDateTime b = Some t /\ 4 * msPerHour < t - now.
Proof.
  unfold canBeRescheduled. rewrite andb_true_iff, BookingStatus_eqb_eq.
  destruct (appointmentDateTime b) as [t |].
  - rewrite (hours_gtb t now 4), Z.ltb_lt. split.
    + intros [Hh Hs]. split; [exact Hs | exists t; split; [reflexivity | exact Hh]].
    + intros [Hs [t' [Ht Hh]]]. injection Ht as <-. split; assumption.
  - rewrite hours_gtb_NaN. split.
    + intros [Hh _]. discriminate.
    + intros [_ [t' [Ht _]]]. discriminate.
Qed.

(** C4.  [canBeCancelled] holds exactly when the booking is confirmed and
    its appointment is more than 2 hours away, [canBeRescheduled] exactly
    when it is confirmed and more than 4 hours away.  A pending booking
    cannot be cancelled however far away it is, and a confirmed booking
    exactly 3 hours away can be cancelled but not rescheduled. *)
Theorem cancel_reschedule_windows :
  forall (b : Booking) (now : Z),
    (canBeCancelled b now = true <->
       status b = st_confirmed
       /\ exists t, appointmentDateTime b = Some t /\ 2 * msPerHour < t - now)
    /\ (canBeRescheduled b now = true <->
         status b = st_confirmed
         /\ exists t, appointmentDateTime b = Some t /\ 4 * msPerHour < t - now)
    /\ (status b = st_pending -> canBeCancelled b now = false)
    /\ (forall t, status b = st_confirmed ->
                  appointmentDateTime b = Some t ->
                  t - now = 3 * msPerHour ->
                  canBeCancelled b now = true /\ canBeRescheduled b now = false).
Proof.
  intros b now.
  split; [apply canBeCancelled_iff |].
  split; [apply canBeRescheduled_iff |].
  split.
  - intro Hs. unfold canBeCancelled. rewrite Hs. apply andb_false_r.
  - intros t Hs Ht Hd. split.
    + apply canBeCancelled_iff. split; [exact Hs |].
      exists t. split; [exact Ht | unfold msPerHour in *; lia].
    + destruct (canBeRescheduled b now) eqn:E; [| reflexivity].
      apply canBeRescheduled_iff in E. destruct E as [_ [t' [Ht' Hh]]].
      rewrite Ht in Ht'. injection Ht' as <-. unfold msPerHour in *. lia.
Qed.

(** ** The [pre('save')] hook *)

Lemma save_past (env : Env) (b : Booking) (s : Store) (d : Z) :
  appointmentDate b = Some d ->
  d < now env ->
  validateBooking b = Normal tt ->
  save env b s = (s, Raise pastDateError).
Proof.
  intros Hd Hlt Hv. unfold save, preSave. rewrite Hv, Hd. simpl.
  apply Z.ltb_lt in Hlt. rewrite Hlt. reflexivity.
Qed.

Lemma clockAt_later (env : Env) (k : nat) : now env <= clockAt env k.
Proof. unfold clockAt. lia. Qed.

Lemma now_atReading (k : nat) (env : Env) :
  now (atReading k env) = clockAt env k.
Proof. reflexivity. Qed.

Lemma save_fails_past (env : Env) (b : Booking) (s : Store) (d : Z) :
  appointmentDate b = Some d ->
  d < now env ->
  exists e, save env b s = (s, Raise e).
Proof.
  intros Hd Hlt. unfold save, preSave.
  destruct (validateBooking b) as [[] | e]; [| exists e; reflexivity].
  rewrite Hd. simpl. apply Z.ltb_lt in Hlt. rewrite Hlt.
  eexists. reflexivity.
Qed.

Lemma save_not_past (env : Env) (b : Booking) (s : Store) (d : Z) :
  appointmentDate b = Some d ->
  now env <= d ->
  validateBooking b = Normal tt ->
  save env b s = (writeBooking b s, Ret tt).
Proof.
  intros Hd Hle Hv. unfold save, preSave. rewrite Hv, Hd. simpl.
  apply Z.ltb_ge in Hle. rewrite Hle. reflexivity.
Qed.

Lemma writeBooking_new (b : Booking) (s : Store) :
  find (fun x => Nat.eqb (b_id x) (b_id b)) (bookings s) = None ->
  bookings (writeBooking b s) = (bookings s ++ [b])%list.
Proof.
  intro H. unfold writeBooking.
  destruct (existsb _ (bookings s)) eqn:E; [| reflexivity].
  apply existsb_exists in E. destruct E as [x [Hin Hx]].
  apply (find_none _ _ H) in Hin. rewrite Hin in Hx. discriminate.
Qed.

(** C9, as the code has it.  Saving a new booking whose [appointmentDate]
    is earlier than the current time fails and stores nothing; the error
    is the hook's own when the document passes schema validation.  A valid
    new booking whose [appointmentDate] is the current time or later is
    stored. *)
Theorem save_new_booking_date_check :
  forall (env : Env) (b : Booking) (s : Store) (d : Z),
    find (fun x => Nat.eqb (b_id x) (b_id b)) (bookings s) = None ->
    appointmentDate b = Some d ->
    (d < now env ->
       (exists e, save env b s = (s, Raise e))
       /\ (validateBooking b = Normal tt ->
           save env b s = (s, Raise pastDateError)))
    /\ (now env <= d ->
        validateBooking b = Normal tt ->
        exists s', save env b s = (s', Ret tt)
                   /\ bookings s' = (bookings s ++ [b])%list).
Proof.
  intros env b s d Hnew Hd. split.
  - intro Hlt. split.
    + apply (save_fails_past env b s d Hd Hlt).
    + intro Hv. apply (save_past env b s d Hd Hlt Hv).
  - intros Hle Hv. exists (writeBooking b s). split.
    + apply (save_not_past env b s d Hd Hle Hv).
    + apply writeBooking_new. exact Hnew.
Qed.

(** ** Saving a booking whose date has passed *)

Lemma updateStatus_past (env : Env) (req : StatusReq) (s : Store)
  (b : Booking) (d : Z) :
  find (fun x => Nat.eqb (b_id x) (sr_id req)) (bookings s) = Some b ->
  appointmentDate b = Some d ->
  d < now env ->
  validateBooking b = Normal tt ->
  fst (updateStatus env req s) = s
  /\ (sr_valid req = true ->
      provider b = sr_provider req ->
      snd (updateStatus env req s)
      = mkHttpResult (mkResponse 500 "Server error") (Some pastDateError)).
Proof.
  intros Hf Hd Hlt Hv.
  unfold updateStatus, updateStatusHandler. unfold_handler.
  destruct (sr_valid req); simpl;
    [| split; [reflexivity | intro; discriminate]].
  rewrite Hf. simpl.
  destruct (Nat.eqb_spec (provider b) (sr_provider req)) as [Hp | Hp]; simpl;
    [| split; [reflexivity | intros _ Hp'; contradiction]].
  destruct (truthy (sr_notes req));
    match goal with
    | |- context [ save env ?b' s ] =>
        rewrite (save_past env b' s d); [| assumption .. ]
    end;
    split; reflexivity.
Qed.

Lemma cancelBooking_past (env : Env) (req : CancelReq) (s : Store)
  (b : Booking) (d : Z) :
  find (fun x => Nat.eqb (b_id x) (cn_id req)) (bookings s) = Some b ->
  appointmentDate b = Some d ->
  d < now env ->
  validateBooking b = Normal tt ->
  fst (cancelBooking env req s) = s
  /\ (customer b = cn_user req
      \/ isProviderOf (cn_role req) (cn_provider req) b = true ->
      canBeCancelled b (now env) = true ->
      snd (cancelBooking env req s)
      = mkHttpResult (mkResponse 500 "Server error") (Some pastDateError)).
Proof.
  intros Hf Hd Hlt Hv.
  unfold cancelBooking, cancelBookingHandler. unfold_handler.
  rewrite Hf. simpl.
  destruct (negb (customer b =? cn_user req)%nat && _) eqn:Hauth; simpl.
  - split; [reflexivity |]. intros [Hc | Hp] _.
    + apply Nat.eqb_eq in Hc. rewrite Hc in Hauth. discriminate.
    + rewrite Hp in Hauth. rewrite andb_false_r in Hauth. discriminate.
  - destruct (canBeCancelled b (now env)); simpl;
      [| split; [reflexivity | intros _ Hc; discriminate]].
    assert (Hlater : d < now (atReading 3 env)).
    { rewrite now_atReading. pose proof (clockAt_later env 3). lia. }
    match goal with
    | |- context [ save (atReading 3 env) ?b' s ] =>
        rewrite (save_past (atReading 3 env) b' s d); [| assumption .. ]
    end.
    split; reflexivity.
Qed.

Lemma confirmPayment_past (env : Env) (req : ConfirmPaymentReq) (s : Store)
  (b : Booking) (d : Z) :
  find (hasPaymentIntent (cp_paymentIntentId req)) (bookings s) = Some b ->
  appointmentDate b = Some d ->
  d < now env ->
  validateBooking b = Normal tt ->
  fst (confirmPayment env req s) = s
  /\ (cp_valid req = true ->
      paymentIntentStatus env (cp_paymentIntentId req) = Normal "succeeded" ->
      customer b = cp_user req ->
      snd (confirmPayment env req s)
      = mkHttpResult
          (mkResponse 500 "Server error during payment confirmation")
          (Some pastDateError)).
Proof.
  intros Hf Hd Hlt Hv.
  unfold confirmPayment, confirmPaymentHandler. unfold_handler.
  destruct (cp_valid req); simpl;
    [| split; [reflexivity | intro; discriminate]].
  destruct (paymentIntentStatus env (cp_paymentIntentId req)) as [st | e];
    simpl; [| split; [reflexivity | intros _ H; discriminate]].
  destruct (String.eqb_spec st "succeeded") as [Hst | Hst]; simpl;
    [| split; [reflexivity | intros _ H; injection H as H; contradiction]].
  rewrite Hf. simpl.
  destruct (Nat.eqb_spec (customer b) (cp_user req)) as [Hc | Hc]; simpl;
    [| split; [reflexivity | intros _ _ Hc'; contradiction]].
  match goal with
  | |- context [ save env ?b' s ] =>
      rewrite (save_past env b' s d); [| assumption .. ]
  end.
  split; reflexivity.
Qed.

Lemma handlePaymentSucceeded_past (env : Env) (id : string) (s : Store)
  (b : Booking) (d : Z) :
  find (hasPaymentIntent id) (bookings s) = Some b ->
  appointmentDate b = Some d ->
  d < now env ->
  validateBooking b = Normal tt ->
  fst (handlePaymentSucceeded env id s) = s
  /\ (pay_status (payment b) = pay_pending ->
      snd (handlePaymentSucceeded env id s) = Some pastDateError).
Proof.
  intros Hf Hd Hlt Hv.
  unfold handlePaymentSucceeded, logged. unfold_handler.
  rewrite Hf.
  destruct (pay_status (payment b)); simpl;
    try (split; [reflexivity | intro; discriminate]).
  match goal with
  | |- context [ save env ?b' s ] =>
      rewrite (save_past env b' s d); [| assumption .. ]
  end.
  split; reflexivity.
Qed.

Lemma handlePaymentFailed_past (env : Env) (id : string) (s : Store)
  (b : Booking) (d : Z) :
  find (hasPaymentIntent id) (bookings s) = Some b ->
  appointmentDate b = Some d ->
  d < now env ->
  validateBooking b = Normal tt ->
  fst (handlePaymentFailed env id s) = s
  /\ (pay_status (payment b) = pay_pending ->
      snd (handlePaymentFailed env id s) = Some pastDateError).
Proof.
  intros Hf Hd Hlt Hv.
  unfold handlePaymentFailed, logged. unfold_handler.
  rewrite Hf.
  destruct (pay_status (payment b)); simpl;
    try (split; [reflexivity | intro; discriminate]).
  match goal with
  | |- context [ save env ?b' s ] =>
      rewrite (save_past env b' s d); [| assumption .. ]
  end.
  split; reflexivity.
Qed.

(** C10.  The hook runs on every save.  For a stored booking whose
    [appointmentDate] is earlier than the current time, the status update
    (whatever the new status, [completed] and [no-show] included), the
    cancellation, the payment confirmation route and the payment webhooks
    all leave the store unchanged, and whenever one of them reaches its
    [save] the exception caught or logged is 'Appointment date cannot be
    in the past'; [save] itself rejects the booking with that error and
    writes nothing. *)
Theorem past_booking_is_frozen :
  forall (env : Env) (s : Store) (b : Booking) (d : Z),
    appointmentDate b = Some d ->
    d < now env ->
    validateBooking b = Normal tt ->
    save env b s = (s, Raise pastDateError)
    /\ (forall req : StatusReq,
        find (fun x => Nat.eqb (b_id x) (sr_id req)) (bookings s) = Some b ->
        fst (updateStatus env req s) = s
        /\ (sr_valid req = true ->
            provider b = sr_provider req ->
            snd (updateStatus env req s)
            = mkHttpResult (mkResponse 500 "Server error")
                (Some pastDateError)))
    /\ (forall req : CancelReq,
          find (fun x => Nat.eqb (b_id x) (cn_id req)) (bookings s) = Some b ->
          fst (cancelBooking env req s) = s
          /\ (customer b = cn_user req
              \/ isProviderOf (cn_role req) (cn_provider req) b = true ->
              canBeCancelled b (now env) = true ->
              snd (cancelBooking env req s)
              = mkHttpResult (mkResponse 500 "Server error")
                  (Some pastDateError)))
    /\ (forall req : ConfirmPaymentReq,
          find (hasPaymentIntent (cp_paymentIntentId req)) (bookings s)
          = Some b ->
          fst (confirmPayment env req s) = s
          /\ (cp_valid req = true ->
              paymentIntentStatus env (cp_paymentIntentId req)
              = Normal "succeeded" ->
              customer b = cp_user req ->
              snd (confirmPayment env req s)
              = mkHttpResult
                  (mkResponse 500 "Server error during payment confirmation")
                  (Some pastDateError)))
    /\ (forall id : string,
          find (hasPaymentIntent id) (bookings s) = Some b ->
          (fst (handlePaymentSucceeded env id s) = s
           /\ (pay_status (payment b) = pay_pending ->
               snd (handlePaymentSucceeded env id s) = Some pastDateError))
          /\ (fst (handlePaymentFailed env id s) = s
              /\ (pay_status (payment b) = pay_pending ->
                  snd (handlePaymentFailed env id s) = Some pastDateError))).
Proof.
  intros env s b d Hd Hlt Hv.
  split; [apply (save_past env b s d); assumption |].
  split; [intros req Hf; apply (updateStatus_past env req s b d); assumption |].
  split; [intros req Hf; apply (cancelBooking_past env req s b d); assumption |].
  split; [intros req Hf; apply (confirmPayment_past env req s b d); assumption |].
  intros id Hf. split.
  - apply (handlePaymentSucceeded_past env id s b d); assumption.
  - apply (handlePaymentFailed_past env id s b d); assumption.
Qed.

(** ** The conflict query *)

Lemma conflictsWith_iff (providerId : ObjectId) (d : Z) (time : string)
  (exclude : option ObjectId) (b : Booking) :
  conflictsWith providerId d time exclude b = true <->
  provider b = providerId
  /\ appointmentDate b = Some d
  /\ startTime b = time
  /\ (status b = st_confirmed \/ status b = st_pending)
  /\ exclude <> Some (b_id b).
Proof.
  unfold conflictsWith.
  rewrite !andb_true_iff, orb_true_iff, !BookingStatus_eqb_eq,
    Nat.eqb_eq, String.eqb_eq.
  assert (Hdate : match appointmentDate b with
                  | Some x => x =? d
                  | None => false
                  end = true <-> appointmentDate b = Some d).
  { destruct (appointmentDate b) as [x |].
    - rewrite Z.eqb_eq. split; intro H; congruence.
    - split; intro H; discriminate. }
  assert (Hex : match exclude with
                | Some id => negb (Nat.eqb (b_id b) id)
                | None => true
                end = true <-> exclude <> Some (b_id b)).
  { destruct exclude as [id |].
    - rewrite negb_true_iff, Nat.eqb_neq. split; intro H; congruence.
    - split; [intros _ H; discriminate | reflexivity]. }
  rewrite Hdate, Hex. tauto.
Qed.

(** The query of the create and reschedule routes finds a booking exactly
    when the collection holds one of the same provider, date and start
    time, pending or confirmed, other than the excluded one. *)
Lemma conflict_query_finds (providerId : ObjectId) (d : Z) (time : string)
  (exclude : option ObjectId) (s : Store) :
  exists r,
    Booking_findOne_conflict providerId (Some d) time exclude s = (s, Ret r)
    /\ ((exists x, r = Some x) <->
        exists b, In b (bookings s)
                  /\ provider b = providerId
                  /\ appointmentDate b = Some d
                  /\ startTime b = time
                  /\ (status b = st_confirmed \/ status b = st_pending)
                  /\ exclude <> Some (b_id b)).
Proof.
  unfold Booking_findOne_conflict.
  exists (find (conflictsWith providerId d time exclude) (bookings s)).
  split; [reflexivity |]. split.
  - intros [x Hx]. apply find_some in Hx. destruct Hx as [Hin Hc].
    exists x. split; [exact Hin |]. apply conflictsWith_iff. exact Hc.
  - intros [b [Hin Hc]].
    destruct (find _ (bookings s)) as [x |] eqn:E; [exists x; reflexivity |].
    apply conflictsWith_iff in Hc.
    rewrite (find_none _ _ E b Hin) in Hc. discriminate.
Qed.

(** ** What follows the day-name lookup

    These lemmas describe the statements of [isAvailableAt] and
    [getAvailableSlots] that come after the computation of [dayName],
    for a given day name. *)

Lemma slotsLoop_step (currentTime endTime : Z) (slots : list Slot) :
  currentTime < endTime ->
  slotsLoop currentTime endTime slots =
  slotsLoop (currentTime + 1800000) endTime
    (if currentTime + 1800000 <=? endTime
     then slots ++ [ mkSlot (toTimeString_slice5 (Some currentTime))
                       (toTimeString_slice5 (Some (currentTime + 1800000)))
                       true ]
     else slots).
Proof.
  intro H. rewrite slotsLoop_equation_1.
  destruct (Z_lt_dec currentTime endTime) as [Hl | Hr]; [| contradiction].
  rewrite slotsLoop_clause_1_equation_1. reflexivity.
Qed.

Lemma slotsLoop_done (currentTime endTime : Z) (slots : list Slot) :
  endTime <= currentTime ->
  slotsLoop currentTime endTime slots = slots.
Proof.
  intro H. rewrite slotsLoop_equation_1.
  destruct (Z_lt_dec currentTime endTime) as [Hl | Hr]; [lia |].
  rewrite slotsLoop_clause_1_equation_2. reflexivity.
Qed.

Lemma slotsLoop_exact (n : nat) :
  forall (start : Z) (slots : list Slot),
    slotsLoop start (start + Z.of_nat n * 1800000) slots
    = (slots ++ map (fun i => slotAt start i) (seq 0 n))%list.
Proof.
  induction n as [| n IH]; intros start slots.
  - rewrite slotsLoop_done by lia. simpl. rewrite app_nil_r. reflexivity.
  - rewrite slotsLoop_step by lia.
    replace (start + Z.of_nat (S n) * 1800000)
      with (start + 1800000 + Z.of_nat n * 1800000) by lia.
    destruct (Z.leb_spec (start + 1800000)
                (start + 1800000 + Z.of_nat n * 1800000)) as [_ | Hgt];
      [| lia].
    rewrite IH. rewrite <- app_assoc. f_equal. simpl. f_equal.
    + unfold slotAt. simpl. rewrite Z.add_0_r. reflexivity.
    + rewrite <- seq_shift, map_map. apply map_ext. intro i.
      unfold slotAt. f_equal; f_equal; f_equal; lia.
Qed.

(** With the day name resolved, a working day whose bounds parse and
    whose length is a whole number [n] of half hours yields exactly [n]
    slots, in order, each starting where the previous one ends. *)
Lemma getAvailableSlots_from_tiles (p : Provider) (dayName : string)
  (date : JSDate) (wd : WorkingDay) (s : Z) (n : nat) :
  find (dayMatches dayName) (p_workingDays p) = Some wd ->
  wd_isAvailable wd = true ->
  someC (blockedOn date) (p_blockedDates p) = Normal false ->
  newDate2000 (wd_startTime wd) = Some s ->
  newDate2000 (wd_endTime wd) = Some (s + Z.of_nat n * 1800000) ->
  getAvailableSlots_from p dayName date
  = Normal (map (fun i => slotAt s i) (seq 0 n)).
Proof.
  intros Hf Ha Hb Hs He. unfold getAvailableSlots_from.
  rewrite Hf, Ha, Hb. simpl. rewrite Hs, He.
  rewrite slotsLoop_exact. reflexivity.
Qed.

(** With the day name resolved, there are no slots on a day without an
    entry, on an unavailable day, or on a blocked date. *)
Lemma getAvailableSlots_from_empty (p : Provider) (dayName : string)
  (date : JSDate) :
  (find (dayMatches dayName) (p_workingDays p) = None ->
   getAvailableSlots_from p dayName date = Normal [])
  /\ (forall wd, find (dayMatches dayName) (p_workingDays p) = Some wd ->
                 wd_isAvailable wd = false ->
                 getAvailableSlots_from p dayName date = Normal [])
  /\ (forall wd, find (dayMatches dayName) (p_workingDays p) = Some wd ->
                 someC (blockedOn date) (p_blockedDates p) = Normal true ->
                 getAvailableSlots_from p dayName date = Normal []).
Proof.
  unfold getAvailableSlots_from. repeat split.
  - intro H. rewrite H. reflexivity.
  - intros wd Hf Ha. rewrite Hf, Ha. reflexivity.
  - intros wd Hf Hb. rewrite Hf, Hb.
    destruct (wd_isAvailable wd); reflexivity.
Qed.

(** With the day name resolved, the end of the working day is not
    available. *)
Lemma isAvailableAt_from_endTime (p : Provider) (dayName : string)
  (date : JSDate) (wd : WorkingDay) (blocked : bool) :
  find (dayMatches dayName) (p_workingDays p) = Some wd ->
  someC (blockedOn date) (p_blockedDates p) = Normal blocked ->
  isAvailableAt_from p dayName date (wd_endTime wd) = Normal false.
Proof.
  intros Hf Hb. unfold isAvailableAt_from. rewrite Hf, Hb.
  destruct (wd_isAvailable wd); simpl; [| reflexivity].
  destruct blocked; [reflexivity |].
  f_equal. apply andb_false_iff. right.
  unfold date_ltb. destruct (newDate2000 (wd_endTime wd)); [| reflexivity].
  apply Z.ltb_irrefl.
Qed.

(** ** Time labels *)

Lemma in_zrange (n : nat) (z : Z) :
  0 <= z < Z.of_nat n -> In z (zrange n).
Proof.
  intro H. unfold zrange. apply in_map_iff.
  exists (Z.to_nat z). split; [lia | apply in_seq; lia].
Qed.

Lemma forallb_zrange (P : Z -> bool) (n : nat) :
  forallb P (zrange n) = true ->
  forall z, 0 <= z < Z.of_nat n -> P z = true.
Proof.
  intros H z Hz. rewrite forallb_forall in H. apply H, in_zrange, Hz.
Qed.

Lemma forallb_zrange2 (P : Z -> Z -> bool) (n m : nat) :
  forallb (fun h => forallb (P h) (zrange m)) (zrange n) = true ->
  forall h k, 0 <= h < Z.of_nat n -> 0 <= k < Z.of_nat m -> P h k = true.
Proof.
  intros H h k Hh Hk.
  apply (forallb_zrange (P h) m); [| exact Hk].
  apply (forallb_zrange (fun h => forallb (P h) (zrange m)) n H h Hh).
Qed.

Lemma isLocalTimeOfDay_eq (r : TimeOfDay) (v : Z) :
  match r with
  | LocalTimeOfDay x => x =? v
  | _ => false
  end = true ->
  r = LocalTimeOfDay v.
Proof.
  destruct r as [x | x | |]; intro H; try discriminate.
  apply Z.eqb_eq in H. rewrite H. reflexivity.
Qed.

Lemma parseTimeOfDay_timeLabel (hh mm : Z) :
  0 <= hh <= 23 -> 0 <= mm <= 59 ->
  parseTimeOfDay (timeLabel hh mm)
  = LocalTimeOfDay (hh * msPerHour + mm * msPerMinute).
Proof.
  intros Hh Hm.
  pose (P := fun h m : Z =>
          match parseTimeOfDay (timeLabel h m) with
          | LocalTimeOfDay v => v =? h * msPerHour + m * msPerMinute
          | _ => false
          end).
  assert (Hall : forallb (fun h => forallb (P h) (zrange 60)) (zrange 24)
                 = true) by (vm_compute; reflexivity).
  pose proof (forallb_zrange2 P 24 60 Hall hh mm ltac:(lia) ltac:(lia)) as H.
  apply isLocalTimeOfDay_eq. exact H.
Qed.

Lemma parseTimeOfDay_midnight :
  parseTimeOfDay (timeLabel 24 0) = LocalTimeOfDay (1440 * msPerMinute).
Proof. vm_compute. reflexivity. Qed.

(** Where the zone keeps the offset [off], the two conversions subtract
    and add it. *)
Lemma UTC_on2000 (off x : Z) :
  offsetOn2000 off ->
  day2000 * msPerDay <= x <= (day2000 + 1) * msPerDay ->
  UTC x = x - off.
Proof.
  intros Hoff Hx. unfold UTC. destruct (Hoff x Hx) as [-> _]. reflexivity.
Qed.

Lemma LocalTime_on2000 (off x : Z) :
  offsetOn2000 off ->
  day2000 * msPerDay <= x <= (day2000 + 1) * msPerDay ->
  LocalTime (x - off) = x.
Proof.
  intros Hoff Hx. unfold LocalTime. destruct (Hoff x Hx) as [_ ->]. lia.
Qed.

Lemma LocalTime_UTC_on2000 (off x : Z) :
  offsetOn2000 off ->
  day2000 * msPerDay <= x <= (day2000 + 1) * msPerDay ->
  LocalTime (UTC x) = x.
Proof.
  intros Hoff Hx. rewrite (UTC_on2000 off x Hoff Hx).
  apply LocalTime_on2000; assumption.
Qed.

Lemma HourFromTime_range (t : Z) : 0 <= HourFromTime t <= 23.
Proof.
  unfold HourFromTime.
  pose proof (Z.mod_pos_bound (t / msPerHour) 24 ltac:(lia)). lia.
Qed.

Lemma MinFromTime_range (t : Z) : 0 <= MinFromTime t <= 59.
Proof.
  unfold MinFromTime.
  pose proof (Z.mod_pos_bound (t / msPerMinute) 60 ltac:(lia)). lia.
Qed.

(** The hour and minute of a time that lies [q] minutes into day [D]. *)
Lemma HourFromTime_minutes (D q : Z) :
  0 <= q < 1440 ->
  HourFromTime (D * msPerDay + q * msPerMinute) = q / 60.
Proof.
  intro Hq. unfold HourFromTime, msPerDay, msPerMinute, msPerHour.
  replace (D * 86400000 + q * 60000)
    with (q * 60000 + (D * 24) * 3600000) by lia.
  rewrite Z.div_add by lia.
  replace (q * 60000 / 3600000) with (q / 60).
  - rewrite Z.mod_add by lia. apply Z.mod_small.
    split; [apply Z.div_pos; lia | apply Z.div_lt_upper_bound; lia].
  - replace 3600000 with (60 * 60000) by lia.
    rewrite Z.div_mul_cancel_r by lia. reflexivity.
Qed.

Lemma MinFromTime_minutes (D q : Z) :
  MinFromTime (D * msPerDay + q * msPerMinute) = q mod 60.
Proof.
  unfold MinFromTime, msPerDay, msPerMinute.
  replace (D * 86400000 + q * 60000) with ((D * 1440 + q) * 60000) by lia.
  rewrite Z.div_mul by lia.
  replace (D * 1440 + q) with (q + (D * 24) * 60) by lia.
  apply Z.mod_add. lia.
Qed.

(** A valid date that reads [q] minutes into the local day [D] prints as
    the label of [q]. *)
Lemma toTimeString_minutes (t D q : Z) :
  0 <= q < 1440 ->
  LocalTime t = D * msPerDay + q * msPerMinute ->
  toTimeString_slice5 (Some t) = timeLabel (q / 60) (q mod 60).
Proof.
  intros Hq Hl. unfold toTimeString_slice5. rewrite Hl.
  rewrite HourFromTime_minutes by exact Hq.
  rewrite MinFromTime_minutes. reflexivity.
Qed.

Lemma newDate2000_minutes (q : Z) :
  0 <= q < 1440 ->
  newDate2000 (timeLabel (q / 60) (q mod 60))
  = Some (UTC (day2000 * msPerDay + q * msPerMinute)).
Proof.
  intro Hq. unfold newDate2000.
  pose proof (Z.mod_pos_bound q 60 ltac:(lia)) as Hm.
  assert (Hh : 0 <= q / 60 <= 23).
  { split; [apply Z.div_pos; lia |].
    assert (q / 60 < 24) by (apply Z.div_lt_upper_bound; lia). lia. }
  rewrite parseTimeOfDay_timeLabel by lia.
  do 3 f_equal. pose proof (Z.div_mod q 60 ltac:(lia)).
  unfold msPerHour, msPerMinute. lia.
Qed.

Lemma label_minutes (hh mm : Z) :
  0 <= hh <= 23 -> 0 <= mm <= 59 ->
  0 <= hh * 60 + mm < 1440
  /\ (hh * 60 + mm) / 60 = hh
  /\ (hh * 60 + mm) mod 60 = mm
  /\ hh * msPerHour + mm * msPerMinute = (hh * 60 + mm) * msPerMinute.
Proof.
  intros Hh Hm. split; [lia |]. split; [| split].
  - symmetry. apply (Z.div_unique _ _ hh mm); lia.
  - symmetry. apply (Z.mod_unique _ _ hh mm); lia.
  - unfold msPerHour, msPerMinute. lia.
Qed.

(** X1.  The two conversions between a time of day and its text agree,
    on a server whose zone has no clock change on 2000-01-01.  For every
    hour 0-23 and minute 0-59, [new Date(`2000-01-01T${HH:MM}`)] is that
    local time on 2000-01-01 and [toTimeString().slice(0, 5)] prints it
    back as the same [HH:MM]; and whatever valid date is printed, the text
    parses, and printing the parsed date gives the same text again. *)
Theorem time_label_round_trip :
  forall off : Z,
    offsetOn2000 off ->
    (forall hh mm : Z,
        0 <= hh <= 23 -> 0 <= mm <= 59 ->
        newDate2000 (timeLabel hh mm)
        = Some (UTC (day2000 * msPerDay + (hh * msPerHour + mm * msPerMinute)))
        /\ toTimeString_slice5 (newDate2000 (timeLabel hh mm))
           = timeLabel hh mm)
    /\ (forall t : Z,
          (exists u, newDate2000 (toTimeString_slice5 (Some t)) = Some u)
          /\ toTimeString_slice5 (newDate2000 (toTimeString_slice5 (Some t)))
             = toTimeString_slice5 (Some t)).
Proof.
  intros off Hoff.
  assert (Hfirst : forall hh mm : Z,
      0 <= hh <= 23 -> 0 <= mm <= 59 ->
      newDate2000 (timeLabel hh mm)
      = Some (UTC (day2000 * msPerDay + (hh * msPerHour + mm * msPerMinute)))
      /\ toTimeString_slice5 (newDate2000 (timeLabel hh mm)) = timeLabel hh mm).
  { intros hh mm Hh Hm.
    destruct (label_minutes hh mm Hh Hm) as [Hq [Hdiv [Hmod Hms]]].
    pose proof (newDate2000_minutes _ Hq) as Hn.
    rewrite Hdiv, Hmod in Hn. rewrite Hms, Hn.
    split; [reflexivity |].
    rewrite (toTimeString_minutes _ day2000 (hh * 60 + mm) Hq).
    - rewrite Hdiv, Hmod. reflexivity.
    - apply (LocalTime_UTC_on2000 off); [exact Hoff |].
      unfold msPerDay, msPerMinute. lia. }
  split; [exact Hfirst |].
  intro t.
  assert (Hlabel : toTimeString_slice5 (Some t)
                   = timeLabel (HourFromTime (LocalTime t))
                       (MinFromTime (LocalTime t))) by reflexivity.
  destruct (Hfirst _ _ (HourFromTime_range (LocalTime t))
              (MinFromTime_range (LocalTime t))) as [Hn Hp].
  rewrite Hlabel. split; [eexists; exact Hn | exact Hp].
Qed.

(** ** The slot loop on any interval *)

Lemma slotsLoop_floor (n : nat) :
  forall (r start : Z) (slots : list Slot),
    0 <= r < 1800000 ->
    slotsLoop start (start + Z.of_nat n * 1800000 + r) slots
    = (slots ++ map (fun i => slotAt start i) (seq 0 n))%list.
Proof.
  induction n as [| n IH]; intros r start slots Hr.
  - simpl. rewrite app_nil_r.
    destruct (Z.eq_dec r 0) as [-> | Hne].
    + apply slotsLoop_done. lia.
    + rewrite slotsLoop_step by lia.
      destruct (Z.leb_spec (start + 1800000) (start + 0 + r)) as [Hle | _];
        [lia |].
      apply slotsLoop_done. lia.
  - rewrite slotsLoop_step by lia.
    replace (start + Z.of_nat (S n) * 1800000 + r)
      with (start + 1800000 + Z.of_nat n * 1800000 + r) by lia.
    destruct (Z.leb_spec (start + 1800000)
                (start + 1800000 + Z.of_nat n * 1800000 + r)) as [_ | Hgt];
      [| lia].
    rewrite (IH r (start + 1800000)) by exact Hr.
    rewrite <- app_assoc. f_equal. simpl. f_equal.
    + unfold slotAt. simpl. rewrite Z.add_0_r. reflexivity.
    + rewrite <- seq_shift, map_map. apply map_ext. intro i.
      unfold slotAt. f_equal; f_equal; f_equal; lia.
Qed.

Lemma slotsLoop_count (start endTime : Z) :
  slotsLoop start endTime []
  = map (fun i => slotAt start i)
      (seq 0 (Z.to_nat ((endTime - start) / 1800000))).
Proof.
  destruct (Z_lt_ge_dec start endTime) as [Hlt | Hge].
  - pose proof (Z.div_mod (endTime - start) 1800000 ltac:(lia)) as Hdm.
    pose proof (Z.mod_pos_bound (endTime - start) 1800000 ltac:(lia)) as Hr.
    assert (Hq : 0 <= (endTime - start) / 1800000)
      by (apply Z.div_pos; lia).
    replace endTime
      with (start
            + Z.of_nat (Z.to_nat ((endTime - start) / 1800000)) * 1800000
            + (endTime - start) mod 1800000) at 1 by lia.
    rewrite slotsLoop_floor by exact Hr. reflexivity.
  - rewrite slotsLoop_done by lia.
    assert (Hq : (endTime - start) / 1800000 <= 0)
      by (apply Z.div_le_upper_bound; lia).
    replace (Z.to_nat ((endTime - start) / 1800000)) with 0%nat by lia.
    reflexivity.
Qed.

(** X2.  With the day name resolved, on a working day that is available
    and not blocked, [getAvailableSlots] produces as many slots as whole
    half hours fit between the start and the end of the working day, each
    beginning where the previous one ends: a remainder shorter than a slot
    yields no slot, and an end at or before the start yields none at all.
    A bound that does not parse yields no slot either. *)
Theorem slots_are_the_whole_half_hours :
  forall (p : Provider) (dayName : string) (date : JSDate) (wd : WorkingDay),
    find (dayMatches dayName) (p_workingDays p) = Some wd ->
    wd_isAvailable wd = true ->
    someC (blockedOn date) (p_blockedDates p) = Normal false ->
    (forall s e : Z,
        newDate2000 (wd_startTime wd) = Some s ->
        newDate2000 (wd_endTime wd) = Some e ->
        getAvailableSlots_from p dayName date
        = Normal (map (fun i => slotAt s i)
                    (seq 0 (Z.to_nat ((e - s) / 1800000)))))
    /\ (newDate2000 (wd_startTime wd) = None
        \/ newDate2000 (wd_endTime wd) = None ->
        getAvailableSlots_from p dayName date = Normal []).
Proof.
  intros p dayName date wd Hf Ha Hb.
  unfold getAvailableSlots_from. rewrite Hf, Ha, Hb. simpl. split.
  - intros s e Hs He. rewrite Hs, He, slotsLoop_count. reflexivity.
  - intros [H | H]; rewrite H;
      [| destruct (newDate2000 (wd_startTime wd))]; reflexivity.
Qed.

Lemma newDate2000_label (off : Z) (str : string) (q : Z) :
  offsetOn2000 off ->
  isTimeLabel str q ->
  0 <= q <= 1440
  /\ newDate2000 str = Some (day2000 * msPerDay + q * msPerMinute - off).
Proof.
  intros Hoff [hh [mm [Hb [-> ->]]]].
  destruct Hb as [[Hh Hm] | [-> ->]].
  - destruct (label_minutes hh mm Hh Hm) as [Hq [Hdiv [Hmod Hms]]].
    split; [lia |].
    pose proof (newDate2000_minutes _ Hq) as Hn.
    rewrite Hdiv, Hmod in Hn. rewrite Hn. f_equal.
    apply (UTC_on2000 off); [exact Hoff |].
    unfold msPerDay, msPerMinute. lia.
  - split; [lia |].
    unfold newDate2000. rewrite parseTimeOfDay_midnight.
    change (24 * 60 + 0) with 1440. f_equal.
    apply (UTC_on2000 off); [exact Hoff |].
    unfold msPerDay, msPerMinute. lia.
Qed.

Lemma slot_start_reads_back (off qs e : Z) (i : nat) :
  offsetOn2000 off ->
  0 <= qs ->
  e <= (day2000 + 1) * msPerDay - off ->
  (i < Z.to_nat ((e - (day2000 * msPerDay + qs * msPerMinute - off))
                 / 1800000))%nat ->
  newDate2000
    (sl_startTime (slotAt (day2000 * msPerDay + qs * msPerMinute - off) i))
  = Some (day2000 * msPerDay + qs * msPerMinute - off + Z.of_nat i * 1800000)
  /\ day2000 * msPerDay + qs * msPerMinute - off + Z.of_nat i * 1800000 < e.
Proof.
  intros Hoff Hqs He Hi.
  set (s := day2000 * msPerDay + qs * msPerMinute - off) in *.
  assert (Hfloor : (Z.of_nat i + 1) * 1800000 <= e - s).
  { pose proof (Z.mul_div_le (e - s) 1800000 ltac:(lia)).
    assert (0 <= (e - s) / 1800000) by lia. nia. }
  split; [| lia].
  assert (Hq : 0 <= qs + 30 * Z.of_nat i < 1440).
  { subst s. unfold msPerDay, msPerMinute in *. lia. }
  assert (Hx : day2000 * msPerDay
               <= day2000 * msPerDay + (qs + 30 * Z.of_nat i) * msPerMinute
               <= (day2000 + 1) * msPerDay)
    by (unfold msPerDay, msPerMinute; lia).
  assert (Hs : s + Z.of_nat i * 1800000
               = day2000 * msPerDay + (qs + 30 * Z.of_nat i) * msPerMinute
                 - off)
    by (subst s; unfold msPerMinute; lia).
  unfold slotAt. cbn [sl_startTime].
  rewrite (toTimeString_minutes _ day2000 (qs + 30 * Z.of_nat i) Hq).
  - rewrite (newDate2000_minutes _ Hq). f_equal.
    rewrite (UTC_on2000 off _ Hoff Hx). symmetry. exact Hs.
  - rewrite Hs. apply (LocalTime_on2000 off _ Hoff Hx).
Qed.

(** X3.  With the day name resolved, on a server whose zone has no clock
    change on 2000-01-01 and for a working day whose bounds are written
    [HH:MM] (the end may be [24:00]), every slot that [getAvailableSlots]
    offers starts at a time that [isAvailableAt] accepts: the start text
    of each slot, passed back as the requested time for the same provider
    and date, is answered [true]. *)
Theorem offered_slots_are_available :
  forall (off : Z) (p : Provider) (dayName : string) (date : JSDate)
         (wd : WorkingDay) (qs qe : Z) (slots : list Slot),
    offsetOn2000 off ->
    find (dayMatches dayName) (p_workingDays p) = Some wd ->
    wd_isAvailable wd = true ->
    someC (blockedOn date) (p_blockedDates p) = Normal false ->
    isTimeLabel (wd_startTime wd) qs ->
    isTimeLabel (wd_endTime wd) qe ->
    getAvailableSlots_from p dayName date = Normal slots ->
    forall slot : Slot,
      In slot slots ->
      isAvailableAt_from p dayName date (sl_startTime slot) = Normal true.
Proof.
  intros off p dayName date wd qs qe slots Hoff Hf Ha Hb Hls Hle Hslots
         slot Hin.
  destruct (newDate2000_label off _ qs Hoff Hls) as [Hqs Hs].
  destruct (newDate2000_label off _ qe Hoff Hle) as [Hqe He].
  unfold getAvailableSlots_from in Hslots. rewrite Hf, Ha, Hb in Hslots.
  cbv beta iota zeta delta [bindC negb] in Hslots.
  rewrite Hs, He, slotsLoop_count in Hslots.
  assert (Heq : slots
                = map (fun i => slotAt (day2000 * msPerDay + qs * msPerMinute
                                        - off) i)
                    (seq 0 (Z.to_nat
                              ((day2000 * msPerDay + qe * msPerMinute - off
                                - (day2000 * msPerDay + qs * msPerMinute - off))
                               / 1800000)))) by congruence.
  rewrite Heq in Hin.
  apply in_map_iff in Hin. destruct Hin as [i [<- Hi]].
  apply in_seq in Hi.
  destruct (slot_start_reads_back off qs
              (day2000 * msPerDay + qe * msPerMinute - off) i Hoff
              ltac:(lia) ltac:(unfold msPerDay, msPerMinute; lia)
              ltac:(lia)) as [Hn Hr].
  unfold isAvailableAt_from. rewrite Hf, Ha, Hb.
  cbv beta iota zeta delta [bindC negb].
  rewrite Hn, Hs, He. unfold date_geb, date_leb, date_ltb.
  f_equal. apply andb_true_iff. split; [apply Z.leb_le | apply Z.ltb_lt]; lia.
Qed.

(** ** The appointment's date and time *)

Lemma startTime_parts (hh mm : Z) :
  0 <= hh <= 23 -> 0 <= mm <= 59 ->
  parseInt (nth_error (split (timeLabel hh mm)) 0) = Some hh
  /\ parseInt (nth_error (split (timeLabel hh mm)) 1) = Some mm.
Proof.
  intros Hh Hm.
  pose (P := fun h m : Z =>
          match parseInt (nth_error (split (timeLabel h m)) 0),
                parseInt (nth_error (split (timeLabel h m)) 1) with
          | Some a, Some b => (a =? h) && (b =? m)
          | _, _ => false
          end).
  assert (Hall : forallb (fun h => forallb (P h) (zrange 60)) (zrange 24)
                 = true) by (vm_compute; reflexivity).
  pose proof (forallb_zrange2 P 24 60 Hall hh mm ltac:(lia) ltac:(lia)) as H.
  unfold P in H.
  destruct (parseInt (nth_error (split (timeLabel hh mm)) 0)) as [a |];
    [| discriminate].
  destruct (parseInt (nth_error (split (timeLabel hh mm)) 1)) as [b |];
    [| discriminate].
  apply andb_true_iff in H. destruct H as [H1 H2].
  apply Z.eqb_eq in H1. apply Z.eqb_eq in H2. subst. split; reflexivity.
Qed.

Lemma startTime_parts_short (h mm : Z) :
  0 <= h <= 9 -> 0 <= mm <= 59 ->
  parseInt (nth_error (split (shortTimeLabel h mm)) 0) = Some h
  /\ parseInt (nth_error (split (shortTimeLabel h mm)) 1) = Some mm.
Proof.
  intros Hh Hm.
  pose (P := fun h m : Z =>
          match parseInt (nth_error (split (shortTimeLabel h m)) 0),
                parseInt (nth_error (split (shortTimeLabel h m)) 1) with
          | Some a, Some b => (a =? h) && (b =? m)
          | _, _ => false
          end).
  assert (Hall : forallb (fun h => forallb (P h) (zrange 60)) (zrange 10)
                 = true) by (vm_compute; reflexivity).
  pose proof (forallb_zrange2 P 10 60 Hall h mm ltac:(lia) ltac:(lia)) as H.
  unfold P in H.
  destruct (parseInt (nth_error (split (shortTimeLabel h mm)) 0)) as [a |];
    [| discriminate].
  destruct (parseInt (nth_error (split (shortTimeLabel h mm)) 1)) as [b |];
    [| discriminate].
  apply andb_true_iff in H. destruct H as [H1 H2].
  apply Z.eqb_eq in H1. apply Z.eqb_eq in H2. subst. split; reflexivity.
Qed.

Lemma Day_bounds (x : Z) : x - msPerDay < Day x * msPerDay <= x.
Proof.
  unfold Day.
  pose proof (Z.mul_div_le x msPerDay ltac:(unfold msPerDay; lia)).
  pose proof (Z.mul_succ_div_gt x msPerDay ltac:(unfold msPerDay; lia)).
  lia.
Qed.

(** For a start time [HH:MM] or [H:MM], [appointmentDateTime] is that
    local time on the local day of [appointmentDate]. *)
Lemma appointmentDateTime_label (b : Booking) (d hh mm : Z) :
  appointmentDate b = Some d ->
  0 <= hh <= 23 -> 0 <= mm <= 59 ->
  startTime b = timeLabel hh mm
  \/ (hh <= 9 /\ startTime b = shortTimeLabel hh mm) ->
  appointmentDateTime b
  = TimeClip (UTC (Day (LocalTime d) * msPerDay
                   + (hh * msPerHour + mm * msPerMinute))).
Proof.
  intros Hd Hh Hm Hs.
  assert (Hparts : parseInt (nth_error (split (startTime b)) 0) = Some hh
                   /\ parseInt (nth_error (split (startTime b)) 1) = Some mm).
  { destruct Hs as [-> | [Hh9 ->]];
      [apply startTime_parts | apply startTime_parts_short]; lia. }
  destruct Hparts as [H0 H1].
  unfold appointmentDateTime. cbv zeta. rewrite Hd, H0, H1. reflexivity.
Qed.

(** An offset being less than a day, a time of day on the local day of
    [d] is less than three days from [d]. *)
Lemma TimeClip_near (d tod : Z) :
  Z.abs d <= 8640000000000000 - 3 * msPerDay ->
  0 <= tod < msPerDay ->
  TimeClip (UTC (Day (LocalTime d) * msPerDay + tod))
  = Some (UTC (Day (LocalTime d) * msPerDay + tod)).
Proof.
  intros Hd Htod. unfold TimeClip.
  pose proof (Day_bounds (LocalTime d)) as HD.
  pose proof (offsetBelowDay host d true) as H1.
  pose proof (offsetBelowDay host (Day (LocalTime d) * msPerDay + tod) false)
    as H2.
  match goal with
  | |- (if ?c then _ else _) = _ => destruct c eqn:E
  end; [reflexivity |].
  apply Z.leb_gt in E.
  unfold UTC, LocalTime in *. unfold msPerDay in *. lia.
Qed.

(** X4.  For a start time written [HH:MM] (or [H:MM], which the routes'
    pattern also admits) and an [appointmentDate] at least three days
    inside the range of time values, provided the local time [HH:MM]
    exists on the local day of [appointmentDate] (converting it to an
    instant and back gives it again, which fails only for a time that a
    clock change skips), [appointmentDateTime] is a valid date: it lies on
    the same local calendar day as [appointmentDate], and its local time
    of day, printed as [HH:MM], is the start time. *)
Theorem appointment_keeps_day_and_start_time :
  forall (b : Booking) (d hh mm : Z),
    appointmentDate b = Some d ->
    Z.abs d <= 8640000000000000 - 3 * msPerDay ->
    0 <= hh <= 23 -> 0 <= mm <= 59 ->
    startTime b = timeLabel hh mm
    \/ (hh <= 9 /\ startTime b = shortTimeLabel hh mm) ->
    LocalTime (UTC (Day (LocalTime d) * msPerDay
                    + (hh * msPerHour + mm * msPerMinute)))
    = Day (LocalTime d) * msPerDay + (hh * msPerHour + mm * msPerMinute) ->
    exists t : Z,
      appointmentDateTime b = Some t
      /\ Day (LocalTime t) = Day (LocalTime d)
      /\ toTimeString_slice5 (Some t) = timeLabel hh mm.
Proof.
  intros b d hh mm Hd Hbound Hh Hm Hs Hexists.
  destruct (label_minutes hh mm Hh Hm) as [Hq [Hdiv [Hmod Hms]]].
  exists (UTC (Day (LocalTime d) * msPerDay
               + (hh * msPerHour + mm * msPerMinute))).
  split; [| split].
  - rewrite (appointmentDateTime_label b d hh mm Hd Hh Hm Hs).
    apply TimeClip_near; [exact Hbound |].
    unfold msPerDay, msPerHour, msPerMinute. lia.
  - rewrite Hexists. unfold Day at 1. symmetry.
    apply (Z.div_unique _ _ _ (hh * msPerHour + mm * msPerMinute));
      unfold msPerDay, msPerHour, msPerMinute; lia.
  - rewrite Hms in Hexists.
    rewrite (toTimeString_minutes _ (Day (LocalTime d)) (hh * 60 + mm) Hq);
      [| rewrite Hms; exact Hexists].
    rewrite Hdiv, Hmod. reflexivity.
Qed.

(** X5.  When [appointmentDate] is a UTC midnight, as a date-only
    ISO string parses, the calendar day [appointmentDateTime] lands on
    depends on the server's zone.  Where the offset in force at that
    instant is zero or positive (at or east of Greenwich), it is the
    instant the zone assigns to the local time [HH:MM] on that calendar
    day; where the offset is negative (west of Greenwich), it is the
    instant the zone assigns to [HH:MM] on the day before. *)
Theorem date_only_appointment_shifts_west_of_utc :
  forall (b : Booking) (d hh mm : Z),
    appointmentDate b = Some d ->
    d mod msPerDay = 0 ->
    0 <= hh <= 23 -> 0 <= mm <= 59 ->
    startTime b = timeLabel hh mm ->
    (0 <= LocalTZA host d true ->
       appointmentDateTime b
       = TimeClip (UTC (d + (hh * msPerHour + mm * msPerMinute))))
    /\ (LocalTZA host d true < 0 ->
        appointmentDateTime b
        = TimeClip (UTC (d - msPerDay
                         + (hh * msPerHour + mm * msPerMinute)))).
Proof.
  intros b d hh mm Hd Hmid Hh Hm Hs.
  rewrite (appointmentDateTime_label b d hh mm Hd Hh Hm (or_introl Hs)).
  pose proof (Z.div_mod d msPerDay ltac:(unfold msPerDay; lia)) as Hdm.
  rewrite Hmid in Hdm.
  pose proof (offsetBelowDay host d true) as Hoff.
  split; intro Htz; do 2 f_equal; unfold LocalTime, Day.
  - replace ((d + LocalTZA host d true) / msPerDay) with (d / msPerDay);
      [lia |].
    apply (Z.div_unique _ _ _ (LocalTZA host d true)); lia.
  - replace ((d + LocalTZA host d true) / msPerDay) with (d / msPerDay - 1);
      [lia |].
    apply (Z.div_unique _ _ _ (LocalTZA host d true + msPerDay)); lia.
Qed.

(** ** The availability endpoint *)

Lemma availabilityLoop_throws (p : Provider) (date endDate : Z)
  (availability : list (Z * list Slot)) :
  date <= endDate ->
  availabilityLoop p date endDate availability = Throw weekdayRangeError.
Proof.
  intro H. rewrite availabilityLoop_equation_1.
  destruct (Z_le_dec date endDate) as [Hl | Hr]; [| contradiction].
  rewrite availabilityLoop_clause_1_equation_1. cbv zeta.
  rewrite getAvailableSlots_valid_date. reflexivity.
Qed.

Lemma availabilityLoop_skipped (p : Provider) (date endDate : Z)
  (availability : list (Z * list Slot)) :
  endDate < date ->
  availabilityLoop p date endDate availability = Normal availability.
Proof.
  intro H. rewrite availabilityLoop_equation_1.
  destruct (Z_le_dec date endDate) as [Hl | Hr]; [lia |].
  rewrite availabilityLoop_clause_1_equation_2. reflexivity.
Qed.

Lemma getAvailability_on_range (req : AvailabilityReq) (s : Store)
  (p : Provider) (start endDate : JSDate) :
  find (fun x => Nat.eqb (p_id x) (av_id req)) (providers s) = Some p ->
  av_startDate req = Some start ->
  av_endDate req = Some endDate ->
  getAvailability req s
  = (s, if date_leb start endDate
        then AvailabilityFailed
               (mkHttpResult (mkResponse 500 "Server error")
                  (Some weekdayRangeError))
        else AvailabilityOf []).
Proof.
  intros Hp Hs He.
  unfold getAvailability, getAvailabilityHandler. rewrite Hs, He.
  unfold_handler. rewrite Hp.
  destruct start as [b |], endDate as [e |]; simpl; try reflexivity.
  unfold liftC. destruct (Z.leb_spec b e) as [Hle | Hgt].
  - rewrite availabilityLoop_throws by exact Hle. reflexivity.
  - rewrite availabilityLoop_skipped by exact Hgt. reflexivity.
Qed.

(** X6.  GET /api/providers/:id/availability never reports a day, let
    alone a slot.  It leaves the store alone and answers either an empty
    availability object or an error.  Whenever the provider exists and
    the range holds at least one day (valid start not after valid end),
    the first call of [getAvailableSlots] throws and the answer is 500
    'Server error'; the empty object is the answer exactly when a bound is
    an Invalid Date or the start is after the end. *)
Theorem availability_endpoint_never_lists_a_day :
  forall (req : AvailabilityReq) (s : Store),
    fst (getAvailability req s) = s
    /\ (snd (getAvailability req s) = AvailabilityOf []
        \/ exists r, snd (getAvailability req s) = AvailabilityFailed r)
    /\ (forall (p : Provider) (start endDate : JSDate),
          find (fun x => Nat.eqb (p_id x) (av_id req)) (providers s) = Some p ->
          av_startDate req = Some start ->
          av_endDate req = Some endDate ->
          snd (getAvailability req s)
          = if date_leb start endDate
            then AvailabilityFailed
                   (mkHttpResult (mkResponse 500 "Server error")
                      (Some weekdayRangeError))
            else AvailabilityOf []).
Proof.
  intros req s.
  split; [| split].
  - destruct (av_startDate req) as [start |] eqn:Hs;
      [| unfold getAvailability, getAvailabilityHandler; rewrite Hs;
         reflexivity].
    destruct (av_endDate req) as [endDate |] eqn:He;
      [| unfold getAvailability, getAvailabilityHandler; rewrite Hs, He;
         reflexivity].
    destruct (find (fun x => Nat.eqb (p_id x) (av_id req)) (providers s))
      as [p |] eqn:Hp.
    + rewrite (getAvailability_on_range req s p start endDate Hp Hs He).
      reflexivity.
    + unfold getAvailability, getAvailabilityHandler. rewrite Hs, He.
      unfold_handler. rewrite Hp. reflexivity.
  - destruct (av_startDate req) as [start |] eqn:Hs;
      [| right; unfold getAvailability, getAvailabilityHandler; rewrite Hs;
         eexists; reflexivity].
    destruct (av_endDate req) as [endDate |] eqn:He;
      [| right; unfold getAvailability, getAvailabilityHandler;
         rewrite Hs, He; eexists; reflexivity].
    destruct (find (fun x => Nat.eqb (p_id x) (av_id req)) (providers s))
      as [p |] eqn:Hp.
    + rewrite (getAvailability_on_range req s p start endDate Hp Hs He).
      simpl.
      destruct (date_leb start endDate);
        [right; eexists; reflexivity | left; reflexivity].
    + right. unfold getAvailability, getAvailabilityHandler. rewrite Hs, He.
      unfold_handler. rewrite Hp. eexists. reflexivity.
  - intros p start endDate Hp Hs He.
    rewrite (getAvailability_on_range req s p start endDate Hp Hs He).
    reflexivity.
Qed.

(** ** The collection under [save] *)

Lemma replaceBooking_ids (b : Booking) (l : list Booking) :
  map b_id (replaceBooking b l) = map b_id l.
Proof.
  induction l as [| x rest IH]; simpl; [reflexivity |].
  destruct (Nat.eqb_spec (b_id x) (b_id b)) as [E | E]; simpl.
  - rewrite E. reflexivity.
  - rewrite IH. reflexivity.
Qed.

Lemma find_replaceBooking_other (b : Booking) (l : list Booking)
  (x : ObjectId) :
  x <> b_id b ->
  find (fun y => Nat.eqb (b_id y) x) (replaceBooking b l)
  = find (fun y => Nat.eqb (b_id y) x) l.
Proof.
  intro Hx. induction l as [| y rest IH]; simpl; [reflexivity |].
  destruct (Nat.eqb_spec (b_id y) (b_id b)) as [E | E]; simpl.
  - destruct (Nat.eqb_spec (b_id b) x) as [E1 | E1]; [congruence |].
    destruct (Nat.eqb_spec (b_id y) x) as [E2 | E2]; [congruence |].
    reflexivity.
  - destruct (Nat.eqb (b_id y) x); [reflexivity | exact IH].
Qed.

Lemma find_replaceBooking_same (b : Booking) (l : list Booking) :
  existsb (fun y => Nat.eqb (b_id y) (b_id b)) l = true ->
  find (fun y => Nat.eqb (b_id y) (b_id b)) (replaceBooking b l) = Some b.
Proof.
  induction l as [| y rest IH]; simpl; [discriminate |].
  destruct (Nat.eqb_spec (b_id y) (b_id b)) as [E | E]; simpl.
  - intros _. rewrite Nat.eqb_refl. reflexivity.
  - intro H. destruct (Nat.eqb_spec (b_id y) (b_id b)); [contradiction |].
    apply IH. exact H.
Qed.

Lemma find_byId_existsb (l : list Booking) (id : ObjectId) (b : Booking) :
  find (fun y => Nat.eqb (b_id y) id) l = Some b ->
  b_id b = id /\ existsb (fun y => Nat.eqb (b_id y) id) l = true.
Proof.
  intro H. apply find_some in H. destruct H as [Hin Hid].
  apply Nat.eqb_eq in Hid. split; [exact Hid |].
  apply existsb_exists. exists b. split; [exact Hin |].
  apply Nat.eqb_eq. exact Hid.
Qed.

Lemma In_existsb_id (l : list Booking) (b : Booking) :
  In b l -> existsb (fun y => Nat.eqb (b_id y) (b_id b)) l = true.
Proof.
  intro H. apply existsb_exists. exists b.
  split; [exact H | apply Nat.eqb_refl].
Qed.

(** What [save] stores can be read back under its [_id]. *)
Lemma lookup_after_write (b : Booking) (s : Store) :
  find (fun y => Nat.eqb (b_id y) (b_id b)) (bookings (writeBooking b s))
  = Some b.
Proof.
  unfold writeBooking.
  destruct (existsb _ (bookings s)) eqn:E; simpl.
  - apply find_replaceBooking_same. exact E.
  - induction (bookings s) as [| y rest IH]; simpl.
    + rewrite Nat.eqb_refl. reflexivity.
    + simpl in E. apply orb_false_iff in E. destruct E as [E1 E2].
      rewrite E1. apply IH. exact E2.
Qed.

Lemma onlyBookingTouched_refl (target : ObjectId) (s : Store) :
  onlyBookingTouched target s s.
Proof. repeat split. Qed.

Lemma onlyBookingTouched_write (b : Booking) (s : Store) :
  existsb (fun y => Nat.eqb (b_id y) (b_id b)) (bookings s) = true ->
  onlyBookingTouched (b_id b) s (writeBooking b s).
Proof.
  intro E. unfold onlyBookingTouched, writeBooking. rewrite E. simpl.
  split; [reflexivity |]. split; [apply replaceBooking_ids |].
  intros x Hx. apply find_replaceBooking_other. exact Hx.
Qed.

Lemma save_cases (env : Env) (b : Booking) (s : Store) :
  (exists e, save env b s = (s, Raise e))
  \/ save env b s = (writeBooking b s, Ret tt).
Proof.
  unfold save.
  destruct (validateBooking b) as [[] | e]; [| left; exists e; reflexivity].
  destruct (preSave b (now env)) as [[] | e];
    [right; reflexivity | left; exists e; reflexivity].
Qed.

Lemma storeAfter_touches (s s' : Store) (b : Booking) :
  In b (bookings s) ->
  storeAfter s s' b ->
  onlyBookingTouched (b_id b) s s'.
Proof.
  intros Hin [-> | [b' [Hid ->]]]; [apply onlyBookingTouched_refl |].
  rewrite <- Hid. apply onlyBookingTouched_write.
  rewrite Hid. apply In_existsb_id. exact Hin.
Qed.

Lemma updateStatus_store (env : Env) (req : StatusReq) (s : Store) :
  match find (fun x => Nat.eqb (b_id x) (sr_id req)) (bookings s) with
  | Some b => storeAfter s (fst (updateStatus env req s)) b
  | None => fst (updateStatus env req s) = s
  end.
Proof.
  unfold updateStatus, updateStatusHandler. unfold_handler.
  destruct (find _ (bookings s)) as [b |] eqn:Hf;
    [| destruct (sr_valid req); simpl; [rewrite Hf |]; reflexivity].
  destruct (sr_valid req); simpl; [| left; reflexivity].
  rewrite Hf. simpl.
  destruct (negb (provider b =? sr_provider req)%nat); simpl;
    [left; reflexivity |].
  match goal with
  | |- context [ save env ?b' s ] =>
      destruct (save_cases env b' s) as [[e He] | He]; rewrite He; simpl;
      [left; reflexivity | right; exists b']
  end.
  split; [destruct (truthy (sr_notes req)); reflexivity |].
  unfold sendBookingConfirmation.
  destruct (_ && _); [destruct (emailDelivers env) |]; reflexivity.
Qed.

Lemma cancelBooking_store (env : Env) (req : CancelReq) (s : Store) :
  match find (fun x => Nat.eqb (b_id x) (cn_id req)) (bookings s) with
  | Some b => storeAfter s (fst (cancelBooking env req s)) b
  | None => fst (cancelBooking env req s) = s
  end.
Proof.
  unfold cancelBooking, cancelBookingHandler. unfold_handler.
  destruct (find _ (bookings s)) as [b |] eqn:Hf; [| reflexivity].
  simpl.
  destruct (negb (customer b =? cn_user req)%nat && _); simpl;
    [left; reflexivity |].
  destruct (negb (canBeCancelled b (now env))); simpl; [left; reflexivity |].
  match goal with
  | |- context [ save ?env' ?b' s ] =>
      destruct (save_cases env' b' s) as [[e He] | He]; rewrite He; simpl;
      [left; reflexivity | right; exists b'; split; reflexivity]
  end.
Qed.

Lemma confirmPayment_store (env : Env) (req : ConfirmPaymentReq) (s : Store) :
  match find (hasPaymentIntent (cp_paymentIntentId req)) (bookings s) with
  | Some b => storeAfter s (fst (confirmPayment env req s)) b
  | None => fst (confirmPayment env req s) = s
  end.
Proof.
  unfold confirmPayment, confirmPaymentHandler. unfold_handler.
  destruct (find _ (bookings s)) as [b |] eqn:Hf.
  - destruct (cp_valid req); simpl; [| left; reflexivity].
    destruct (paymentIntentStatus env _) as [st | e]; simpl;
      [| left; reflexivity].
    destruct (negb (st =? "succeeded")%string); simpl; [left; reflexivity |].
    rewrite Hf. simpl.
    destruct (negb (customer b =? cp_user req)%nat); simpl;
      [left; reflexivity |].
    match goal with
    | |- context [ save env ?b' s ] =>
        destruct (save_cases env b' s) as [[e He] | He]; rewrite He; simpl;
        [left; reflexivity | right; exists b'; split; [reflexivity |]]
    end.
    unfold sendBookingConfirmation.
    destruct (emailDelivers env); reflexivity.
  - destruct (cp_valid req); simpl; [| reflexivity].
    destruct (paymentIntentStatus env _) as [st | e]; simpl; [| reflexivity].
    destruct (negb (st =? "succeeded")%string); simpl; [reflexivity |].
    rewrite Hf. reflexivity.
Qed.

Lemma handlePaymentSucceeded_store (env : Env) (id : string) (s : Store) :
  match find (hasPaymentIntent id) (bookings s) with
  | Some b => storeAfter s (fst (handlePaymentSucceeded env id s)) b
  | None => fst (handlePaymentSucceeded env id s) = s
  end.
Proof.
  unfold handlePaymentSucceeded, logged. unfold_handler.
  destruct (find _ (bookings s)) as [b |] eqn:Hf; [| reflexivity].
  destruct (PaymentStatus_eqb _ _); simpl; [| left; reflexivity].
  match goal with
  | |- context [ save env ?b' s ] =>
      destruct (save_cases env b' s) as [[e He] | He]; rewrite He; simpl;
      [left; reflexivity | right; exists b'; split; reflexivity]
  end.
Qed.

Lemma handlePaymentFailed_store (env : Env) (id : string) (s : Store) :
  match find (hasPaymentIntent id) (bookings s) with
  | Some b => storeAfter s (fst (handlePaymentFailed env id s)) b
  | None => fst (handlePaymentFailed env id s) = s
  end.
Proof.
  unfold handlePaymentFailed, logged. unfold_handler.
  destruct (find _ (bookings s)) as [b |] eqn:Hf; [| reflexivity].
  destruct (PaymentStatus_eqb _ _); simpl; [| left; reflexivity].
  match goal with
  | |- context [ save env ?b' s ] =>
      destruct (save_cases env b' s) as [[e He] | He]; rewrite He; simpl;
      [left; reflexivity | right; exists b'; split; reflexivity]
  end.
Qed.

Lemma createPaymentIntent_store (env : Env) (created : Completion string)
  (req : PaymentIntentReq) (s : Store) :
  match find (fun x => Nat.eqb (b_id x) (pi_bookingId req)) (bookings s) with
  | Some b => storeAfter s (fst (createPaymentIntent env created req s)) b
  | None => fst (createPaymentIntent env created req s) = s
  end.
Proof.
  unfold createPaymentIntent, createPaymentIntentHandler. unfold_handler.
  destruct (find _ (bookings s)) as [b |] eqn:Hf;
    [| destruct (pi_valid req); simpl; [rewrite Hf |]; reflexivity].
  destruct (pi_valid req); simpl; [| left; reflexivity].
  rewrite Hf. simpl.
  destruct (negb (customer b =? pi_user req)%nat); simpl;
    [left; reflexivity |].
  destruct (negb (PaymentStatus_eqb _ _)); simpl; [left; reflexivity |].
  destruct (find _ (providers s)); simpl; [| left; reflexivity].
  destruct created as [i | e]; simpl; [| left; reflexivity].
  match goal with
  | |- context [ save env ?b' s ] =>
      destruct (save_cases env b' s) as [[e He] | He]; rewrite He; simpl;
      [left; reflexivity | right; exists b'; split; reflexivity]
  end.
Qed.

(** X7.  The routes that modify a booking touch that booking alone.  The
    status update, the cancellation, create-payment-intent, the payment
    confirmation and the two payment webhooks never change a provider,
    never insert or remove a booking, and leave every booking other than
    the one they address exactly as it was; when they find no booking to
    address, the store is unchanged. *)
Theorem routes_touch_one_booking :
  forall (env : Env) (s : Store),
    (forall req : StatusReq,
        onlyBookingTouched (sr_id req) s (fst (updateStatus env req s)))
    /\ (forall req : CancelReq,
          onlyBookingTouched (cn_id req) s (fst (cancelBooking env req s)))
    /\ (forall (created : Completion string) (req : PaymentIntentReq),
          onlyBookingTouched (pi_bookingId req) s
            (fst (createPaymentIntent env created req s)))
    /\ (forall req : ConfirmPaymentReq,
          match find (hasPaymentIntent (cp_paymentIntentId req)) (bookings s)
          with
          | Some b => onlyBookingTouched (b_id b) s
                        (fst (confirmPayment env req s))
          | None => fst (confirmPayment env req s) = s
          end)
    /\ (forall id : string,
          match find (hasPaymentIntent id) (bookings s) with
          | Some b =>
              onlyBookingTouched (b_id b) s
                (fst (handlePaymentSucceeded env id s))
              /\ onlyBookingTouched (b_id b) s
                   (fst (handlePaymentFailed env id s))
          | None =>
              fst (handlePaymentSucceeded env id s) = s
              /\ fst (handlePaymentFailed env id s) = s
          end).
Proof.
  intros env s.
  split; [| split; [| split; [| split]]].
  - intro req. pose proof (updateStatus_store env req s) as H.
    destruct (find _ (bookings s)) as [b |] eqn:Hf.
    + destruct (find_byId_existsb _ _ _ Hf) as [<- _].
      apply storeAfter_touches; [| exact H].
      apply find_some in Hf. apply Hf.
    + rewrite H. apply onlyBookingTouched_refl.
  - intro req. pose proof (cancelBooking_store env req s) as H.
    destruct (find _ (bookings s)) as [b |] eqn:Hf.
    + destruct (find_byId_existsb _ _ _ Hf) as [<- _].
      apply storeAfter_touches; [| exact H].
      apply find_some in Hf. apply Hf.
    + rewrite H. apply onlyBookingTouched_refl.
  - intros created req.
    pose proof (createPaymentIntent_store env created req s) as H.
    destruct (find _ (bookings s)) as [b |] eqn:Hf.
    + destruct (find_byId_existsb _ _ _ Hf) as [<- _].
      apply storeAfter_touches; [| exact H].
      apply find_some in Hf. apply Hf.
    + rewrite H. apply onlyBookingTouched_refl.
  - intro req. pose proof (confirmPayment_store env req s) as H.
    destruct (find _ (bookings s)) as [b |] eqn:Hf; [| exact H].
    apply storeAfter_touches; [| exact H].
    apply find_some in Hf. apply Hf.
  - intro id.
    pose proof (handlePaymentSucceeded_store env id s) as H1.
    pose proof (handlePaymentFailed_store env id s) as H2.
    destruct (find _ (bookings s)) as [b |] eqn:Hf; [| split; assumption].
    apply find_some in Hf.
    split; apply storeAfter_touches; try assumption; apply Hf.
Qed.

(** ** Payment webhooks delivered again *)

Lemma find_intent_after_replace (id : string) (b b' : Booking)
  (l : list Booking) :
  NoDup (map b_id l) ->
  find (hasPaymentIntent id) l = Some b ->
  b_id b' = b_id b ->
  hasPaymentIntent id b' = true ->
  find (hasPaymentIntent id) (replaceBooking b' l) = Some b'.
Proof.
  intros Hnd Hf Hid Hint.
  induction l as [| x rest IH]; simpl in *; [discriminate |].
  inversion Hnd as [| y ys Hnotin Hnd']. subst.
  destruct (hasPaymentIntent id x) eqn:Hx.
  - injection Hf as ->. rewrite Hid, Nat.eqb_refl. simpl.
    rewrite Hint. reflexivity.
  - assert (Hin : In (b_id b) (map b_id rest)).
    { apply in_map. apply find_some in Hf. apply Hf. }
    destruct (Nat.eqb_spec (b_id x) (b_id b')) as [E | E].
    + exfalso. apply Hnotin. rewrite E, Hid. exact Hin.
    + simpl. rewrite Hx. apply IH; assumption.
Qed.

Lemma find_intent_after_write (id : string) (b b' : Booking) (s : Store) :
  uniqueIds s ->
  find (hasPaymentIntent id) (bookings s) = Some b ->
  b_id b' = b_id b ->
  hasPaymentIntent id b' = true ->
  find (hasPaymentIntent id) (bookings (writeBooking b' s)) = Some b'.
Proof.
  intros Hu Hf Hid Hint. unfold writeBooking.
  assert (E : existsb (fun x => Nat.eqb (b_id x) (b_id b')) (bookings s)
              = true).
  { rewrite Hid. apply In_existsb_id. apply find_some in Hf. apply Hf. }
  rewrite E. simpl. apply (find_intent_after_replace id b); assumption.
Qed.

Lemma handlePaymentSucceeded_found (env : Env) (id : string) (s : Store)
  (b : Booking) :
  find (hasPaymentIntent id) (bookings s) = Some b ->
  handlePaymentSucceeded env id s
  = if PaymentStatus_eqb (pay_status (payment b)) pay_pending
    then logged (save env (paidVersion (now env) b)) s
    else (s, None).
Proof.
  intro Hf. unfold handlePaymentSucceeded, logged. unfold_handler.
  rewrite Hf. destruct (PaymentStatus_eqb _ _); reflexivity.
Qed.

Lemma handlePaymentFailed_found (env : Env) (id : string) (s : Store)
  (b : Booking) :
  find (hasPaymentIntent id) (bookings s) = Some b ->
  handlePaymentFailed env id s
  = if PaymentStatus_eqb (pay_status (payment b)) pay_pending
    then logged (save env (failedVersion b)) s
    else (s, None).
Proof.
  intro Hf. unfold handlePaymentFailed, logged. unfold_handler.
  rewrite Hf. destruct (PaymentStatus_eqb _ _); reflexivity.
Qed.

Lemma webhooks_not_found (env : Env) (id : string) (s : Store) :
  find (hasPaymentIntent id) (bookings s) = None ->
  handlePaymentSucceeded env id s = (s, None)
  /\ handlePaymentFailed env id s = (s, None).
Proof.
  intro Hf. unfold handlePaymentSucceeded, handlePaymentFailed, logged.
  unfold_handler. rewrite Hf. split; reflexivity.
Qed.

(** A save that fails keeps failing later for any version of the booking
    with the same date that validates alike. *)
Lemma save_fails_later (env env' : Env) (b b2 : Booking) (s : Store) :
  (exists e, save env b s = (s, Raise e)) ->
  appointmentDate b2 = appointmentDate b ->
  validateBooking b2 = validateBooking b ->
  now env <= now env' ->
  exists e, save env' b2 s = (s, Raise e).
Proof.
  intros [e He] Hd Hv Hnow. unfold save, preSave in *.
  rewrite Hv, Hd.
  destruct (validateBooking b) as [[] | e0]; [| eexists; reflexivity].
  destruct (appointmentDate b) as [d |]; cbn [date_ltb] in *.
  - destruct (Z.ltb_spec d (now env)) as [Hlt | Hge].
    + destruct (Z.ltb_spec d (now env')) as [_ | Hge']; [| lia].
      eexists. reflexivity.
    + exfalso. inversion He as [[Hs]].
  - exfalso. inversion He as [[Hs]].
Qed.

Lemma logged_save (env : Env) (b : Booking) (s : Store) :
  (exists e, save env b s = (s, Raise e)
             /\ logged (save env b) s = (s, Some e))
  \/ (save env b s = (writeBooking b s, Ret tt)
      /\ logged (save env b) s = (writeBooking b s, None)).
Proof.
  unfold logged.
  destruct (save_cases env b s) as [[e He] | He]; rewrite He;
    [left; exists e | right]; split; reflexivity.
Qed.

(** After a webhook handler has run for a payment intent, running either
    handler again for that intent changes nothing. *)
Lemma webhook_settles (first : Env -> string -> Store -> Store * option JSError)
  (version : Env -> Booking -> Booking) :
  (forall env id s b,
      find (hasPaymentIntent id) (bookings s) = Some b ->
      first env id s
      = if PaymentStatus_eqb (pay_status (payment b)) pay_pending
        then logged (save env (version env b)) s
        else (s, None)) ->
  (forall env id s,
      find (hasPaymentIntent id) (bookings s) = None ->
      first env id s = (s, None)) ->
  (forall env b,
      b_id (version env b) = b_id b
      /\ appointmentDate (version env b) = appointmentDate b
      /\ validateBooking (version env b) = validateBooking b
      /\ stripePaymentIntentId (payment (version env b))
         = stripePaymentIntentId (payment b)
      /\ PaymentStatus_eqb (pay_status (payment (version env b))) pay_pending
         = false) ->
  forall (env env' : Env) (id : string) (s : Store),
    uniqueIds s ->
    now env <= now env' ->
    fst (handlePaymentSucceeded env' id (fst (first env id s)))
    = fst (first env id s)
    /\ fst (handlePaymentFailed env' id (fst (first env id s)))
       = fst (first env id s).
Proof.
  intros Hfound Hnone Hver env env' id s Hu Hnow.
  destruct (find (hasPaymentIntent id) (bookings s)) as [b |] eqn:Hf.
  - rewrite (Hfound env id s b Hf).
    destruct (PaymentStatus_eqb (pay_status (payment b)) pay_pending) eqn:Hp.
    + destruct (Hver env b) as [Vid [Vd [Vn [Vi Vp]]]].
      destruct (logged_save env (version env b) s) as [[e [He Hl]] | [He Hl]];
        rewrite Hl; simpl.
      * rewrite (handlePaymentSucceeded_found env' id s b Hf),
          (handlePaymentFailed_found env' id s b Hf), Hp.
        assert (H1 : exists e1,
                   save env' (paidVersion (now env') b) s = (s, Raise e1)).
        { apply (save_fails_later env env' (version env b));
            [exists e; exact He | rewrite Vd | rewrite Vn | exact Hnow];
            reflexivity. }
        assert (H2 : exists e2, save env' (failedVersion b) s = (s, Raise e2)).
        { apply (save_fails_later env env' (version env b));
            [exists e; exact He | rewrite Vd | rewrite Vn | exact Hnow];
            reflexivity. }
        destruct H1 as [e1 H1]. destruct H2 as [e2 H2].
        unfold logged. rewrite H1, H2. split; reflexivity.
      * assert (Hf' : find (hasPaymentIntent id)
                        (bookings (writeBooking (version env b) s))
                      = Some (version env b)).
        { apply (find_intent_after_write id b); try assumption.
          unfold hasPaymentIntent. rewrite Vi.
          apply find_some in Hf. apply Hf. }
        rewrite (handlePaymentSucceeded_found env' id _ _ Hf'),
          (handlePaymentFailed_found env' id _ _ Hf'), Vp.
        split; reflexivity.
    + simpl.
      rewrite (handlePaymentSucceeded_found env' id s b Hf),
        (handlePaymentFailed_found env' id s b Hf), Hp.
      split; reflexivity.
  - rewrite (Hnone env id s Hf). simpl.
    destruct (webhooks_not_found env' id s Hf) as [-> ->].
    split; reflexivity.
Qed.

(** X8.  Payment webhooks settle a booking once.  In a collection with
    unique [_id]s, after [handlePaymentSucceeded] or [handlePaymentFailed]
    has run for a payment intent, a later run of either handler for the
    same intent leaves the store as it is: a redelivered event is ignored,
    a failure event cannot undo a recorded payment, and a success event
    that follows a recorded failure is not credited. *)
Theorem webhook_redelivery_changes_nothing :
  forall (env env' : Env) (id : string) (s : Store),
    uniqueIds s ->
    now env <= now env' ->
    (fst (handlePaymentSucceeded env' id (fst (handlePaymentSucceeded env id s)))
     = fst (handlePaymentSucceeded env id s)
     /\ fst (handlePaymentFailed env' id (fst (handlePaymentSucceeded env id s)))
        = fst (handlePaymentSucceeded env id s))
    /\ (fst (handlePaymentSucceeded env' id (fst (handlePaymentFailed env id s)))
        = fst (handlePaymentFailed env id s)
        /\ fst (handlePaymentFailed env' id (fst (handlePaymentFailed env id s)))
           = fst (handlePaymentFailed env id s)).
Proof.
  intros env env' id s Hu Hnow. split.
  - apply (webhook_settles handlePaymentSucceeded
             (fun e b => paidVersion (now e) b)); try assumption.
    + intros. apply handlePaymentSucceeded_found. assumption.
    + intros e i st Hf. apply (webhooks_not_found e i st Hf).
    + intros e b. repeat split.
  - apply (webhook_settles handlePaymentFailed (fun _ b => failedVersion b));
      try assumption.
    + intros. apply handlePaymentFailed_found. assumption.
    + intros e i st Hf. apply (webhooks_not_found e i st Hf).
    + intros e b. repeat split.
Qed.

(** ** What the routes commit *)

Lemma updateStatus_commits (env : Env) (req : StatusReq) (s : Store)
  (b : Booking) (d : Z) :
  sr_valid req = true ->
  find (fun x => Nat.eqb (b_id x) (sr_id req)) (bookings s) = Some b ->
  provider b = sr_provider req ->
  appointmentDate b = Some d ->
  now env <= d ->
  validateBooking b = Normal tt ->
  updateStatus env req s
  = (writeBooking (statusVersion req b) s,
     if BookingStatus_eqb (sr_status req) st_confirmed
        && BookingStatus_eqb (status b) st_pending
        && negb (emailDelivers env)
     then mkHttpResult (mkResponse 500 "Server error")
            (Some (Error "Failed to send email"))
     else mkHttpResult (mkResponse 200 "Booking status updated successfully")
            None).
Proof.
  intros Hv Hf Hp Hd Hle Hval.
  unfold updateStatus, updateStatusHandler. unfold_handler.
  rewrite Hv. simpl. rewrite Hf. simpl.
  rewrite Hp, Nat.eqb_refl. simpl.
  change (if truthy (sr_notes req)
          then set_providerNotes (sr_notes req) (set_status (sr_status req) b)
          else set_status (sr_status req) b) with (statusVersion req b).
  rewrite (save_not_past env (statusVersion req b) s d);
    [| unfold statusVersion; destruct (truthy (sr_notes req)); assumption ..].
  simpl. unfold sendBookingConfirmation.
  destruct (BookingStatus_eqb (sr_status req) st_confirmed
            && BookingStatus_eqb (status b) st_pending); simpl;
    [destruct (emailDelivers env) |]; reflexivity.
Qed.

Lemma confirmPayment_commits (env : Env) (req : ConfirmPaymentReq)
  (s : Store) (b : Booking) (d : Z) :
  cp_valid req = true ->
  paymentIntentStatus env (cp_paymentIntentId req) = Normal "succeeded" ->
  find (hasPaymentIntent (cp_paymentIntentId req)) (bookings s) = Some b ->
  customer b = cp_user req ->
  appointmentDate b = Some d ->
  now env <= d ->
  validateBooking b = Normal tt ->
  confirmPayment env req s
  = (writeBooking (paidVersion (now env) b) s,
     if emailDelivers env
     then mkHttpResult (mkResponse 200 "Payment confirmed successfully") None
     else mkHttpResult
            (mkResponse 500 "Server error during payment confirmation")
            (Some (Error "Failed to send email"))).
Proof.
  intros Hv Hst Hf Hc Hd Hle Hval.
  unfold confirmPayment, confirmPaymentHandler. unfold_handler.
  rewrite Hv. simpl. rewrite Hst. simpl. rewrite Hf. simpl.
  rewrite Hc, Nat.eqb_refl. simpl.
  change (set_status st_confirmed _) with (paidVersion (now env) b).
  rewrite (save_not_past env (paidVersion (now env) b) s d); try assumption.
  simpl. unfold sendBookingConfirmation.
  destruct (emailDelivers env); reflexivity.
Qed.

(** X9.  The status route obeys no transition rule.  For a valid request
    of the owning provider on a stored booking that is not in the past,
    the booking read back afterwards carries the requested status
    whatever its status was before (a cancelled, completed or no-show
    booking included), with its payment, its cancellation record and all
    else but the provider notes unchanged. *)
Theorem status_update_ignores_current_status :
  forall (env : Env) (req : StatusReq) (s : Store) (b : Booking) (d : Z),
    sr_valid req = true ->
    find (fun x => Nat.eqb (b_id x) (sr_id req)) (bookings s) = Some b ->
    provider b = sr_provider req ->
    appointmentDate b = Some d ->
    now env <= d ->
    validateBooking b = Normal tt ->
    exists b' : Booking,
      find (fun x => Nat.eqb (b_id x) (sr_id req))
        (bookings (fst (updateStatus env req s))) = Some b'
      /\ status b' = sr_status req
      /\ providerNotes b'
         = (if truthy (sr_notes req) then sr_notes req else providerNotes b)
      /\ set_providerNotes (providerNotes b) (set_status (status b) b')
         = set_providerNotes (providerNotes b) (set_status (status b) b).
Proof.
  intros env req s b d Hv Hf Hp Hd Hle Hval.
  rewrite (updateStatus_commits env req s b d Hv Hf Hp Hd Hle Hval).
  exists (statusVersion req b). cbn [fst].
  destruct (find_byId_existsb _ _ _ Hf) as [Hid _].
  split.
  - replace (sr_id req) with (b_id (statusVersion req b))
      by (unfold statusVersion; destruct (truthy (sr_notes req)); exact Hid).
    apply lookup_after_write.
  - unfold statusVersion. destruct (truthy (sr_notes req));
      repeat split; reflexivity.
Qed.

(** X10.  A notification that cannot be sent turns a committed change into
    an error response.  When the mail transport fails, confirming a
    pending booking through the status route answers 500 'Server error',
    and confirming a payment answers 500 'Server error during payment
    confirmation', each with 'Failed to send email' as the caught
    exception; yet the booking read back afterwards is confirmed (and, for
    the payment, paid). *)
Theorem failed_notification_after_commit :
  forall (env : Env) (s : Store) (b : Booking) (d : Z),
    emailDelivers env = false ->
    appointmentDate b = Some d ->
    now env <= d ->
    validateBooking b = Normal tt ->
    (forall req : StatusReq,
        sr_valid req = true ->
        find (fun x => Nat.eqb (b_id x) (sr_id req)) (bookings s) = Some b ->
        provider b = sr_provider req ->
        status b = st_pending ->
        sr_status req = st_confirmed ->
        snd (updateStatus env req s)
        = mkHttpResult (mkResponse 500 "Server error")
            (Some (Error "Failed to send email"))
        /\ exists b', find (fun x => Nat.eqb (b_id x) (sr_id req))
                        (bookings (fst (updateStatus env req s))) = Some b'
                      /\ status b' = st_confirmed)
    /\ (forall req : ConfirmPaymentReq,
          cp_valid req = true ->
          paymentIntentStatus env (cp_paymentIntentId req)
          = Normal "succeeded" ->
          find (hasPaymentIntent (cp_paymentIntentId req)) (bookings s)
          = Some b ->
          customer b = cp_user req ->
          snd (confirmPayment env req s)
          = mkHttpResult
              (mkResponse 500 "Server error during payment confirmation")
              (Some (Error "Failed to send email"))
          /\ exists b', find (fun x => Nat.eqb (b_id x) (b_id b))
                          (bookings (fst (confirmPayment env req s))) = Some b'
                        /\ status b' = st_confirmed
                        /\ pay_status (payment b') = pay_succeeded).
Proof.
  intros env s b d Hmail Hd Hle Hval. split.
  - intros req Hv Hf Hp Hst Hreq.
    rewrite (updateStatus_commits env req s b d Hv Hf Hp Hd Hle Hval).
    rewrite Hreq, Hst, Hmail. cbn [fst snd BookingStatus_eqb andb negb].
    split; [reflexivity |].
    exists (statusVersion req b).
    destruct (find_byId_existsb _ _ _ Hf) as [Hid _].
    split.
    + replace (sr_id req) with (b_id (statusVersion req b))
        by (unfold statusVersion; destruct (truthy (sr_notes req)); exact Hid).
      apply lookup_after_write.
    + unfold statusVersion. destruct (truthy (sr_notes req)); exact Hreq.
  - intros req Hv Hst Hf Hc.
    rewrite (confirmPayment_commits env req s b d Hv Hst Hf Hc Hd Hle Hval).
    rewrite Hmail. cbn [fst snd]. split; [reflexivity |].
    exists (paidVersion (now env) b). split; [| split; reflexivity].
    apply (lookup_after_write (paidVersion (now env) b)).
Qed.


(** ** Cancellation *)

Lemma cancelBooking_commits (env : Env) (req : CancelReq) (s : Store)
  (b : Booking) (d : Z) :
  find (fun x => Nat.eqb (b_id x) (cn_id req)) (bookings s) = Some b ->
  customer b = cn_user req
  \/ isProviderOf (cn_role req) (cn_provider req) b = true ->
  canBeCancelled b (now env) = true ->
  appointmentDate b = Some d ->
  clockAt env 3 <= d ->
  validateBooking b = Normal tt ->
  cancelBooking env req s
  = (writeBooking (cancelledVersion env req b) s,
     mkHttpResult (mkResponse 200 "Booking cancelled successfully") None).
Proof.
  intros Hf Hauth Hcan Hd Hle Hval.
  unfold cancelBooking, cancelBookingHandler. unfold_handler.
  rewrite Hf. simpl.
  assert (Ha : negb (customer b =? cn_user req)%nat
               && negb (isProviderOf (cn_role req) (cn_provider req) b)
               = false).
  { destruct Hauth as [Hc | Hp].
    - rewrite Hc, Nat.eqb_refl. reflexivity.
    - rewrite Hp. apply andb_false_r. }
  rewrite Ha, Hcan. simpl.
  change (set_cancellation _ (set_status st_cancelled b))
    with (cancelledVersion env req b).
  rewrite (save_not_past (atReading 3 env) (cancelledVersion env req b) s d);
    try assumption.
  reflexivity.
Qed.

Lemma calculateRefund_cases (b : Booking) (t : Z) :
  calculateRefund b t = amount (payment b)
  \/ calculateRefund b t = (amount (payment b) * (1 # 2))%Q
  \/ calculateRefund b t = 0%Q.
Proof.
  unfold calculateRefund.
  destruct (num_gtb _ 24); [left; reflexivity |].
  destruct (num_gtb _ 2); right; [left | right]; reflexivity.
Qed.

Lemma refund_when_cancellable (b : Booking) (t : Z) :
  canBeCancelled b t = true ->
  calculateRefund b t = amount (payment b)
  \/ calculateRefund b t = (amount (payment b) * (1 # 2))%Q.
Proof.
  intro H. apply canBeCancelled_iff in H.
  destruct H as [_ [u [Hu Hgt]]].
  rewrite (calculateRefund_tiers b t u Hu).
  destruct (24 * msPerHour <? u - t); [left; reflexivity |].
  destruct (Z.ltb_spec (2 * msPerHour) (u - t)) as [_ | Hle];
    [right; reflexivity | lia].
Qed.

(** X12.  What a cancellation records.  The route reads the clock four
    times: in [canBeCancelled], for [cancelledAt], in [calculateRefund]
    and in the save hook.  When the customer (or the provider the request
    carries) cancels a stored booking that may be cancelled at the first
    reading and whose date has not passed at the last, the answer is 200
    and the booking read back afterwards is [cancelled], its payment
    untouched, with a cancellation record dated at the second reading,
    refund status [pending], and as refund amount what [calculateRefund]
    gives at the third reading: the full [payment.amount], half of it, or
    0.  It is the full amount or half of it whenever the appointment is
    still more than 2 hours away at that reading, and the full amount
    whenever it is then more than 24 hours away; it is 0 for a booking
    whose [payment.amount] is 0.  The
    amount does not depend on [payment.status]: it is recorded just the
    same for a booking that was never paid. *)
Theorem cancellation_records_a_refund :
  forall (env : Env) (req : CancelReq) (s : Store) (b : Booking) (d : Z),
    find (fun x => Nat.eqb (b_id x) (cn_id req)) (bookings s) = Some b ->
    customer b = cn_user req
    \/ isProviderOf (cn_role req) (cn_provider req) b = true ->
    canBeCancelled b (now env) = true ->
    appointmentDate b = Some d ->
    clockAt env 3 <= d ->
    validateBooking b = Normal tt ->
    snd (cancelBooking env req s)
    = mkHttpResult (mkResponse 200 "Booking cancelled successfully") None
    /\ exists (b' : Booking) (c : Cancellation),
         find (fun x => Nat.eqb (b_id x) (cn_id req))
           (bookings (fst (cancelBooking env req s))) = Some b'
         /\ status b' = st_cancelled
         /\ payment b' = payment b
         /\ cancellation b' = Some c
         /\ cancelledAt c = clockAt env 1
         /\ refundStatus c = rf_pending
         /\ refundAmount c = calculateRefund b (clockAt env 2)
         /\ (refundAmount c = amount (payment b)
             \/ refundAmount c = (amount (payment b) * (1 # 2))%Q
             \/ refundAmount c = 0%Q)
         /\ (canBeCancelled b (clockAt env 2) = true ->
             refundAmount c = amount (payment b)
             \/ refundAmount c = (amount (payment b) * (1 # 2))%Q)
         /\ (forall t : Z,
               appointmentDateTime b = Some t ->
               24 * msPerHour < t - clockAt env 2 ->
               refundAmount c = amount (payment b))
         /\ ((amount (payment b) == 0)%Q -> (refundAmount c == 0)%Q).
Proof.
  intros env req s b d Hf Hauth Hcan Hd Hle Hval.
  rewrite (cancelBooking_commits env req s b d Hf Hauth Hcan Hd Hle Hval).
  cbn [fst snd]. split; [reflexivity |].
  destruct (find_byId_existsb _ _ _ Hf) as [Hid _].
  exists (cancelledVersion env req b).
  exists (mkCancellation
            (if Nat.eqb (customer b) (cn_user req)
             then by_customer else by_provider)
            (clockAt env 1) (cn_reasonGiven req)
            (calculateRefund b (clockAt env 2)) rf_pending).
  split.
  { rewrite <- Hid. apply (lookup_after_write (cancelledVersion env req b)). }
  do 6 (split; [reflexivity |]).
  cbn [refundAmount].
  split; [apply calculateRefund_cases |].
  split; [apply refund_when_cancellable |].
  split.
  - intros t Ht Hfar. rewrite (calculateRefund_tiers b _ t Ht).
    apply Z.ltb_lt in Hfar. rewrite Hfar. reflexivity.
  - intro Hzero.
    destruct (calculateRefund_cases b (clockAt env 2)) as [-> | [-> | ->]];
      [exact Hzero | rewrite Hzero; reflexivity | reflexivity].
Qed.




(** X14.  Who may cancel or reschedule.  On these two routes only the
    [auth] middleware runs, which sets [req.user] and never
    [req.provider].  With [req.provider] unset, a request for a stored
    booking from anyone but the booking's customer, the booking's own
    provider included, is answered 403 'Access denied' and changes
    nothing. *)
Theorem only_the_customer_passes_without_req_provider :
  forall (env : Env) (s : Store) (b : Booking),
    (forall req : CancelReq,
        find (fun x => Nat.eqb (b_id x) (cn_id req)) (bookings s) = Some b ->
        cn_provider req = None ->
        customer b <> cn_user req ->
        cancelBooking env req s
        = (s, mkHttpResult (mkResponse 403 "Access denied") None))
    /\ (forall req : RescheduleReq,
          rr_valid req = true ->
          find (fun x => Nat.eqb (b_id x) (rr_id req)) (bookings s) = Some b ->
          rr_provider req = None ->
          customer b <> rr_user req ->
          rescheduleBooking env req s
          = (s, mkHttpResult (mkResponse 403 "Access denied") None)).
Proof.
  intros env s b. split.
  - intros req Hf Hnone Hc.
    unfold cancelBooking, cancelBookingHandler. unfold_handler.
    rewrite Hf. simpl. unfold isProviderOf. rewrite Hnone.
    apply Nat.eqb_neq in Hc. rewrite Hc, andb_false_r. reflexivity.
  - intros req Hv Hf Hnone Hc.
    unfold rescheduleBooking, rescheduleBookingHandler. unfold_handler.
    rewrite Hv. simpl. rewrite Hf. simpl. unfold isProviderOf. rewrite Hnone.
    apply Nat.eqb_neq in Hc. rewrite Hc, andb_false_r. reflexivity.
Qed.

(** ** Payment intents *)

Lemma createPaymentIntent_commits (env : Env) (req : PaymentIntentReq)
  (s : Store) (b : Booking) (p : Provider) (i : string) (d : Z) :
  pi_valid req = true ->
  find (fun x => Nat.eqb (b_id x) (pi_bookingId req)) (bookings s) = Some b ->
  customer b = pi_user req ->
  pay_status (payment b) = pay_pending ->
  find (fun x => Nat.eqb (p_id x) (provider b)) (providers s) = Some p ->
  appointmentDate b = Some d ->
  now env <= d ->
  validateBooking b = Normal tt ->
  createPaymentIntent env (Normal i) req s
  = (writeBooking (intentVersion i b) s, IntentCreated i).
Proof.
  intros Hv Hf Hc Hpay Hp Hd Hle Hval.
  unfold createPaymentIntent, createPaymentIntentHandler. unfold_handler.
  rewrite Hv. simpl. rewrite Hf. simpl.
  rewrite Hc, Nat.eqb_refl, Hpay. simpl. rewrite Hp. simpl.
  change (set_payment _ b) with (intentVersion i b).
  rewrite (save_not_past env (intentVersion i b) s d); try assumption.
  reflexivity.
Qed.

(** X15.  POST /api/payments/create-payment-intent is open to the
    booking's customer while the payment is pending, and records the new
    intent and nothing else.  For a valid request on a stored booking:
    another user is answered 403 'Access denied'; the customer is answered
    400 'Payment already processed' once [payment.status] is no longer
    [pending]; either way the store is unchanged.  Otherwise, when the
    provider document exists, Stripe returns an intent and the booking is
    not in the past, the answer carries the intent's id and the booking
    read back afterwards differs from the stored one in
    [payment.stripePaymentIntentId] alone, any earlier id overwritten. *)
Theorem payment_intent_gate_and_effect :
  forall (env : Env) (created : Completion string) (req : PaymentIntentReq)
         (s : Store) (b : Booking),
    pi_valid req = true ->
    find (fun x => Nat.eqb (b_id x) (pi_bookingId req)) (bookings s) = Some b ->
    (customer b <> pi_user req ->
       createPaymentIntent env created req s
       = (s, IntentFailed (mkHttpResult (mkResponse 403 "Access denied") None)))
    /\ (customer b = pi_user req ->
        pay_status (payment b) <> pay_pending ->
        createPaymentIntent env created req s
        = (s, IntentFailed
                (mkHttpResult (mkResponse 400 "Payment already processed")
                   None)))
    /\ (forall (p : Provider) (i : string) (d : Z),
          customer b = pi_user req ->
          pay_status (payment b) = pay_pending ->
          find (fun x => Nat.eqb (p_id x) (provider b)) (providers s)
          = Some p ->
          created = Normal i ->
          appointmentDate b = Some d ->
          now env <= d ->
          validateBooking b = Normal tt ->
          snd (createPaymentIntent env created req s) = IntentCreated i
          /\ exists b',
               find (fun x => Nat.eqb (b_id x) (pi_bookingId req))
                 (bookings (fst (createPaymentIntent env created req s)))
               = Some b'
               /\ stripePaymentIntentId (payment b') = Some i
               /\ set_payment
                    (set_stripePaymentIntentId
                       (stripePaymentIntentId (payment b)) (payment b')) b'
                  = set_payment
                      (set_stripePaymentIntentId
                         (stripePaymentIntentId (payment b)) (payment b)) b).
Proof.
  intros env created req s b Hv Hf.
  split; [| split].
  - intro Hc.
    unfold createPaymentIntent, createPaymentIntentHandler. unfold_handler.
    rewrite Hv. simpl. rewrite Hf. simpl.
    apply Nat.eqb_neq in Hc. rewrite Hc. reflexivity.
  - intros Hc Hpay.
    unfold createPaymentIntent, createPaymentIntentHandler. unfold_handler.
    rewrite Hv. simpl. rewrite Hf. simpl.
    rewrite Hc, Nat.eqb_refl. simpl.
    destruct (pay_status (payment b)); try reflexivity. contradiction.
  - intros p i d Hc Hpay Hp -> Hd Hle Hval.
    rewrite (createPaymentIntent_commits env req s b p i d
               Hv Hf Hc Hpay Hp Hd Hle Hval).
    cbn [fst snd]. split; [reflexivity |].
    destruct (find_byId_existsb _ _ _ Hf) as [Hid _].
    exists (intentVersion i b). split.
    + rewrite <- Hid. apply (lookup_after_write (intentVersion i b)).
    + split; reflexivity.
Qed.

Lemma In_replaceBooking (b' : Booking) (l : list Booking) (y : Booking) :
  NoDup (map b_id l) ->
  In y (replaceBooking b' l) ->
  y = b' \/ (In y l /\ b_id y <> b_id b').
Proof.
  intros Hnd. induction l as [| x rest IH]; simpl; [contradiction |].
  inversion Hnd as [| z zs Hnotin Hnd']. subst.
  destruct (Nat.eqb_spec (b_id x) (b_id b')) as [E | E]; simpl.
  - intros [<- | Hin]; [left; reflexivity | right].
    split; [right; exact Hin |].
    intro Hy. apply Hnotin. rewrite E, <- Hy. apply in_map. exact Hin.
  - intros [<- | Hin]; [right; split; [left; reflexivity | exact E] |].
    destruct (IH Hnd' Hin) as [-> | [Hin' Hne]];
      [left; reflexivity | right; split; [right; exact Hin' | exact Hne]].
Qed.

Lemma superseded_intent_not_found (i0 i : string) (b : Booking) (s : Store) :
  uniqueIds s ->
  In b (bookings s) ->
  (forall x, In x (bookings s) -> hasPaymentIntent i0 x = true -> x = b) ->
  i <> i0 ->
  find (hasPaymentIntent i0) (bookings (writeBooking (intentVersion i b) s))
  = None.
Proof.
  intros Hu Hin Honly Hne.
  unfold writeBooking.
  assert (E : existsb (fun x => Nat.eqb (b_id x) (b_id (intentVersion i b)))
                (bookings s) = true) by (apply (In_existsb_id _ b Hin)).
  rewrite E. simpl.
  destruct (find (hasPaymentIntent i0)
              (replaceBooking (intentVersion i b) (bookings s)))
    as [y |] eqn:Hf; [exfalso | reflexivity].
  apply find_some in Hf. destruct Hf as [Hy Hint].
  destruct (In_replaceBooking _ _ _ Hu Hy) as [-> | [Hy' Hid]].
  - unfold hasPaymentIntent in Hint. simpl in Hint.
    apply String.eqb_eq in Hint. contradiction.
  - apply Hid. rewrite (Honly y Hy' Hint). reflexivity.
Qed.

(** X16.  A payment on a superseded intent is never credited.  In a
    collection with unique [_id]s, let create-payment-intent succeed for a
    booking and record the intent [i], and let [i0] be another intent id
    that no other booking carries (the booking's earlier intent, say).
    Afterwards no request finds the booking through [i0]: a valid
    confirmation of [i0] that Stripe reports as succeeded is answered 404
    'Booking not found', the succeeded and failed webhooks for [i0] do
    nothing, and the store stays as it is. *)
Theorem superseded_intent_is_never_credited :
  forall (env : Env) (req : PaymentIntentReq) (s : Store) (b : Booking)
         (p : Provider) (i i0 : string) (d : Z),
    uniqueIds s ->
    pi_valid req = true ->
    find (fun x => Nat.eqb (b_id x) (pi_bookingId req)) (bookings s) = Some b ->
    customer b = pi_user req ->
    pay_status (payment b) = pay_pending ->
    find (fun x => Nat.eqb (p_id x) (provider b)) (providers s) = Some p ->
    appointmentDate b = Some d ->
    now env <= d ->
    validateBooking b = Normal tt ->
    i <> i0 ->
    (forall x, In x (bookings s) -> hasPaymentIntent i0 x = true -> x = b) ->
    forall (env' : Env) (req' : ConfirmPaymentReq),
      cp_valid req' = true ->
      cp_paymentIntentId req' = i0 ->
      paymentIntentStatus env' i0 = Normal "succeeded" ->
      confirmPayment env' req' (fst (createPaymentIntent env (Normal i) req s))
      = (fst (createPaymentIntent env (Normal i) req s),
         mkHttpResult (mkResponse 404 "Booking not found") None)
      /\ handlePaymentSucceeded env' i0
           (fst (createPaymentIntent env (Normal i) req s))
         = (fst (createPaymentIntent env (Normal i) req s), None)
      /\ handlePaymentFailed env' i0
           (fst (createPaymentIntent env (Normal i) req s))
         = (fst (createPaymentIntent env (Normal i) req s), None).
Proof.
  intros env req s b p i i0 d Hu Hv Hf Hc Hpay Hp Hd Hle Hval Hne Honly
         env' req' Hv' Hid Hst.
  rewrite (createPaymentIntent_commits env req s b p i d
             Hv Hf Hc Hpay Hp Hd Hle Hval).
  cbn [fst].
  assert (Hnone : find (hasPaymentIntent i0)
                    (bookings (writeBooking (intentVersion i b) s)) = None).
  { apply superseded_intent_not_found; try assumption.
    apply find_some in Hf. apply Hf. }
  split.
  - unfold confirmPayment, confirmPaymentHandler. unfold_handler.
    rewrite Hv'. simpl. rewrite Hid, Hst. simpl. rewrite Hnone. reflexivity.
  - apply webhooks_not_found. exact Hnone.
Qed.

End Server.

(** * The scenario, evaluated

    The server runs in UTC. *)

(** C1, as stated, fails: a request can get past the availability
    check.  Provider 5 holds a working day named ["Invalid Date"]; for a
    request whose date is an Invalid Date [isAvailableAt] answers [true],
    the create route goes on to the conflict query, and the request ends
    there, in a cast error and a 500 response. *)
Lemma invalid_date_passes_availability_check :
  isAvailableAt utcHost providerInvalidDay None "10:00" = Normal true
  /\ createBooking utcHost env0 createReqInvalidDate storeInvalidDay
     = (storeInvalidDay,
        mkHttpResult (mkResponse 500 "Server error during booking creation")
          (Some (CastError "Cast to date failed for path appointmentDate"))).
Proof. split; vm_compute; reflexivity. Qed.

Lemma availability_throws_on_valid_dates_witness :
  isAvailableAt utcHost providerP None "10:00" = Normal false
  /\ snd (createBooking utcHost env0 createReqSameSlot store0)
     = mkHttpResult (mkResponse 500 "Server error during booking creation")
         (Some weekdayRangeError).
Proof.
  destruct (availability_throws_on_valid_dates utcHost providerP
              monday_2024_06_10 "10:00")
    as [_ [_ [_ [Hnamed [Hcreate _]]]]].
  split.
  - assert (Hdays : forall wd, In wd (p_workingDays providerP) ->
                               wd_day wd <> Some "Invalid Date").
    { intros wd [<- | []]. discriminate. }
    destruct (Hnamed Hdays None) as [H | H]; [| exact H].
    vm_compute in H. discriminate H.
  - destruct (Hcreate env0 createReqSameSlot store0) as [_ [_ [_ H]]].
    exact (H haircut monday_2024_06_10 eq_refl eq_refl eq_refl eq_refl).
Defined.

(** C2.  The confirm-payment route does not look at [payment.status].
    Booking 100 is paid and then cancelled by its customer, so its payment
    status is [succeeded], not [pending]; a replayed confirmation of the
    same payment intent nevertheless succeeds with 200, turns the cancelled
    booking back to [confirmed] and overwrites [paidAt].  The webhook
    handler, which tests for [pending], leaves the same store alone. *)
Theorem confirmPayment_overwrites_processed_booking :
  cancelBooking utcHost env0 cancelReqA store0
  = (store1,
     mkHttpResult (mkResponse 200 "Booking cancelled successfully") None)
  /\ pay_status (payment bookingA_cancelled) = pay_succeeded
  /\ status bookingA_cancelled = st_cancelled
  /\ confirmPayment env1 confirmReqA store1
     = (mkStore [bookingA_reconfirmed] [providerP],
        mkHttpResult (mkResponse 200 "Payment confirmed successfully") None)
  /\ status bookingA_reconfirmed = st_confirmed
  /\ paidAt (payment bookingA_reconfirmed) = Some (now env1)
  /\ handlePaymentSucceeded env1 "pi_A" store1 = (store1, None).
Proof. repeat split; vm_compute; reflexivity. Qed.

(** C5.  The conflict query itself finds booking 100 while it is
    confirmed and nothing once it is cancelled.  The create route never
    gets that far: the request for the taken slot ends in the RangeError of
    the day-name lookup and a 500 response, not in the conflict answer, and
    after the cancellation the same request ends the same way instead of
    succeeding. *)
Theorem create_for_taken_slot_is_server_error :
  Booking_findOne_conflict 1 (Some monday_2024_06_10) "10:00" None store0
  = (store0, Ret (Some bookingA))
  /\ createBooking utcHost env0 createReqSameSlot store0
     = (store0,
        mkHttpResult (mkResponse 500 "Server error during booking creation")
          (Some weekdayRangeError))
  /\ cancelBooking utcHost env0 cancelReqA store0
     = (store1,
        mkHttpResult (mkResponse 200 "Booking cancelled successfully") None)
  /\ Booking_findOne_conflict 1 (Some monday_2024_06_10) "10:00" None store1
     = (store1, Ret None)
  /\ createBooking utcHost env1 createReqSameSlot store1
     = (store1,
        mkHttpResult (mkResponse 500 "Server error during booking creation")
          (Some weekdayRangeError)).
Proof. repeat split; vm_compute; reflexivity. Qed.

(** C6.  For the Monday 09:00-17:00 provider, [getAvailableSlots] throws
    on that Monday instead of returning slots.  The statements after the
    day-name lookup, given the name ["monday"], do produce the 16 slots
    from 09:00-09:30 to 16:30-17:00. *)
Theorem monday_slots_are_never_returned :
  getAvailableSlots utcHost providerP (Some monday_2024_06_10)
  = Throw weekdayRangeError
  /\ exists slots,
       getAvailableSlots_from utcHost providerP "monday" (Some monday_2024_06_10)
       = Normal slots
       /\ List.length slots = 16%nat
       /\ hd_error slots = Some (mkSlot "09:00" "09:30" true)
       /\ last slots (mkSlot "" "" false) = mkSlot "16:30" "17:00" true.
Proof.
  split; [reflexivity |].
  exists (map (slotAt utcHost 946717200000) (seq 0 16)).
  repeat split; vm_compute; reflexivity.
Qed.

(** C7.  For a provider without working days, and for one whose Monday is
    switched off and blocked, [getAvailableSlots] throws on that Monday
    instead of returning the empty list.  The statements after the
    day-name lookup, given the name ["monday"], return the empty list. *)
Theorem closed_day_slots_are_never_returned :
  getAvailableSlots utcHost providerNoDays (Some monday_2024_06_10)
  = Throw weekdayRangeError
  /\ getAvailableSlots utcHost providerClosed (Some monday_2024_06_10)
     = Throw weekdayRangeError
  /\ getAvailableSlots_from utcHost providerNoDays "monday" (Some monday_2024_06_10)
     = Normal []
  /\ getAvailableSlots_from utcHost providerClosed "monday" (Some monday_2024_06_10)
     = Normal [].
Proof. repeat split; reflexivity. Qed.

(** C8.  For the Monday 09:00-17:00 provider, [isAvailableAt] at 17:00 on
    that Monday throws instead of answering [false].  The statements after
    the day-name lookup, given the name ["monday"], answer [false] at 17:00
    and [true] at 16:59. *)
Theorem end_of_day_query_throws :
  isAvailableAt utcHost providerP (Some monday_2024_06_10) "17:00"
  = Throw weekdayRangeError
  /\ isAvailableAt_from utcHost providerP "monday" (Some monday_2024_06_10) "17:00"
     = Normal false
  /\ isAvailableAt_from utcHost providerP "monday" (Some monday_2024_06_10) "16:59"
     = Normal true.
Proof. repeat split; reflexivity. Qed.

(** C9, as stated, fails: a new booking dated at the very instant of the
    save is not strictly in the future, and it is stored. *)
Lemma save_accepts_date_equal_to_now :
  ~ (forall (env : Env) (b : Booking) (s : Store) (d : Z),
        find (fun x => Nat.eqb (b_id x) (b_id b)) (bookings s) = None ->
        appointmentDate b = Some d ->
        d <= now env ->
        exists e, save env b s = (s, Raise e)).
Proof.
  intro H.
  destruct (H env0 bookingNow store0 1717416000000 eq_refl eq_refl) as [e He].
  - vm_compute. discriminate.
  - vm_compute in He. discriminate.
Qed.

Lemma save_new_booking_date_check_witness :
  save envLate bookingPast store0 = (store0, Raise pastDateError)
  /\ exists s', save env0 bookingNow store0 = (s', Ret tt)
                /\ bookings s' = [bookingA; bookingNow].
Proof.
  destruct (save_new_booking_date_check envLate bookingPast store0
              monday_2024_06_10 eq_refl eq_refl) as [Hpast _].
  destruct (save_new_booking_date_check env0 bookingNow store0
              1717416000000 eq_refl eq_refl) as [_ Hnow].
  split.
  - apply Hpast; [vm_compute; reflexivity | reflexivity].
  - apply Hnow; [vm_compute; discriminate | reflexivity].
Defined.

Lemma refund_tiers_witness :
  calculateRefund utcHost bookingA (1718013600000 - 25 * 3600000) = 40%Q
  /\ calculateRefund utcHost bookingA (1718013600000 - 10 * 3600000)
     = (40 * (1 # 2))%Q
  /\ calculateRefund utcHost bookingA (1718013600000 - 1 * 3600000) = 0%Q.
Proof.
  split; [| split].
  - destruct (refund_tiers utcHost bookingA (1718013600000 - 25 * 3600000)
                1718013600000 eq_refl) as [H _].
    apply H. vm_compute. reflexivity.
  - destruct (refund_tiers utcHost bookingA (1718013600000 - 10 * 3600000)
                1718013600000 eq_refl) as [_ [H _]].
    apply H. vm_compute. split; [reflexivity | discriminate].
  - destruct (refund_tiers utcHost bookingA (1718013600000 - 1 * 3600000)
                1718013600000 eq_refl) as [_ [_ [H _]]].
    apply H. vm_compute. discriminate.
Defined.

Lemma cancel_reschedule_windows_witness :
  canBeCancelled utcHost bookingA (1718013600000 - 3 * 3600000) = true
  /\ canBeRescheduled utcHost bookingA (1718013600000 - 3 * 3600000) = false
  /\ canBeCancelled utcHost bookingNow 0 = false.
Proof.
  destruct (cancel_reschedule_windows utcHost bookingA
              (1718013600000 - 3 * 3600000)) as [_ [_ [_ H]]].
  destruct (H 1718013600000 eq_refl eq_refl eq_refl) as [Hc Hr].
  destruct (cancel_reschedule_windows utcHost bookingNow 0) as [_ [_ [Hp _]]].
  split; [exact Hc | split; [exact Hr | exact (Hp eq_refl)]].
Defined.

Lemma past_booking_is_frozen_witness :
  save envLate (set_status st_no_show bookingPast) storePast
  = (storePast, Raise pastDateError)
  /\ updateStatus envLate statusReqPast storePast
     = (storePast,
        mkHttpResult (mkResponse 500 "Server error") (Some pastDateError))
  /\ cancelBooking utcHost envLate cancelReqPast storePast
     = (storePast,
        mkHttpResult (mkResponse 500 "Server error") (Some pastDateError))
  /\ confirmPayment envLate confirmReqPast storePast
     = (storePast,
        mkHttpResult
          (mkResponse 500 "Server error during payment confirmation")
          (Some pastDateError))
  /\ handlePaymentSucceeded envLate "pi_P" storePast
     = (storePast, Some pastDateError)
  /\ handlePaymentFailed envLate "pi_P" storePast
     = (storePast, Some pastDateError).
Proof.
  assert (Hlt : monday_2024_06_10 < now envLate) by (vm_compute; reflexivity).
  destruct (past_booking_is_frozen utcHost envLate storePast
              (set_status st_no_show bookingPast)
              monday_2024_06_10 eq_refl Hlt eq_refl) as [Hsave _].
  destruct (past_booking_is_frozen utcHost envLate storePast bookingPast
              monday_2024_06_10 eq_refl Hlt eq_refl)
    as [_ [Hs [Hc [Hp Hw]]]].
  split; [exact Hsave |].
  split; [| split; [| split; [| split]]].
  - destruct (Hs statusReqPast eq_refl) as [H1 H2].
    rewrite (surjective_pairing (updateStatus _ _ _)), H1, (H2 eq_refl eq_refl).
    reflexivity.
  - destruct (Hc cancelReqPast eq_refl) as [H1 H2].
    rewrite (surjective_pairing (cancelBooking _ _ _ _)), H1,
      (H2 (or_introl eq_refl) eq_refl).
    reflexivity.
  - destruct (Hp confirmReqPast eq_refl) as [H1 H2].
    rewrite (surjective_pairing (confirmPayment _ _ _)), H1,
      (H2 eq_refl eq_refl eq_refl).
    reflexivity.
  - destruct (Hw "pi_P" eq_refl) as [[H1 H2] _].
    rewrite (surjective_pairing (handlePaymentSucceeded _ _ _)), H1,
      (H2 eq_refl).
    reflexivity.
  - destruct (Hw "pi_P" eq_refl) as [_ [H1 H2]].
    rewrite (surjective_pairing (handlePaymentFailed _ _ _)), H1,
      (H2 eq_refl).
    reflexivity.
Defined.

(** * The further properties, at the scenario *)

Lemma utc_offsetOn2000 : offsetOn2000 utcHost 0.
Proof. intros x _. split; reflexivity. Qed.

Lemma time_label_round_trip_witness :
  newDate2000 utcHost "09:30" = Some 946719000000
  /\ toTimeString_slice5 utcHost (newDate2000 utcHost "09:30") = "09:30".
Proof.
  destruct (time_label_round_trip utcHost 0 utc_offsetOn2000) as [H _].
  exact (H 9 30 ltac:(lia) ltac:(lia)).
Defined.

Lemma slots_are_the_whole_half_hours_witness :
  getAvailableSlots_from utcHost providerOdd "monday" (Some monday_2024_06_10)
  = Normal [mkSlot "09:00" "09:30" true; mkSlot "09:30" "10:00" true;
            mkSlot "10:00" "10:30" true].
Proof.
  destruct (slots_are_the_whole_half_hours utcHost providerOdd "monday"
              (Some monday_2024_06_10)
              (mkWorkingDay (Some "monday") "09:00" "10:45" true)
              eq_refl eq_refl eq_refl) as [H _].
  exact (H 946717200000 946723500000 eq_refl eq_refl).
Defined.

Lemma offered_slots_are_available_witness :
  isAvailableAt_from utcHost providerOdd "monday" (Some monday_2024_06_10)
    "10:00"
  = Normal true.
Proof.
  assert (Hs : isTimeLabel "09:00" 540).
  { exists 9, 0. split; [left; lia | split; reflexivity]. }
  assert (He : isTimeLabel "10:45" 645).
  { exists 10, 45. split; [left; lia | split; reflexivity]. }
  apply (offered_slots_are_available utcHost 0 providerOdd "monday"
           (Some monday_2024_06_10)
           (mkWorkingDay (Some "monday") "09:00" "10:45" true) 540 645
           [mkSlot "09:00" "09:30" true; mkSlot "09:30" "10:00" true;
            mkSlot "10:00" "10:30" true]
           utc_offsetOn2000 eq_refl eq_refl eq_refl Hs He eq_refl
           (mkSlot "10:00" "10:30" true)).
  right. right. left. reflexivity.
Defined.

Lemma appointment_keeps_day_and_start_time_witness :
  exists t : Z,
    appointmentDateTime utcHost bookingA = Some t
    /\ Day (LocalTime utcHost t) = Day (LocalTime utcHost monday_2024_06_10)
    /\ toTimeString_slice5 utcHost (Some t) = "10:00".
Proof.
  apply (appointment_keeps_day_and_start_time utcHost bookingA
           monday_2024_06_10 10 0 eq_refl).
  - vm_compute. discriminate.
  - lia.
  - lia.
  - left. reflexivity.
  - vm_compute. reflexivity.
Defined.

Lemma date_only_appointment_shifts_west_of_utc_witness :
  appointmentDateTime hostEast bookingA
  = Some (monday_2024_06_10 + 36000000 - 3600000)
  /\ appointmentDateTime hostWest bookingA
     = Some (monday_2024_06_10 - 86400000 + 36000000 + 18000000).
Proof.
  destruct (date_only_appointment_shifts_west_of_utc hostEast bookingA
              monday_2024_06_10 10 0 eq_refl eq_refl
              ltac:(lia) ltac:(lia) eq_refl) as [Heast _].
  destruct (date_only_appointment_shifts_west_of_utc hostWest bookingA
              monday_2024_06_10 10 0 eq_refl eq_refl
              ltac:(lia) ltac:(lia) eq_refl) as [_ Hwest].
  split.
  - rewrite Heast; [reflexivity | vm_compute; discriminate].
  - rewrite Hwest; [reflexivity | vm_compute; reflexivity].
Defined.

Lemma availability_endpoint_never_lists_a_day_witness :
  snd (getAvailability utcHost availabilityReqP store0)
  = AvailabilityFailed
      (mkHttpResult (mkResponse 500 "Server error") (Some weekdayRangeError)).
Proof.
  destruct (availability_endpoint_never_lists_a_day utcHost availabilityReqP store0)
    as [_ [_ H]].
  exact (H providerP (Some monday_2024_06_10)
           (Some (monday_2024_06_10 + 172800000)) eq_refl eq_refl eq_refl).
Defined.

Lemma webhook_redelivery_changes_nothing_witness :
  fst (handlePaymentSucceeded env1 "pi_P"
         (fst (handlePaymentSucceeded env0 "pi_P" storePast)))
  = fst (handlePaymentSucceeded env0 "pi_P" storePast)
  /\ fst (handlePaymentSucceeded env1 "pi_P"
            (fst (handlePaymentFailed env0 "pi_P" storePast)))
     = fst (handlePaymentFailed env0 "pi_P" storePast).
Proof.
  assert (Hu : uniqueIds storePast).
  { unfold uniqueIds. simpl. constructor; [intros [] | constructor]. }
  assert (Hnow : now env0 <= now env1) by (vm_compute; discriminate).
  destruct (webhook_redelivery_changes_nothing env0 env1 "pi_P" storePast
              Hu Hnow) as [[H1 _] [H2 _]].
  split; [exact H1 | exact H2].
Defined.

Lemma status_update_ignores_current_status_witness :
  exists b' : Booking,
    find (fun x => Nat.eqb (b_id x) 100)
      (bookings (fst (updateStatus env1 statusReqA store1))) = Some b'
    /\ status b' = st_confirmed.
Proof.
  destruct (status_update_ignores_current_status env1 statusReqA store1
              bookingA_cancelled monday_2024_06_10
              eq_refl eq_refl eq_refl eq_refl
              ltac:(vm_compute; discriminate) eq_refl)
    as [b' [Hf [Hst _]]].
  exists b'. split; [exact Hf | exact Hst].
Defined.

Lemma failed_notification_after_commit_witness :
  snd (updateStatus envNoMail statusReqNow storeNow)
  = mkHttpResult (mkResponse 500 "Server error")
      (Some (Error "Failed to send email"))
  /\ snd (confirmPayment envNoMail confirmReqPast storePast)
     = mkHttpResult
         (mkResponse 500 "Server error during payment confirmation")
         (Some (Error "Failed to send email")).
Proof.
  destruct (failed_notification_after_commit envNoMail storeNow bookingNow
              1717416000000 eq_refl eq_refl
              ltac:(vm_compute; discriminate) eq_refl) as [Hs _].
  destruct (failed_notification_after_commit envNoMail storePast bookingPast
              monday_2024_06_10 eq_refl eq_refl
              ltac:(vm_compute; discriminate) eq_refl) as [_ Hc].
  split.
  - exact (proj1 (Hs statusReqNow eq_refl eq_refl eq_refl eq_refl eq_refl)).
  - exact (proj1 (Hc confirmReqPast eq_refl eq_refl eq_refl eq_refl)).
Defined.


Lemma cancellation_records_a_refund_witness :
  snd (cancelBooking utcHost envTicking cancelReqA store0)
  = mkHttpResult (mkResponse 200 "Booking cancelled successfully") None
  /\ exists c : Cancellation,
       option_map cancellation
         (find (fun x => Nat.eqb (b_id x) 100)
            (bookings (fst (cancelBooking utcHost envTicking cancelReqA
                              store0))))
       = Some (Some c)
       /\ cancelledAt c = 1717416000001
       /\ refundAmount c = 40%Q.
Proof.
  destruct (cancellation_records_a_refund utcHost envTicking cancelReqA store0
              bookingA monday_2024_06_10
              eq_refl (or_introl eq_refl) eq_refl eq_refl
              ltac:(vm_compute; discriminate) eq_refl)
    as [H200 [b' [c [Hf [_ [_ [Hc [Hat [_ [_ [_ [_ [Hfull _]]]]]]]]]]]]].
  split; [exact H200 |].
  exists c. split; [| split].
  - change (cn_id cancelReqA) with 100%nat in Hf. rewrite Hf.
    cbn [option_map]. rewrite Hc. reflexivity.
  - exact Hat.
  - apply (Hfull 1718013600000); [reflexivity | vm_compute; reflexivity].
Defined.


Lemma only_the_customer_passes_without_req_provider_witness :
  cancelBooking utcHost env0 cancelReqByProvider store0
  = (store0, mkHttpResult (mkResponse 403 "Access denied") None)
  /\ rescheduleBooking utcHost env0 rescheduleReqByProvider store0
     = (store0, mkHttpResult (mkResponse 403 "Access denied") None).
Proof.
  destruct (only_the_customer_passes_without_req_provider utcHost env0 store0
              bookingA) as [Hc Hr].
  split.
  - exact (Hc cancelReqByProvider eq_refl eq_refl ltac:(discriminate)).
  - exact (Hr rescheduleReqByProvider eq_refl eq_refl eq_refl
             ltac:(discriminate)).
Defined.

Lemma payment_intent_gate_and_effect_witness :
  snd (createPaymentIntent env0 (Normal "pi_new") intentReqPast storePast)
  = IntentCreated "pi_new"
  /\ createPaymentIntent env0 (Normal "pi_new") intentReqPast
       (mkStore [bookingA] [providerP])
     = (mkStore [bookingA] [providerP],
        IntentFailed (mkHttpResult (mkResponse 404 "Booking not found") None)).
Proof.
  destruct (payment_intent_gate_and_effect env0 (Normal "pi_new")
              intentReqPast storePast bookingPast eq_refl eq_refl)
    as [_ [_ H]].
  split.
  - exact (proj1 (H providerP "pi_new" monday_2024_06_10
                    eq_refl eq_refl eq_refl eq_refl eq_refl
                    ltac:(vm_compute; discriminate) eq_refl)).
  - reflexivity.
Defined.

Lemma superseded_intent_is_never_credited_witness :
  confirmPayment env1 confirmReqPast
    (fst (createPaymentIntent env0 (Normal "pi_new") intentReqPast storePast))
  = (fst (createPaymentIntent env0 (Normal "pi_new") intentReqPast storePast),
     mkHttpResult (mkResponse 404 "Booking not found") None).
Proof.
  assert (Hu : uniqueIds storePast).
  { unfold uniqueIds. simpl. constructor; [intros [] | constructor]. }
  assert (Honly : forall x, In x (bookings storePast) ->
                            hasPaymentIntent "pi_P" x = true ->
                            x = bookingPast).
  { intros x [<- | []] _. reflexivity. }
  exact (proj1 (superseded_intent_is_never_credited env0 intentReqPast
                  storePast bookingPast providerP "pi_new" "pi_P"
                  monday_2024_06_10
                  Hu eq_refl eq_refl eq_refl eq_refl eq_refl eq_refl
                  ltac:(vm_compute; discriminate) eq_refl
                  ltac:(discriminate) Honly
                  env1 confirmReqPast eq_refl eq_refl eq_refl)).
Defined.

(** * Where the conditions of the further properties bite *)

(** A working day that begins thirty seconds past the minute: 15 slots
    are offered, the first labelled 09:00, a time at which the provider is
    not yet available. *)
Example seconds_in_a_bound_shift_the_slots :
  exists slots,
    getAvailableSlots_from utcHost providerSeconds "monday"
      (Some monday_2024_06_10) = Normal slots
    /\ List.length slots = 15%nat
    /\ hd_error slots = Some (mkSlot "09:00" "09:30" true)
    /\ isAvailableAt_from utcHost providerSeconds "monday"
         (Some monday_2024_06_10) "09:00" = Normal false.
Proof.
  exists (map (slotAt utcHost 946717230000) (seq 0 15)).
  repeat split; vm_compute; reflexivity.
Qed.

(** In New York, 02:30 does not exist on 2024-03-10: the appointment of
    booking 400 falls at 07:30 UTC, which local clocks show as 03:30. *)
Example skipped_hour_moves_the_appointment :
  appointmentDateTime hostNewYork bookingSpring = Some 1710055800000
  /\ toTimeString_slice5 hostNewYork (Some 1710055800000) = "03:30".
Proof. split; vm_compute; reflexivity. Qed.

(** A cancellation may record a refund of 0: for booking 500 when the two
    hours run out between the reading of [canBeCancelled] and that of
    [calculateRefund], and for booking 600, whose service is free. *)
Example cancellation_may_record_no_refund :
  canBeCancelled utcHost bookingEarly (now envMidnight) = true
  /\ snd (cancelBooking utcHost envMidnight cancelReqEarly storeEarly)
     = mkHttpResult (mkResponse 200 "Booking cancelled successfully") None
  /\ option_map (fun b => option_map refundAmount (cancellation b))
       (find (fun x => Nat.eqb (b_id x) 500)
          (bookings (fst (cancelBooking utcHost envMidnight cancelReqEarly
                            storeEarly))))
     = Some (Some 0%Q)
  /\ snd (cancelBooking utcHost env0 cancelReqFree storeEarly)
     = mkHttpResult (mkResponse 200 "Booking cancelled successfully") None
  /\ option_map (fun b => option_map refundAmount (cancellation b))
       (find (fun x => Nat.eqb (b_id x) 600)
          (bookings (fst (cancelBooking utcHost env0 cancelReqFree
                            storeEarly))))
     = Some (Some 0%Q).
Proof. repeat split; vm_compute; reflexivity. Qed.
